(** * esi-cosim-runner.py: the ESI cosimulation test runner

    A shallow embedding of [src/esi-cosim-runner.py] and the properties of
    its process life cycle: compile, launch of the simulation, discovery of
    the RPC port through [cosim.cfg], the readiness probe, the test phase,
    the teardown in the [finally] block and the verdict computed from the
    logs.

    The script talks to the operating system all the time.  Every answer
    the outside gives (does a file exist, what does [poll()] say, what did
    the compiler return) is read from a [World], a record of oracles; every
    action the script takes on the outside is appended to a trace of
    [event]s.  Local variables that the [finally] block reads ([simProc],
    [testProc]) live in an explicit state that survives a raised
    exception; [simProc] is the [Popen] object, which remembers an exit
    that [poll()] has collected. *)

From Stdlib Require Import String Ascii List ZArith Bool Lia Arith.
From Stdlib Require Import DecimalString DecimalPos.
Import ListNotations.

Local Open Scope string_scope.
Local Open Scope list_scope.
Local Open Scope Z_scope.

(** Python's [+] on [str]. *)
Infix "+++" := String.append (at level 60, right associativity).

(* ------------------------------------------------------------------ *)
(** ** Strings: the pieces of the Python library the script uses.

    Text is modelled as Rocq [string]s of 8-bit characters, so [\s], [\d]
    and [str.strip] are their ASCII restrictions. *)

Module PyStr.

Definition nl : string := String (ascii_of_nat 10) EmptyString.
Definition dquote : string := String (ascii_of_nat 34) EmptyString.

(** [str(n)] for an [int]. *)
Definition str (z : Z) : string := NilZero.string_of_int (Z.to_int z).

Definition is_digit (c : ascii) : bool :=
  let n := nat_of_ascii c in (48 <=? n)%nat && (n <=? 57)%nat.

(** [str.isspace] on one ASCII character: TAB, LF, VT, FF, CR, the four
    separators 0x1c-0x1f and the blank. *)
Definition is_space (c : ascii) : bool :=
  let n := nat_of_ascii c in
  ((9 <=? n)%nat && (n <=? 13)%nat) || ((28 <=? n)%nat && (n <=? 32)%nat).

Definition is_newline (c : ascii) : bool := (nat_of_ascii c =? 10)%nat.

(** [int(s)] for a string of decimal digits. *)
Fixpoint int_digits (acc : Z) (s : string) : Z :=
  match s with
  | EmptyString => acc
  | String c r => int_digits (10 * acc + (Z.of_nat (nat_of_ascii c) - 48)) r
  end.
Definition int (s : string) : Z := int_digits 0 s.

(** [s[len(p):]] when [s.startswith(p)]. *)
Fixpoint strip_prefix (p s : string) : option string :=
  match p with
  | EmptyString => Some s
  | String a p' =>
      match s with
      | EmptyString => None
      | String b s' => if Ascii.eqb a b then strip_prefix p' s' else None
      end
  end.

Definition startswith (s p : string) : bool :=
  match strip_prefix p s with Some _ => true | None => false end.

Fixpoint rev_acc (s acc : string) : string :=
  match s with
  | EmptyString => acc
  | String c r => rev_acc r (String c acc)
  end.
Definition rev (s : string) : string := rev_acc s EmptyString.

Definition endswith (s p : string) : bool := startswith (rev s) (rev p).

Fixpoint take_while (f : ascii -> bool) (s : string) : string :=
  match s with
  | EmptyString => EmptyString
  | String c r => if f c then String c (take_while f r) else EmptyString
  end.

Fixpoint drop_while (f : ascii -> bool) (s : string) : string :=
  match s with
  | EmptyString => EmptyString
  | String c r => if f c then drop_while f r else s
  end.

Definition lstrip (s : string) : string := drop_while is_space s.
Definition rstrip (s : string) : string := rev (drop_while is_space (rev s)).
(** [s.strip()] *)
Definition strip (s : string) : string := rstrip (lstrip s).

Definition is_empty (s : string) : bool :=
  match s with EmptyString => true | _ => false end.

(** [sep.join(l)] *)
Fixpoint join (sep : string) (l : list string) : string :=
  match l with
  | [] => EmptyString
  | [x] => x
  | x :: r => x +++ sep +++ join sep r
  end.

(** [s.split(" ")]: split at every single blank, empty pieces kept. *)
Fixpoint split_blank (cur : string) (s : string) : list string :=
  match s with
  | EmptyString => [rev cur]
  | String c r =>
      if Ascii.eqb c " "%char then rev cur :: split_blank EmptyString r
      else split_blank (String c cur) r
  end.
Definition split (s : string) : list string := split_blank EmptyString s.

(** [f.readlines()] on text whose line ends are already [\n]: every
    line keeps its newline, the last one may lack it. *)
Fixpoint readlines_from (cur : string) (s : string) : list string :=
  match s with
  | EmptyString => if is_empty cur then [] else [rev cur]
  | String c r =>
      if is_newline c then rev (String c cur) :: readlines_from EmptyString r
      else readlines_from (String c cur) r
  end.
Definition readlines (s : string) : list string := readlines_from EmptyString s.

End PyStr.

(** [os.path] on POSIX paths. *)
Module OsPath.
Import PyStr.

Definition is_slash (c : ascii) : bool := Ascii.eqb c "/"%char.

(** [p[:p.rfind('/')+1]] reversed: what is left of the reversed path
    once the characters after the last slash are dropped. *)
Definition rev_head (p : string) : string :=
  drop_while (fun c => negb (is_slash c)) (rev p).

(** [posixpath.dirname] *)
Definition dirname (p : string) : string :=
  let rh := rev_head p in
  if is_empty (drop_while is_slash rh) then rev rh
  else rev (drop_while is_slash rh).

(** [posixpath.basename]: [p[p.rfind('/')+1:]] *)
Definition basename (p : string) : string :=
  rev (take_while (fun c => negb (is_slash c)) (rev p)).

(** One step of [posixpath.join]. *)
Definition join2 (path b : string) : string :=
  if startswith b "/" then b
  else if is_empty path || endswith path "/" then path +++ b
  else path +++ "/" +++ b.

(** [posixpath.join(a, *p)] *)
Definition join (a : string) (p : list string) : string := fold_left join2 p a.

End OsPath.

(* ------------------------------------------------------------------ *)
(** ** The two regular expressions of the script *)

Module Re.
Import PyStr.

(** The port pattern of [run]: at the start of the line the six
    characters of port, colon, blank, then one or more digits.  [Some]
    of group 1. *)
Definition match_port (line : string) : option string :=
  match strip_prefix "port: " line with
  | Some rest =>
      let digits := take_while is_digit rest in
      if is_empty digits then None else Some digits
  | None => None
  end.

(** The greedy any-character group followed by the end anchor, in a
    pattern without flags: the rest holds no newline but possibly a last
    one, which stays outside the group. *)
Definition dot_star_eol (rest : string) : option string :=
  let body := take_while (fun c => negb (is_newline c)) rest in
  let tail := drop_while (fun c => negb (is_newline c)) rest in
  if is_empty tail || String.eqb tail nl then Some body else None.

(** The directive pattern of [__init__]: at the start of the line a
    marker, two slashes or a hash, then any white space, then PY: and
    the rest of the line.  [Some] of group 2. *)
Definition match_PY (line : string) : option string :=
  let after_marker :=
    match strip_prefix "//" line with
    | Some r => Some r
    | None => strip_prefix "#" line
    end in
  match after_marker with
  | Some r =>
      match strip_prefix "PY:" (drop_while is_space r) with
      | Some rest => dot_star_eol rest
      | None => None
      end
  | None => None
  end.

End Re.

(* ------------------------------------------------------------------ *)
(** ** Exceptions, events and the world *)

(** The exceptions that can leave a function of the script. *)
Inductive exn : Type :=
| Exception (msg : string)           (* [raise Exception(...)] in the script *)
| FileNotFoundError (path : string)  (* [open] of a file that is not there *)
| OSError (what : string)            (* [open(..., "w")], [Popen], [subprocess.run] refused *)
| KeyError (key : string)            (* a missing environment variable *)
| EOFError                           (* [input] at the end of the input *)
| ProcessLookupError                 (* [os.getpgid] of a process that is gone *)
| OverflowError (what : string)      (* a port that is no 16-bit number *)
| UnicodeDecodeError (path : string) (* [f.read()] of bytes that are no text *)
| SystemExit (code : Z).             (* [argparse] leaves: usage error or help *)

Inductive signal : Type := SIGINT | SIGKILL.

(** What the script does to the outside, in the order it does it.
    Durations are in milliseconds. *)
Inductive event : Type :=
| EPrint (s : string)
| EPrintHelp
| EMkdir (path : string)
| EChdir (path : string)
| EOpenW (path : string)
| EWrite (path : string) (text : string)
| EClose (path : string)
| ERemove (path : string)
| ECompile (cmd : list string)
| ELaunch (cmd : list string) (debug_file : option string) (pid : Z)
| EExists (path : string) (found : bool)
| EPoll (returncode : option Z)
| ESleep (ms : Z)
| EReadCfg (content : string)
| ESocket
| EConnect (port : Z) (result : Z)
| ESockClose
| EInput (prompt : string)
| ERunTest (cmd : list string) (pythonpath : string) (returncode : Z)
| EKillpg (pid : Z) (sig : signal)
| EWait (timeout_ms : Z) (exited : bool)
| EKill (pid : Z)
| EReadLog (path : string).

(** The parsed command line, [argparse]'s namespace. *)
Record Namespace : Type := {
  ns_interactive : bool;
  ns_sim : string;
  ns_schema : string;
  ns_tmpdir : string;
  ns_no_aux_files : bool;
  ns_exec : bool;
  ns_test_args : string;
  ns_server_only : bool;
  ns_source : string;
  ns_addlArgs : list string
}.

(** The answers of the outside during one invocation.  The polling loops
    ask the same question many times; their oracles are indexed by the
    number of the iteration, counted from 0.  The oracles of [poll()]
    give what the call returns, so that once one of them has reported the
    exit the later ones report it again; a returncode is the exit status
    of the process, 0 to 255, or the negated number of the signal that
    killed it. *)
Record World : Type := {
  this_file : string;                    (* [__file__] *)
  sys_executable : string;
  env_PYTHONPATH : option string;
  parse_args : list string -> option Namespace;  (* [None]: [argparse] exits *)
  parse_help : list string -> bool;      (* it exits for [-h], not for an error *)
  path_exists : string -> bool;          (* [os.path.exists] outside the loops *)
  source_file : option (list string);    (* the lines of the test file *)
  can_open_w : string -> bool;           (* does [open(path, "w")] succeed *)
  compile_proc : option (Z * string * string);  (* returncode, stdout, stderr *)
  compile_time : string;
  run_time : string;
  popen_pid : option Z;                  (* [None]: [Popen] raises *)
  cfg_exists : nat -> bool;              (* [os.path.exists(portFileName)] *)
  poll_disc : nat -> option Z;           (* [simProc.poll()] while waiting for the file *)
  cfg_read : nat -> option string;       (* the text of [cosim.cfg] at each open *)
  connect_ex : nat -> Z -> Z;            (* errno of the connect, 0 on success *)
  poll_ready : nat -> option Z;          (* [simProc.poll()] while probing the port *)
  input_line : option string;            (* [None]: end of input *)
  test_proc : option Z;                  (* returncode of the test, [None]: cannot start *)
  wait_exits : bool;                     (* did the simulation exit within the grace period *)
  log_file : string -> option string;    (* the logs when [readLogs] opens them *)
  log_decodes : string -> bool           (* are the bytes of that log text *)
}.

(* ------------------------------------------------------------------ *)
(** ** The monad: local state, trace, exceptions, fuel *)

Inductive outcome (A : Type) : Type :=
| Ret (a : A)
| Raise (e : exn).
Arguments Ret {A} a.
Arguments Raise {A} e.

(** A [subprocess.Popen] object: the process id, and the attribute
    [returncode], which stays [None] until a [poll()] has seen the
    process exit and collected it. *)
Record Popen : Type := {
  pid : Z;
  returncode : option Z
}.

(** The object [Popen] returns, and the same object once [poll()] has
    collected the exit status [code]. *)
Definition running (pid : Z) : Popen := {| pid := pid; returncode := None |}.
Definition exited (code : Z) (p : Popen) : Popen :=
  {| pid := pid p; returncode := Some code |}.

(** The two locals of [run] that its [finally] block reads. *)
Record Locals : Type := mkLocals {
  simProc : option Popen;  (* the simulation, once launched *)
  testProc : option Z      (* the returncode of the test, once it ran *)
}.

(** A computation starts from the locals and gives, unless an unbounded
    loop used up its fuel ([None]), a result or an exception, the locals
    at that point and the events it produced. *)
Definition M (A : Type) : Type :=
  Locals -> option (outcome A * Locals * list event).

Definition ret {A} (a : A) : M A := fun l => Some (Ret a, l, []).
Definition raise {A} (e : exn) : M A := fun l => Some (Raise e, l, []).
Definition out_of_fuel {A} : M A := fun _ => None.
Definition emit (e : event) : M unit := fun l => Some (Ret tt, l, [e]).

Definition bind {A B} (m : M A) (k : A -> M B) : M B := fun l =>
  match m l with
  | None => None
  | Some (Raise e, l1, t1) => Some (Raise e, l1, t1)
  | Some (Ret a, l1, t1) =>
      match k a l1 with
      | None => None
      | Some (r, l2, t2) => Some (r, l2, t1 ++ t2)
      end
  end.

Notation "x <- c1 ;; c2" := (bind c1 (fun x => c2))
  (at level 61, c1 at next level, right associativity).
Notation "c1 ;; c2" := (bind c1 (fun _ => c2))
  (at level 61, right associativity).

Definition get_locals : M Locals := fun l => Some (Ret l, l, []).
Definition set_simProc (p : option Popen) : M unit :=
  fun l => Some (Ret tt, mkLocals p (testProc l), []).
Definition set_testProc (p : option Z) : M unit :=
  fun l => Some (Ret tt, mkLocals (simProc l) p, []).

(** [try: body finally: fin]: [fin] runs whatever [body] did, from the
    locals [body] left.  An exception of [fin] wins; otherwise the one of
    [body] goes on; otherwise the code after the statement continues, here
    with the value [fin] computed. *)
Definition try_finally {A B} (body : M A) (fin : M B) : M B := fun l =>
  match body l with
  | None => None
  | Some (r, l1, t1) =>
      match fin l1 with
      | None => None
      | Some (Raise e, l2, t2) => Some (Raise e, l2, t1 ++ t2)
      | Some (Ret b, l2, t2) =>
          match r with
          | Raise e => Some (Raise e, l2, t1 ++ t2)
          | Ret _ => Some (Ret b, l2, t1 ++ t2)
          end
      end
  end.

(** A call from outside: fresh locals, the final locals dropped. *)
Definition exec_M {A} (m : M A) : option (outcome A * list event) :=
  match m (mkLocals None None) with
  | None => None
  | Some (r, _, t) => Some (r, t)
  end.

(* ------------------------------------------------------------------ *)
(** ** Primitive actions *)

Section Primitives.
Variable w : World.
Import PyStr.

Definition print (s : string) : M unit := emit (EPrint s).

Definition open_w (path : string) : M unit :=
  if can_open_w w path then emit (EOpenW path) else raise (OSError path).

Definition close (path : string) : M unit := emit (EClose path).

Definition sleep (ms : Z) : M unit := emit (ESleep ms).

(** [open(path)] then [f.read()] of a log: the file may be missing, and
    its bytes may fail to decode as text. *)
Definition read_log (path : string) : M string :=
  match log_file w path with
  | Some text =>
      if log_decodes w path then emit (EReadLog path) ;; ret text
      else raise (UnicodeDecodeError path)
  | None => raise (FileNotFoundError path)
  end.

(** [subprocess.run(cmd, capture_output=True, text=True)] *)
Definition subprocess_run_capture (cmd : list string) : M (Z * string * string) :=
  match compile_proc w with
  | Some vrun => emit (ECompile cmd) ;; ret vrun
  | None => raise (OSError "subprocess.run")
  end.

(** [subprocess.Popen(cmd, ..., preexec_fn=os.setsid)] *)
Definition subprocess_Popen (cmd : list string) (debug_file : option string) : M Z :=
  match popen_pid w with
  | Some pid => emit (ELaunch cmd debug_file pid) ;; ret pid
  | None => raise (OSError "subprocess.Popen")
  end.

(** [subprocess.run(cmd, stdout=..., stderr=..., cwd=..., env=testEnv)] *)
Definition subprocess_run_test (cmd : list string) (pythonpath : string) : M Z :=
  match test_proc w with
  | Some rc => emit (ERunTest cmd pythonpath rc) ;; ret rc
  | None => raise (OSError "subprocess.run")
  end.

(** [simProc.poll()] returning [answer]: when it reports an exit, the
    process has been collected and the object keeps the status in
    [returncode]. *)
Definition poll (answer : option Z) : M (option Z) :=
  emit (EPoll answer) ;;
  match answer with
  | Some code =>
      l <- get_locals ;;
      set_simProc (option_map (exited code) (simProc l)) ;;
      ret answer
  | None => ret answer
  end.

Definition input (prompt : string) : M string :=
  emit (EInput prompt) ;;
  match input_line w with
  | Some s => ret s
  | None => raise EOFError
  end.

End Primitives.

(* ------------------------------------------------------------------ *)
(** ** class CosimTestRunner *)

Record CosimTestRunner : Type := {
  server_only : bool;
  args : list string;
  file : string;
  interactive : bool;
  exec : bool;
  exec_args : string;
  runs : list string;
  srcdir : string;
  sources : list string;
  top : string;
  tmpdir : string;
  sim : string;
  simRunScript : string;
  schema : string
}.

Definition portFileName : string := "cosim.cfg".

(** The loop over the lines of the test file in [__init__]: the text
    after PY: of every directive line, stripped, in file order. *)
Fixpoint scan_runs (lines : list string) (runs : list string) : list string :=
  match lines with
  | [] => runs
  | line :: rest =>
      match Re.match_PY line with
      | Some g2 => scan_runs rest (runs ++ [PyStr.strip g2])
      | None => scan_runs rest runs
      end
  end.

(** The [for] loop over [portFile.readlines()]: every matching line
    overwrites [port]. *)
Fixpoint scan_port (lines : list string) (port : Z) : Z :=
  match lines with
  | [] => port
  | line :: rest =>
      match Re.match_port line with
      | Some g1 => scan_port rest (PyStr.int g1)
      | None => scan_port rest port
      end
  end.

Section Runner.
Variable w : World.
Import PyStr.

(** [CosimTestRunner.__init__] *)
Definition __init__ (testFile schema tmpdir : string) (addlArgs : list string)
    (interactive include_aux_files exec : bool) (exec_args : string)
    (server_only : bool) (sim : string) : M CosimTestRunner :=
  let esiInclude := "/home/parallels/circt/build/lib/Dialect/ESI" in
  if String.eqb "" "" || negb (path_exists w "") then
    raise (Exception ("The ESI cosimulation DPI library must be " +++
                      "enabled to run cosim tests."))
  else
    let simRunScript :=
      OsPath.join "/home/parallels/circt/build/bin" ["circt-rtl-sim.py"] in
    let schema :=
      if String.eqb schema "" then
        OsPath.join esiInclude ["runtime"; "cosim"; "CosimDpi.capnp"]
      else schema in
    runs <- (if negb exec && negb server_only then
               match source_file w with
               | Some lines => ret (scan_runs lines [])
               | None => raise (FileNotFoundError testFile)
               end
             else ret []) ;;
    let sources :=
      if include_aux_files then
        [] ++ [ OsPath.join esiInclude ["runtime"; "cosim"; "Cosim_DpiPkg.sv"];
                OsPath.join esiInclude ["runtime"; "cosim"; "Cosim_Endpoint.sv"];
                OsPath.join esiInclude ["runtime"; "cosim"; "Cosim_Manifest.sv"];
                OsPath.join esiInclude ["runtime"; "cosim"; "Cosim_MMIO.sv"];
                OsPath.join esiInclude ["ESIPrimitives.sv"] ]
      else [] in
    let sources := sources ++ [""] in
    ret {| server_only := server_only; args := addlArgs; file := testFile;
           interactive := interactive; exec := exec; exec_args := exec_args;
           runs := runs; srcdir := OsPath.dirname testFile;
           sources := sources; top := "top"; tmpdir := tmpdir; sim := sim;
           simRunScript := simRunScript; schema := schema |}.

Variable self : CosimTestRunner.

(** [CosimTestRunner.compile] *)
Definition compile : M Z :=
  let cmd := [simRunScript self; "--no-objdir"; "--no-run"] in
  let cmd := if negb (String.eqb (sim self) "") then cmd ++ ["--sim"; sim self]
             else cmd in
  let cmd := cmd ++ sources self ++ args self in
  print ("[INFO] Compile command: " +++ join " " cmd) ;;
  vrun <- subprocess_run_capture w cmd ;;
  let '(returncode, stdout, stderr) := vrun in
  let output := stdout +++ nl +++ "----- STDERR ------" +++ nl +++ stderr in
  (if negb (returncode =? 0) then
     print "====== Compilation failure:" ;;
     print output
   else ret tt) ;;
  print ("[INFO] Compile time: " +++ compile_time w) ;;
  ret returncode.

(** The config variables at the head of the script, [vars.items()]. *)
Definition script_vars : list (string * string) :=
  [ ("srcdir", srcdir self);
    ("srcfile", file self);
    ("rpcschemapath", schema self) ].

(** Everything [writeScript] writes before the lines of the test file,
    one element per written string. *)
Definition script_preamble (port : Z) : list string :=
  map (fun nv => fst nv +++ " = " +++ dquote +++ snd nv +++ dquote +++ nl)
      script_vars
  ++ [ nl +++ nl;
       "import os" +++ nl;
       "import sys" +++ nl;
       "sys.path.append(" +++ dquote +++ OsPath.dirname (file self)
         +++ dquote +++ ")" +++ nl;
       "sys.path.append(" +++ dquote +++ OsPath.dirname (this_file w)
         +++ dquote +++ ")" +++ nl;
       nl +++ nl;
       "tmpdir = '" +++ tmpdir self +++ "'" +++ nl;
       "simhostport = f'{os.uname()[1]}:" +++ str port +++ "'" +++ nl ].

(** All the strings written to [script.py], in order. *)
Definition script_writes (port : Z) : list string :=
  script_preamble port ++ map (fun x => x +++ nl) (runs self).

(** [CosimTestRunner.writeScript] *)
Definition writeScript (port : Z) : M unit :=
  open_w w "script.py" ;;
  emit (EWrite "script.py" (String.concat "" (script_writes port))) ;;
  close "script.py".

(** [CosimTestRunner.readLogs] *)
Definition readLogs : M (bool * string) :=
  let foundErr := false in
  let ret_ := "----- Simulation stdout -----" +++ nl in
  out <- read_log w "sim_stdout.log" ;;
  let ret_ := ret_ +++ out in
  stderr <- read_log w "sim_stderr.log" ;;
  let '(ret_, foundErr) :=
    if negb (String.eqb stderr "") then
      (ret_ +++ nl +++ "----- Simulation stderr -----" +++ nl +++ stderr, true)
    else (ret_, foundErr) in
  let ret_ := ret_ +++ nl +++ "----- Test stdout -----" +++ nl in
  out <- read_log w "test_stdout.log" ;;
  let ret_ := ret_ +++ out in
  stderr <- read_log w "test_stderr.log" ;;
  let '(ret_, foundErr) :=
    if negb (String.eqb stderr "") then
      (ret_ +++ nl +++ "----- Test stderr -----" +++ nl +++ stderr, true)
    else (ret_, foundErr) in
  ret (foundErr, ret_).

End Runner.

(** [isPortOpen]: the [attempt]-th probe of the invocation.
    [connect_ex] takes a port from 0 to 65535 and raises for any other
    number, before it connects; the [close] that follows is then not
    reached. *)
Definition isPortOpen (w : World) (attempt : nat) (port : Z) : M bool :=
  emit ESocket ;;
  if (0 <=? port) && (port <=? 65535) then
    let result := connect_ex w attempt port in
    emit (EConnect port result) ;;
    emit ESockClose ;;
    ret (if result =? 0 then true else false)
  else raise (OverflowError "connect_ex(): port must be 0-65535.").

(* ------------------------------------------------------------------ *)
(** ** CosimTestRunner.run *)

Section Run.
Variable w : World.
Variable self : CosimTestRunner.
Import PyStr.

(** The two bounded loops stop by their own counter; [gas] only makes
    the recursion structural and is never used up when it starts at
    [poll_gas] (lemmas [wait_for_cfg_total], [wait_for_rpc_total]). *)
Definition poll_gas : nat := 201.

(** Lines 178-184: wait until the simulation wrote [cosim.cfg] or
    exited. *)
Fixpoint wait_for_cfg_loop (gas : nat) (checkCount : nat) : M unit :=
  match gas with
  | O => out_of_fuel
  | S gas' =>
      let found := cfg_exists w checkCount in
      emit (EExists portFileName found) ;;
      if negb found then
        rc <- poll (poll_disc w checkCount) ;;
        match rc with
        | None =>
            sleep 100 ;;
            let checkCount := S checkCount in
            if (200 <? checkCount)%nat then
              raise (Exception ("Cosim never wrote cfg file: " +++ portFileName))
            else wait_for_cfg_loop gas' checkCount
        | Some _ => ret tt
        end
      else ret tt
  end.

Definition wait_for_cfg : M unit := wait_for_cfg_loop poll_gas 0.

(** Lines 185-192: read the file again and again until a line gave a
    port.  This loop has no bound of its own: [fuel] counts the reads
    it may still do. *)
Fixpoint read_port_loop (fuel : nat) (reads : nat) (port : Z) : M Z :=
  if port <? 0 then
    match fuel with
    | O => out_of_fuel
    | S fuel' =>
        match cfg_read w reads with
        | None => raise (FileNotFoundError portFileName)
        | Some text =>
            emit (EReadCfg text) ;;
            read_port_loop fuel' (S reads) (scan_port (readlines text) port)
        end
    end
  else ret port.

Definition read_port (fuel : nat) : M Z := read_port_loop fuel 0 (-1).

(** Lines 194-202: wait for the simulation to accept RPC connections. *)
Fixpoint wait_for_rpc_loop (gas : nat) (port : Z) (checkCount : nat) : M unit :=
  match gas with
  | O => out_of_fuel
  | S gas' =>
      opened <- isPortOpen w checkCount port ;;
      if negb opened then
        let attempt := checkCount in
        let checkCount := S checkCount in
        if (200 <? checkCount)%nat then
          raise (Exception ("Cosim RPC port (" +++ str port +++ ") never opened"))
        else
          rc <- poll (poll_ready w attempt) ;;
          match rc with
          | Some _ => raise (Exception "Simulation exited early")
          | None =>
              sleep 50 ;;
              wait_for_rpc_loop gas' port checkCount
          end
      else ret tt
  end.

Definition wait_for_rpc (port : Z) : M unit := wait_for_rpc_loop poll_gas port 0.

(** Lines 144-158: the log files and the stale config file. *)
Definition run_setup : M unit :=
  open_w w "sim_stdout.log" ;;
  open_w w "sim_stderr.log" ;;
  (if interactive self then ret tt
   else open_w w "test_stdout.log" ;;
        open_w w "test_stderr.log") ;;
  let found := path_exists w portFileName in
  emit (EExists portFileName found) ;;
  if found then emit (ERemove portFileName) else ret tt.

(** Lines 160-175: start the simulation in a session of its own. *)
Definition run_launch : M unit :=
  let debug_file :=
    if String.eqb "Release" "Debug" then Some "cosim_debug.log" else None in
  let cmd := [simRunScript self; "--no-objdir"] in
  let cmd := if negb (String.eqb (sim self) "") then cmd ++ ["--sim"; sim self]
             else cmd in
  let cmd := cmd ++ sources self ++ args self in
  print ("[INFO] Sim run command: " +++ join " " cmd) ;;
  pid <- subprocess_Popen w cmd debug_file ;;
  set_simProc (Some (running pid)) ;;
  close "sim_stderr.log" ;;
  close "sim_stdout.log".

(** Lines 204-242: the script and the test, or the operator. *)
Definition run_test (port : Z) : M unit :=
  (if negb (exec self) then writeScript w self port else ret tt) ;;
  if server_only self then
    input w ("Running in server-only mode on port " +++ str port
             +++ " - Press anything to kill the server...") ;;
    ret tt
  else
    pythonpath <- match env_PYTHONPATH w with
                  | Some p => ret (p +++ ":" +++ OsPath.dirname (this_file w))
                  | None => raise (KeyError "PYTHONPATH")
                  end ;;
    let cmd :=
      if exec self then
        let args := ["cosim"; "localhost:" +++ str port; schema self]
                    ++ split (exec_args self) in
        if endswith (file self) ".py" then
          [sys_executable w; "-u"; file self] ++ args
        else [file self] ++ args
      else [sys_executable w; "-u"; "script.py"] in
    let cmd := filter (fun x => negb (is_empty x)) cmd in
    print ("[INFO] Test run command: " +++ join " " cmd) ;;
    rc <- subprocess_run_test w cmd pythonpath ;;
    set_testProc (Some rc) ;;
    if negb (interactive self) then
      close "test_stdout.log" ;;
      close "test_stderr.log"
    else ret tt.

(** After the launch: port discovery, readiness probe, test phase. *)
Definition run_after_launch (fuel : nat) : M unit :=
  wait_for_cfg ;;
  port <- read_port fuel ;;
  wait_for_rpc port ;;
  run_test port.

(** The body of the [try]. *)
Definition run_try (fuel : nat) : M unit :=
  run_setup ;;
  run_launch ;;
  run_after_launch fuel.

(** Lines 245-252: stop the simulation.  A [Popen] object is always
    true, so [if simProc] asks whether it was assigned.  [os.getpgid]
    looks the process up by its id: once a [poll()] has collected the
    exit the process is gone and the call raises, before any signal is
    sent.  A process that was not collected, running or not, is there to
    be signalled; [wait] has a second way out, its timeout, which the
    code catches. *)
Definition teardown (p : Popen) : M unit :=
  match returncode p with
  | Some _ => raise ProcessLookupError
  | None =>
      emit (EKillpg (pid p) SIGINT) ;;
      if wait_exits w then emit (EWait 1000 true)
      else emit (EWait 1000 false) ;;
           emit (EKill (pid p))
  end.

(** Lines 254-264: the run time, the logs and the verdict [passed],
    with the locals [l] of [run]. *)
Definition aggregate (l : Locals) : M bool :=
  print ("[INFO] Run time: " +++ run_time w) ;;
  el <- readLogs w ;;
  let '(err, logs) := el in
  let '(logs, passed) :=
    match testProc l with
    | Some returncode =>
        (logs +++ "---- Test process exit code: " +++ str returncode +++ nl,
         (returncode =? 0) && negb err)
    | None => (logs, false)
    end in
  (if negb passed then print logs else ret tt) ;;
  ret passed.

(** The [finally] block; its value is [passed]. *)
Definition run_finally : M bool :=
  l <- get_locals ;;
  match simProc l with
  | Some p => teardown p
  | None => ret tt
  end ;;
  aggregate l.

(** [CosimTestRunner.run] *)
Definition run (fuel : nat) : M Z :=
  set_testProc None ;;
  set_simProc None ;;
  passed <- try_finally (run_try fuel) run_finally ;;
  ret (if passed : bool then 0 else 1).

(** Lines 361-364 of [__main__]: compile, and run unless that failed. *)
Definition compile_and_run (fuel : nat) : M (option Z) :=
  rc <- compile w self ;;
  if negb (rc =? 0) then ret (Some rc)
  else
    r <- run fuel ;;
    ret (Some r).

End Run.

(** [__main__] *)
Definition __main__ (w : World) (fuel : nat) (args : list string) : M (option Z) :=
  if (length args <=? 1)%nat then
    emit EPrintHelp ;;
    ret None
  else
    match parse_args w (tl args) with
    | None =>
        if parse_help w (tl args) then
          emit EPrintHelp ;;
          raise (SystemExit 0)
        else raise (SystemExit 2)
    | Some args =>
        let sourceName := OsPath.basename (ns_source args) in
        let testDir := sourceName +++ ".d" in
        (if negb (path_exists w testDir) then emit (EMkdir testDir) else ret tt) ;;
        emit (EChdir testDir) ;;
        runner <- __init__ w (ns_source args) (ns_schema args) (ns_tmpdir args)
                    (ns_addlArgs args) (ns_interactive args)
                    (negb (ns_no_aux_files args)) (ns_exec args)
                    (ns_test_args args) (ns_server_only args) (ns_sim args) ;;
        compile_and_run w runner fuel
    end.

(** [sys.exit(__main__(sys.argv))]: the status the interpreter is left
    with, the argument of [sys.exit] or of the [SystemExit] that
    [argparse] raised, [None] counting as 0, and 1 for any other
    exception that nobody caught.  What the parent process sees of it is
    [exit_code] below. *)
Definition exit_status (r : outcome (option Z)) : Z :=
  match r with
  | Ret None => 0
  | Ret (Some code) => code
  | Raise (SystemExit code) => code
  | Raise _ => 1
  end.

(** The exit code of the process.  The interpreter converts the status
    to a C [long], here of 64 bits, and takes -1 when it does not fit;
    the operating system keeps the low eight bits. *)
Definition exit_code (r : outcome (option Z)) : Z :=
  let status := exit_status r in
  let as_long :=
    if (- 2 ^ 63 <=? status) && (status <? 2 ^ 63) then status else -1 in
  Z.land as_long 255.

(** The exit status [run] stands for when [__main__] returns its
    value: lines 364 and 368. *)
Definition run_status (r : outcome Z) : Z :=
  exit_status (match r with
               | Ret code => Ret (Some code)
               | Raise e => Raise e
               end).

(* ------------------------------------------------------------------ *)
(** ** Concrete worlds, to run the model on *)

Module Demo.
Import PyStr.

Definition cfg_text : string := "garbage" +++ nl +++ "port: 4711" +++ nl.

(** A world in which everything that is not a parameter goes well: the
    config file is there at the third look and complete at the second
    read, the port opens at the second probe. *)
Definition make (ns : option Namespace) (compiled : option (Z * string * string))
    (cfg_there : nat -> bool) (polls : nat -> option Z)
    (cfg : nat -> option string) (connect : nat -> Z)
    (test : option Z) (logs : string -> option string) : World :=
  {| this_file := "/opt/circt/bin/esi-cosim-runner.py";
     sys_executable := "/usr/bin/python3";
     env_PYTHONPATH := Some "/opt/circt/python";
     parse_args := fun _ => ns;
     parse_help := fun _ => false;
     path_exists := fun _ => false;
     source_file := Some ["// PY: x = 1" +++ nl; "module top();" +++ nl;
                          "// PY: print(x)" +++ nl];
     can_open_w := fun _ => true;
     compile_proc := compiled;
     compile_time := "0.5";
     run_time := "2.5";
     popen_pid := Some 4242;
     cfg_exists := cfg_there;
     poll_disc := polls;
     cfg_read := cfg;
     connect_ex := fun k _ => connect k;
     poll_ready := fun _ => None;
     input_line := Some "";
     test_proc := test;
     wait_exits := true;
     log_file := logs;
     log_decodes := fun _ => true |}.

Definition quiet_logs (path : string) : option string :=
  if String.eqb path "test_stdout.log" then Some ("1" +++ nl) else Some "".

Definition noisy_logs (path : string) : option string :=
  if String.eqb path "sim_stderr.log" then Some ("%Warning: width" +++ nl)
  else Some "".

Definition namespace : Namespace :=
  {| ns_interactive := false; ns_sim := ""; ns_schema := ""; ns_tmpdir := "";
     ns_no_aux_files := false; ns_exec := false; ns_test_args := "";
     ns_server_only := false; ns_source := "/t/loopback.sv"; ns_addlArgs := [] |}.

Definition cfg_slow (reads : nat) : option string :=
  if (1 <=? reads)%nat then Some cfg_text else Some "".

Definition connect_slow (attempt : nat) : Z :=
  if (1 <=? attempt)%nat then 0 else 111.

(** Everything goes well and the test passes. *)
Definition world : World :=
  make (Some namespace) (Some (0, "built", "")) (fun k => (2 <=? k)%nat)
       (fun _ => None) cfg_slow connect_slow (Some 0) quiet_logs.

(** The compiler fails with status 2. *)
Definition world_compile_fails : World :=
  make (Some namespace) (Some (2, "", "syntax error")) (fun k => (2 <=? k)%nat)
       (fun _ => None) cfg_slow connect_slow (Some 0) quiet_logs.

(** The simulation never writes its config file and stays alive. *)
Definition world_no_cfg : World :=
  make (Some namespace) (Some (0, "built", "")) (fun _ => false)
       (fun _ => None) (fun _ => None) connect_slow (Some 0) quiet_logs.

(** The simulation dies, with status 1, at the fourth poll and never
    writes its config file. *)
Definition world_sim_dies : World :=
  make (Some namespace) (Some (0, "built", "")) (fun _ => false)
       (fun k => if (3 <=? k)%nat then Some 1 else None) (fun _ => None)
       connect_slow (Some 0) quiet_logs.

(** The port never opens. *)
Definition world_port_closed : World :=
  make (Some namespace) (Some (0, "built", "")) (fun k => (2 <=? k)%nat)
       (fun _ => None) cfg_slow (fun _ => 111) (Some 0) quiet_logs.

(** The test passes but the simulator wrote a warning to its stderr. *)
Definition world_stderr : World :=
  make (Some namespace) (Some (0, "built", "")) (fun k => (2 <=? k)%nat)
       (fun _ => None) cfg_slow connect_slow (Some 0) noisy_logs.

(** A runner as [__init__] would leave it past its guard, for a test
    file with the two directive lines and without the auxiliary files. *)
Definition runner : CosimTestRunner :=
  {| server_only := false; args := []; file := "/t/loopback.sv";
     interactive := false; exec := false; exec_args := "";
     runs := ["x = 1"; "print(x)"]; srcdir := "/t"; sources := [""];
     top := "top"; tmpdir := ""; sim := "";
     simRunScript := "/home/parallels/circt/build/bin/circt-rtl-sim.py";
     schema := "/home/parallels/circt/build/lib/Dialect/ESI/runtime/cosim/CosimDpi.capnp" |}.

(** The same in server-only mode. *)
Definition server : CosimTestRunner :=
  {| server_only := true; args := []; file := "/t/loopback.sv";
     interactive := false; exec := false; exec_args := "";
     runs := []; srcdir := "/t"; sources := [""];
     top := "top"; tmpdir := ""; sim := "";
     simRunScript := "/home/parallels/circt/build/bin/circt-rtl-sim.py";
     schema := "/home/parallels/circt/build/lib/Dialect/ESI/runtime/cosim/CosimDpi.capnp" |}.

End Demo.

(* ------------------------------------------------------------------ *)
(** ** The vocabulary of the statements *)

(** The trace of a call that ended. *)
Definition trace_of {A} (x : option (outcome A * list event)) : list event :=
  match x with
  | Some (_, t) => t
  | None => []
  end.

(** [keeps f m]: [m] leaves the component [f] of the locals alone. *)
Definition keeps {X A} (f : Locals -> X) (m : M A) : Prop :=
  forall l r l' t, m l = Some (r, l', t) -> f l' = f l.

(** [emits_only P m]: every event of [m] satisfies [P]. *)
Definition emits_only {A} (P : event -> Prop) (m : M A) : Prop :=
  forall l r l' t, m l = Some (r, l', t) -> Forall P t.

(** [raises_only P m]: every exception [m] raises satisfies [P]. *)
Definition raises_only {A} (P : exn -> Prop) (m : M A) : Prop :=
  forall l e l' t, m l = Some (Raise e, l', t) -> P e.

(** [total m]: [m] ends, with a result or an exception, from any locals. *)
Definition total {A} (m : M A) : Prop :=
  forall l, exists r l' t, m l = Some (r, l', t).

(** Everything but [SystemExit], which only [argparse] raises. *)
Definition not_exit (e : exn) : Prop :=
  match e with
  | SystemExit _ => False
  | _ => True
  end.

(** Events other than the launch of the simulation, other than its
    teardown, and the launch and the compile themselves. *)
Definition not_launch (e : event) : Prop :=
  match e with
  | ELaunch _ _ _ => False
  | _ => True
  end.

Definition not_teardown (e : event) : Prop :=
  match e with
  | EKillpg _ _ | EWait _ _ | EKill _ => False
  | _ => True
  end.

Definition is_launch (e : event) : Prop :=
  match e with
  | ELaunch _ _ _ => True
  | _ => False
  end.

Definition is_compile_or_launch (e : event) : Prop :=
  match e with
  | ECompile _ | ELaunch _ _ _ => True
  | _ => False
  end.

(** The four exceptions the script raises by itself. *)
Definition dpi_error : exn :=
  Exception "The ESI cosimulation DPI library must be enabled to run cosim tests.".

Definition cfg_timeout : exn :=
  Exception "Cosim never wrote cfg file: cosim.cfg".

Definition rpc_timeout (port : Z) : exn :=
  Exception ("Cosim RPC port (" +++ PyStr.str port +++ ") never opened").

Definition exited_early : exn := Exception "Simulation exited early".

(** The command line [compile] builds. *)
Definition compile_cmd (self : CosimTestRunner) : list string :=
  ([simRunScript self; "--no-objdir"; "--no-run"]
   ++ (if String.eqb (sim self) "" then [] else ["--sim"; sim self]))
  ++ sources self ++ args self.

(** What stopping the simulation [pid] does: the interrupt to its
    process group, the wait of one second, and the kill when the wait
    timed out. *)
Definition teardown_events (w : World) (pid : Z) : list event :=
  EKillpg pid SIGINT :: EWait 1000 (wait_exits w)
    :: (if wait_exits w then [] else [EKill pid]).

(** The locals after a [poll()] that answered [answer]. *)
Definition polled (answer : option Z) (l : Locals) : Locals :=
  match answer with
  | Some code => mkLocals (option_map (exited code) (simProc l)) (testProc l)
  | None => l
  end.

(** Some [poll()] of the trace reported the exit of the simulation. *)
Definition is_exit_poll (e : event) : bool :=
  match e with
  | EPoll (Some _) => true
  | _ => false
  end.

Definition exit_seen (t : list event) : bool := existsb is_exit_poll t.

(** The process id of the simulation, and whether a [poll()] has
    collected its exit. *)
Definition sim_pid (l : Locals) : option Z := option_map pid (simProc l).

Definition collected (l : Locals) : bool :=
  match simProc l with
  | Some p => match returncode p with Some _ => true | None => false end
  | None => false
  end.

Definition not_exit_poll (e : event) : Prop := is_exit_poll e = false.

Definition not_log_read (e : event) : Prop :=
  match e with
  | EReadLog _ => False
  | _ => True
  end.

(** [tracks m]: [m] leaves the process id alone and, when there is a
    simulation, its exit has been collected afterwards exactly when it had
    been before or a [poll()] of [m] reported it. *)
Definition tracks {A} (m : M A) : Prop :=
  forall l r l' t,
    m l = Some (r, l', t) ->
    sim_pid l' = sim_pid l /\
    (sim_pid l <> None -> collected l' = collected l || exit_seen t).

(** A port [connect_ex] takes. *)
Definition port_ok (port : Z) : Prop := 0 <= port <= 65535.

(** The exception of [connect_ex] for any other number. *)
Definition port_overflow : exn :=
  OverflowError "connect_ex(): port must be 0-65535.".

(** [n] rounds of a polling loop that all went the same way. *)
Definition rounds (round : list event) (n : nat) : list event :=
  concat (repeat round n).

(** One look at the config file that is not there, the simulation still
    running, then the pause of 100 ms. *)
Definition cfg_round : list event :=
  [EExists portFileName false; EPoll None; ESleep 100].

(** One probe: a socket, the connect, the close. *)
Definition probe (port result : Z) : list event :=
  [ESocket; EConnect port result; ESockClose].

(** [n] probes from attempt [c] on that all failed, each followed by a
    [poll()] that found the simulation running and a pause of 50 ms. *)
Fixpoint rpc_retries (w : World) (port : Z) (c n : nat) : list event :=
  match n with
  | O => []
  | S n' =>
      probe port (connect_ex w c port) ++ [EPoll None; ESleep 50]
      ++ rpc_retries w port (S c) n'
  end.

(** Every connect in the trace is followed at once by the close of its
    socket. *)
Fixpoint probes_closed (t : list event) : Prop :=
  match t with
  | [] => True
  | EConnect _ _ :: rest =>
      match rest with
      | ESockClose :: _ => probes_closed rest
      | _ => False
      end
  | _ :: rest => probes_closed rest
  end.

(** Every socket made is closed before the next one is made and before
    the trace ends; [open] says whether one is open at the start. *)
Fixpoint sockets_closed (open : bool) (t : list event) : Prop :=
  match t with
  | [] => open = false
  | ESocket :: rest => open = false /\ sockets_closed true rest
  | ESockClose :: rest => sockets_closed false rest
  | _ :: rest => sockets_closed open rest
  end.

(** No connect is attempted while [pending]: a connect sets it, a
    [poll()] that finds the simulation running clears it.  So between two
    connects the simulation was checked and found alive. *)
Fixpoint poll_before_retry (pending : bool) (t : list event) : Prop :=
  match t with
  | [] => True
  | EConnect _ _ :: rest => if pending then False else poll_before_retry true rest
  | EPoll None :: rest => poll_before_retry false rest
  | _ :: rest => poll_before_retry pending rest
  end.

(** Every character of [s] satisfies [f]. *)
Fixpoint all_chars (f : ascii -> bool) (s : string) : bool :=
  match s with
  | EmptyString => true
  | String c r => f c && all_chars f r
  end.

(** No line of [lines] matches the port pattern. *)
Definition no_port_line (lines : list string) : Prop :=
  forall x, In x lines -> Re.match_port x = None.

(** [line] is the last line of [lines] that matches, with group [g]. *)
Definition last_port_line (lines : list string) (line g : string) : Prop :=
  exists pre post,
    lines = pre ++ line :: post /\ Re.match_port line = Some g /\ no_port_line post.

(** [testProc] is either left alone or set to the returncode of the
    test, and the second only outside the server-only mode. *)
Definition test_inv (w : World) (self : CosimTestRunner) {A} (m : M A) : Prop :=
  forall l r l' t,
    m l = Some (r, l', t) ->
    testProc l' = testProc l \/
    (server_only self = false /\
     exists rc, test_proc w = Some rc /\ testProc l' = Some rc).

(** The directive text of one line of the test file, if it is one. *)
Definition directive (line : string) : list string :=
  match Re.match_PY line with
  | Some g2 => [PyStr.strip g2]
  | None => []
  end.

(** A runner for the mode with an external executable, with two test
    arguments. *)
Definition exec_runner : CosimTestRunner :=
  {| server_only := false; args := []; file := "/t/loopback.py";
     interactive := false; exec := true;
     exec_args := PyStr.join " " ["--fast"; "3"];
     runs := []; srcdir := "/t"; sources := [""]; top := "top";
     tmpdir := ""; sim := "";
     simRunScript := "/home/parallels/circt/build/bin/circt-rtl-sim.py";
     schema := "/s/CosimDpi.capnp" |}.

(** A runner in interactive mode. *)
Definition interactive_runner : CosimTestRunner :=
  {| server_only := false; args := []; file := "/t/loopback.sv";
     interactive := true; exec := false; exec_args := "";
     runs := ["x = 1"; "print(x)"]; srcdir := "/t"; sources := [""];
     top := "top"; tmpdir := ""; sim := "";
     simRunScript := "/home/parallels/circt/build/bin/circt-rtl-sim.py";
     schema := "/s/CosimDpi.capnp" |}.

(** The result of a call that ended. *)
Definition result_of (x : option (outcome Z * list event)) : outcome Z :=
  match x with
  | Some (r, _) => r
  | None => Ret 0
  end.

(** A working directory that holds no test logs from an earlier run. *)
Definition sim_logs_only (path : string) : option string :=
  if String.eqb path "sim_stdout.log" || String.eqb path "sim_stderr.log"
  then Some "" else None.

(** Everything goes well, the test passes, and only the logs of the
    simulation are there at the end. *)
Definition world_fresh : World :=
  Demo.make (Some Demo.namespace) (Some (0, "built", "")) (fun k => (2 <=? k)%nat)
            (fun _ => None) Demo.cfg_slow Demo.connect_slow (Some 0)
            sim_logs_only.

(** Events other than the start of the test. *)
Definition not_test (e : event) : Prop :=
  match e with
  | ERunTest _ _ _ => False
  | _ => True
  end.

(** As [Demo.world], with a config file left by an earlier run. *)
Definition world_stale : World :=
  {| this_file := this_file Demo.world;
     sys_executable := sys_executable Demo.world;
     env_PYTHONPATH := env_PYTHONPATH Demo.world;
     parse_args := parse_args Demo.world;
     parse_help := parse_help Demo.world;
     path_exists := fun p => String.eqb p portFileName;
     source_file := source_file Demo.world;
     can_open_w := can_open_w Demo.world;
     compile_proc := compile_proc Demo.world;
     compile_time := compile_time Demo.world;
     run_time := run_time Demo.world;
     popen_pid := popen_pid Demo.world;
     cfg_exists := cfg_exists Demo.world;
     poll_disc := poll_disc Demo.world;
     cfg_read := cfg_read Demo.world;
     connect_ex := connect_ex Demo.world;
     poll_ready := poll_ready Demo.world;
     input_line := input_line Demo.world;
     test_proc := test_proc Demo.world;
     wait_exits := wait_exits Demo.world;
     log_file := log_file Demo.world;
     log_decodes := log_decodes Demo.world |}.

(** As [Demo.world], but the simulation cannot be started. *)
Definition world_no_launch : World :=
  {| this_file := this_file Demo.world;
     sys_executable := sys_executable Demo.world;
     env_PYTHONPATH := env_PYTHONPATH Demo.world;
     parse_args := parse_args Demo.world;
     parse_help := parse_help Demo.world;
     path_exists := path_exists Demo.world;
     source_file := source_file Demo.world;
     can_open_w := can_open_w Demo.world;
     compile_proc := compile_proc Demo.world;
     compile_time := compile_time Demo.world;
     run_time := run_time Demo.world;
     popen_pid := None;
     cfg_exists := cfg_exists Demo.world;
     poll_disc := poll_disc Demo.world;
     cfg_read := cfg_read Demo.world;
     connect_ex := connect_ex Demo.world;
     poll_ready := poll_ready Demo.world;
     input_line := input_line Demo.world;
     test_proc := test_proc Demo.world;
     wait_exits := wait_exits Demo.world;
     log_file := log_file Demo.world;
     log_decodes := log_decodes Demo.world |}.

(** The slowest start that still succeeds: the config file is there at
    the last look the budget allows, the port opens at the last probe. *)
Definition world_slowest : World :=
  Demo.make (Some Demo.namespace) (Some (0, "built", ""))
            (fun k => (200 <=? k)%nat) (fun _ => None)
            (fun _ => Some Demo.cfg_text)
            (fun k => if (200 <=? k)%nat then 0 else 111)
            (Some 0) Demo.quiet_logs.

(** The simulation wrote an empty config file and never completes it. *)
Definition world_empty_cfg : World :=
  Demo.make (Some Demo.namespace) (Some (0, "built", ""))
            (fun _ => true) (fun _ => None) (fun _ => Some "")
            Demo.connect_slow (Some 0) Demo.quiet_logs.

(** A command line that [argparse] rejects. *)
Definition world_usage_error : World :=
  Demo.make None (Some (0, "built", "")) (fun k => (2 <=? k)%nat)
            (fun _ => None) Demo.cfg_slow Demo.connect_slow (Some 0)
            Demo.quiet_logs.

(** The compiler is killed by signal 9. *)
Definition world_compile_killed : World :=
  Demo.make (Some Demo.namespace) (Some (-9, "", "")) (fun k => (2 <=? k)%nat)
            (fun _ => None) Demo.cfg_slow Demo.connect_slow (Some 0)
            Demo.quiet_logs.

(** The result of a call of [__main__] that ended. *)
Definition result_of_main (x : option (outcome (option Z) * list event))
    : outcome (option Z) :=
  match x with
  | Some (r, _) => r
  | None => Ret None
  end.

(** The config file names a port that is no 16-bit number. *)
Definition world_big_port : World :=
  Demo.make (Some Demo.namespace) (Some (0, "built", ""))
            (fun _ => true) (fun _ => None)
            (fun _ => Some ("port: 70000" +++ PyStr.nl))
            Demo.connect_slow (Some 0) Demo.quiet_logs.

(** The four logs, in the order [readLogs] opens them. *)
Definition log_names : list string :=
  ["sim_stdout.log"; "sim_stderr.log"; "test_stdout.log"; "test_stderr.log"].

(** The command line [run] builds for the simulation. *)
Definition launch_cmd (self : CosimTestRunner) : list string :=
  ([simRunScript self; "--no-objdir"]
   ++ (if String.eqb (sim self) "" then [] else ["--sim"; sim self]))
  ++ sources self ++ args self.

Definition is_blank (c : ascii) : bool := Ascii.eqb c " "%char.

(** A word of a command line: not empty and without a blank. *)
Definition word_ok (x : string) : Prop :=
  x <> "" /\ all_chars (fun c => negb (is_blank c)) x = true.

(** The milliseconds slept in a trace. *)
Fixpoint sleep_total (t : list event) : Z :=
  match t with
  | [] => 0
  | ESleep ms :: rest => ms + sleep_total rest
  | _ :: rest => sleep_total rest
  end.

Definition not_sleep (e : event) : Prop :=
  match e with ESleep _ => False | _ => True end.

(** The first character, if any, fails [f]. *)
Definition head_fails (f : ascii -> bool) (s : string) : Prop :=
  match s with
  | EmptyString => True
  | String c _ => f c = false
  end.

(** What is known of any event of [run], by its kind: where it can come
    from and in which mode. *)
Definition run_event_ok (w : World) (self : CosimTestRunner) (e : event) : Prop :=
  match e with
  | EOpenW p | EClose p =>
      (exec self = true -> p <> "script.py") /\
      (interactive self = true ->
       p <> "test_stdout.log" /\ p <> "test_stderr.log")
  | EWrite p _ => p = "script.py" /\ exec self = false
  | ELaunch cmd debug_file pid =>
      cmd = launch_cmd self /\ debug_file = None /\ popen_pid w = Some pid
  | ERunTest cmd _ rc =>
      server_only self = false /\ test_proc w = Some rc /\ ~ In "" cmd
  | EInput _ => server_only self = true
  | ESleep ms => ms = 100 \/ ms = 50
  | EKillpg _ sig => sig = SIGINT
  | EWait ms _ => ms = 1000
  | EExists p _ | ERemove p => p = portFileName
  | EReadLog p => In p log_names
  | ECompile _ | EMkdir _ | EChdir _ | EPrintHelp => False
  | EPrint _ | EPoll _ | EReadCfg _ | ESocket | EConnect _ _ | ESockClose
  | EKill _ => True
  end.

(** What is known of any event of [compile]. *)
Definition compile_event_ok (self : CosimTestRunner) (e : event) : Prop :=
  match e with
  | EPrint _ => True
  | ECompile cmd => cmd = compile_cmd self
  | _ => False
  end.

(* ================================================================== *)
(** * The string functions on examples *)

Example str_4711 : PyStr.str 4711 = "4711". Proof. reflexivity. Qed.
Example str_neg : PyStr.str (-9) = "-9". Proof. reflexivity. Qed.
Example str_zero : PyStr.str 0 = "0". Proof. reflexivity. Qed.
Example int_007 : PyStr.int "007" = 7. Proof. reflexivity. Qed.
Example dirname_1 : OsPath.dirname "/a/b/c.sv" = "/a/b". Proof. reflexivity. Qed.
Example dirname_2 : OsPath.dirname "c.sv" = "". Proof. reflexivity. Qed.
Example dirname_3 : OsPath.dirname "//c.sv" = "//". Proof. reflexivity. Qed.
Example basename_1 : OsPath.basename "/a/b/c.sv" = "c.sv". Proof. reflexivity. Qed.
Example join_1 :
  OsPath.join "/x/ESI" ["runtime"; "cosim"; "Cosim_MMIO.sv"]
  = "/x/ESI/runtime/cosim/Cosim_MMIO.sv".
Proof. reflexivity. Qed.
Example split_1 : PyStr.split "a  b" = ["a"; ""; "b"]. Proof. reflexivity. Qed.
Example split_2 : PyStr.split "" = [""]. Proof. reflexivity. Qed.
Example match_PY_1 :
  Re.match_PY ("// PY: x = 1 " +++ PyStr.nl) = Some " x = 1 ".
Proof. reflexivity. Qed.
Example match_PY_2 : Re.match_PY " // PY: x" = None. Proof. reflexivity. Qed.
Example match_port_1 : Re.match_port "port: 4711x" = Some "4711". Proof. reflexivity. Qed.
Example match_port_2 : Re.match_port " port: 4711" = None. Proof. reflexivity. Qed.

(* ================================================================== *)
(** * Reasoning about computations *)

Section MonadLemmas.
Context {A B : Type}.

Lemma bind_inv (m : M A) (k : A -> M B) l r l' t :
  bind m k l = Some (r, l', t) ->
  (exists e, m l = Some (Raise e, l', t) /\ r = Raise e) \/
  (exists a l1 t1 t2,
      m l = Some (Ret a, l1, t1) /\ k a l1 = Some (r, l', t2) /\ t = t1 ++ t2).
Proof.
  unfold bind. destruct (m l) as [[[[a|e] l1] t1]|] eqn:Hm; try discriminate.
  - destruct (k a l1) as [[[r2 l2] t2]|] eqn:Hk; try discriminate.
    intros H; inversion H; subst. right. exists a, l1, t1, t2. auto.
  - intros H; inversion H; subst. left. exists e. auto.
Qed.

Lemma bind_ret (m : M A) (k : A -> M B) l a l1 t1 :
  m l = Some (Ret a, l1, t1) ->
  bind m k l =
    match k a l1 with
    | None => None
    | Some (r, l2, t2) => Some (r, l2, t1 ++ t2)
    end.
Proof. intros H. unfold bind. rewrite H. reflexivity. Qed.

Lemma bind_raise (m : M A) (k : A -> M B) l e l1 t1 :
  m l = Some (Raise e, l1, t1) ->
  bind m k l = Some (Raise e, l1, t1).
Proof. intros H. unfold bind. rewrite H. reflexivity. Qed.

Lemma try_finally_inv (body : M A) (fin : M B) l r l' t :
  try_finally body fin l = Some (r, l', t) ->
  exists rb l1 t1 rf t2,
    body l = Some (rb, l1, t1) /\ fin l1 = Some (rf, l', t2) /\ t = t1 ++ t2 /\
    r = match rf with
        | Raise e => Raise e
        | Ret b => match rb with Raise e => Raise e | Ret _ => Ret b end
        end.
Proof.
  unfold try_finally.
  destruct (body l) as [[[rb l1] t1]|] eqn:Hb; try discriminate.
  destruct (fin l1) as [[[rf l2] t2]|] eqn:Hf; try discriminate.
  intros H. exists rb, l1, t1, rf, t2.
  destruct rf as [b|e]; [destruct rb as [a|e]|]; inversion H; subst;
    repeat split; auto.
Qed.

End MonadLemmas.

Section Frames.
Context {X : Type} (f : Locals -> X) (P : event -> Prop).

Lemma keeps_ret {A} (a : A) : keeps f (ret a).
Proof. intros l r l' t H; inversion H; reflexivity. Qed.

Lemma keeps_raise {A} e : keeps f (@raise A e).
Proof. intros l r l' t H; inversion H; reflexivity. Qed.

Lemma keeps_out_of_fuel {A} : keeps f (@out_of_fuel A).
Proof. intros l r l' t H; inversion H. Qed.

Lemma keeps_emit e : keeps f (emit e).
Proof. intros l r l' t H; inversion H; reflexivity. Qed.

Lemma keeps_get : keeps f get_locals.
Proof. intros l r l' t H; inversion H; reflexivity. Qed.

Lemma keeps_bind {A B} (m : M A) (k : A -> M B) :
  keeps f m -> (forall a, keeps f (k a)) -> keeps f (bind m k).
Proof.
  intros Hm Hk l r l' t H.
  destruct (bind_inv _ _ _ _ _ _ H) as [[e [H1 _]]|[a [l1 [t1 [t2 [H1 [H2 _]]]]]]].
  - eauto.
  - rewrite (Hk _ _ _ _ _ H2). eauto.
Qed.

Lemma emits_ret {A} (a : A) : emits_only P (ret a).
Proof. intros l r l' t H; inversion H; constructor. Qed.

Lemma emits_raise {A} e : emits_only P (@raise A e).
Proof. intros l r l' t H; inversion H; constructor. Qed.

Lemma emits_out_of_fuel {A} : emits_only P (@out_of_fuel A).
Proof. intros l r l' t H; inversion H. Qed.

Lemma emits_emit e : P e -> emits_only P (emit e).
Proof. intros He l r l' t H; inversion H; repeat constructor; exact He. Qed.

Lemma emits_get : emits_only P get_locals.
Proof. intros l r l' t H; inversion H; constructor. Qed.

Lemma emits_set_simProc p : emits_only P (set_simProc p).
Proof. intros l r l' t H; inversion H; constructor. Qed.

Lemma emits_set_testProc p : emits_only P (set_testProc p).
Proof. intros l r l' t H; inversion H; constructor. Qed.

Lemma emits_bind {A B} (m : M A) (k : A -> M B) :
  emits_only P m -> (forall a, emits_only P (k a)) -> emits_only P (bind m k).
Proof.
  intros Hm Hk l r l' t H.
  destruct (bind_inv _ _ _ _ _ _ H) as [[e [H1 _]]|[a [l1 [t1 [t2 [H1 [H2 ->]]]]]]].
  - exact (Hm _ _ _ _ H1).
  - apply Forall_app. split; [exact (Hm _ _ _ _ H1) | exact (Hk _ _ _ _ _ H2)].
Qed.

End Frames.

Lemma keeps_sim_set_testProc p : keeps simProc (set_testProc p).
Proof. intros l r l' t H; inversion H; reflexivity. Qed.

Lemma keeps_test_set_simProc p : keeps testProc (set_simProc p).
Proof. intros l r l' t H; inversion H; reflexivity. Qed.

(** A [poll()] changes neither the process id nor [testProc]. *)
Lemma keeps_pid_poll answer : keeps sim_pid (poll answer).
Proof.
  intros l r l' t H. destruct answer as [code|];
    cbv [poll bind emit get_locals set_simProc ret] in H; inversion H; subst;
    [|reflexivity].
  unfold sim_pid. cbn [simProc]. destruct (simProc l); reflexivity.
Qed.

Lemma keeps_test_poll answer : keeps testProc (poll answer).
Proof.
  intros l r l' t H. destruct answer as [code|];
    cbv [poll bind emit get_locals set_simProc ret] in H; inversion H; subst;
    reflexivity.
Qed.

(** Walk through a computation built from the combinators, splitting on
    every test it makes. *)
Ltac frame_step :=
  match goal with
  | |- keeps sim_pid (poll _) => apply keeps_pid_poll
  | |- keeps testProc (poll _) => apply keeps_test_poll
  | |- emits_only _ (poll _) => unfold poll
  | |- keeps _ (bind _ _) => apply keeps_bind; [| intros ? ]
  | |- keeps _ (ret _) => apply keeps_ret
  | |- keeps _ (raise _) => apply keeps_raise
  | |- keeps _ out_of_fuel => apply keeps_out_of_fuel
  | |- keeps _ (emit _) => apply keeps_emit
  | |- keeps _ get_locals => apply keeps_get
  | |- keeps simProc (set_testProc _) => apply keeps_sim_set_testProc
  | |- keeps testProc (set_simProc _) => apply keeps_test_set_simProc
  | |- emits_only _ (bind _ _) => apply emits_bind; [| intros ? ]
  | |- emits_only _ (ret _) => apply emits_ret
  | |- emits_only _ (raise _) => apply emits_raise
  | |- emits_only _ out_of_fuel => apply emits_out_of_fuel
  | |- emits_only _ (emit _) => apply emits_emit; simpl; try exact I
  | |- emits_only _ get_locals => apply emits_get
  | |- emits_only _ (set_simProc _) => apply emits_set_simProc
  | |- emits_only _ (set_testProc _) => apply emits_set_testProc
  | |- keeps _ (if ?b then _ else _) => destruct b
  | |- emits_only _ (if ?b then _ else _) => destruct b
  | |- keeps _ (match ?x with _ => _ end) => destruct x
  | |- emits_only _ (match ?x with _ => _ end) => destruct x
  | |- keeps _ (let '(_, _) := ?x in _) => destruct x
  | |- emits_only _ (let '(_, _) := ?x in _) => destruct x
  end.

Ltac frame := repeat (first [ assumption | frame_step ]); auto.

(* ================================================================== *)
(** * The constructor and the entry point *)

(** C2.  Whatever its arguments, [CosimTestRunner.__init__] raises the
    exception of the DPI-library guard, whose first test compares the
    empty string with itself.  So every invocation of [__main__] with a
    command line that parses ends with that exception, after it made and
    entered the test directory and before any compile or launch. *)
Theorem C2_constructor_always_raises :
  (forall w testFile schema tmpdir addlArgs interactive include_aux_files
          exec exec_args server_only sim l,
      __init__ w testFile schema tmpdir addlArgs interactive include_aux_files
               exec exec_args server_only sim l
      = Some (Raise dpi_error, l, []))
  /\
  (forall w fuel args ns,
      (1 < length args)%nat ->
      parse_args w (tl args) = Some ns ->
      exists t,
        exec_M (__main__ w fuel args) = Some (Raise dpi_error, t) /\
        Forall (fun e => ~ is_compile_or_launch e) t /\
        exit_status (Raise dpi_error) = 1).
Proof.
  split.
  - intros. reflexivity.
  - intros w fuel args ns Hlen Hparse.
    unfold exec_M, __main__.
    destruct (Nat.leb_spec (length args) 1) as [Hle|_]; [lia|].
    rewrite Hparse.
    unfold bind at 1.
    destruct (path_exists w (OsPath.basename (ns_source ns) +++ ".d"));
      simpl; eexists; (split; [reflexivity|]); split; try reflexivity;
      repeat constructor; simpl; tauto.
Qed.

Lemma C2_constructor_always_raises_witness :
  exists t,
    exec_M (__main__ Demo.world 3%nat ["esi-cosim-runner.py"; "/t/loopback.sv"])
    = Some (Raise dpi_error, t) /\
    Forall (fun e => ~ is_compile_or_launch e) t /\
    exit_status (Raise dpi_error) = 1.
Proof.
  apply (proj2 C2_constructor_always_raises Demo.world 3%nat
               ["esi-cosim-runner.py"; "/t/loopback.sv"] Demo.namespace).
  - simpl. lia.
  - reflexivity.
Defined.

(** C3.  When the compile step exits with a status other than zero, the
    code of lines 361-364 of [__main__] prints the captured output of the
    compiler, stdout and stderr, under a failure banner, returns that
    status at once, and the trace of the whole call holds no launch of a
    simulation: [run] was not called. *)
Theorem C3_compile_failure_short_circuits :
  forall w self fuel rc out err,
    compile_proc w = Some (rc, out, err) ->
    rc <> 0 ->
    exists t,
      exec_M (compile_and_run w self fuel) = Some (Ret (Some rc), t) /\
      t = [ EPrint ("[INFO] Compile command: " +++ PyStr.join " " (compile_cmd self));
            ECompile (compile_cmd self);
            EPrint "====== Compilation failure:";
            EPrint (out +++ PyStr.nl +++ "----- STDERR ------" +++ PyStr.nl +++ err);
            EPrint ("[INFO] Compile time: " +++ compile_time w) ] /\
      Forall (fun e => ~ is_launch e) t /\
      exit_status (Ret (Some rc)) <> 0.
Proof.
  intros w self fuel rc out err Hc Hrc.
  assert (Hcmd :
    (if negb (String.eqb (sim self) "")
     then [simRunScript self; "--no-objdir"; "--no-run"] ++ ["--sim"; sim self]
     else [simRunScript self; "--no-objdir"; "--no-run"])
    ++ sources self ++ args self = compile_cmd self).
  { unfold compile_cmd. destruct (String.eqb (sim self) ""); simpl; reflexivity. }
  assert (Hnz : (rc =? 0) = false) by (apply Z.eqb_neq; exact Hrc).
  eexists. split; [| split; [reflexivity | split]].
  - unfold exec_M, compile_and_run, compile, subprocess_run_capture, print.
    rewrite Hcmd, Hc. unfold bind; simpl. rewrite Hnz. simpl. rewrite Hnz.
    reflexivity.
  - repeat constructor; simpl; tauto.
  - simpl. exact Hrc.
Qed.

Lemma C3_compile_failure_short_circuits_witness :
  exists t,
    exec_M (compile_and_run Demo.world_compile_fails Demo.runner 3%nat)
    = Some (Ret (Some 2), t) /\
    t = [ EPrint ("[INFO] Compile command: "
                  +++ PyStr.join " " (compile_cmd Demo.runner));
          ECompile (compile_cmd Demo.runner);
          EPrint "====== Compilation failure:";
          EPrint ("" +++ PyStr.nl +++ "----- STDERR ------" +++ PyStr.nl
                  +++ "syntax error");
          EPrint ("[INFO] Compile time: " +++ compile_time Demo.world_compile_fails) ] /\
    Forall (fun e => ~ is_launch e) t /\
    exit_status (Ret (Some 2)) <> 0.
Proof.
  apply (C3_compile_failure_short_circuits Demo.world_compile_fails Demo.runner
           3%nat 2 "" "syntax error").
  - reflexivity.
  - lia.
Defined.

(* ================================================================== *)
(** * The polling loops *)

Lemma bind_emit {B} (e : event) (k : unit -> M B) l :
  bind (emit e) k l =
    match k tt l with
    | None => None
    | Some (r, l2, t2) => Some (r, l2, e :: t2)
    end.
Proof. reflexivity. Qed.

Lemma bind_poll {B} (answer : option Z) (k : option Z -> M B) l :
  bind (poll answer) k l =
    match k answer (polled answer l) with
    | None => None
    | Some (r, l2, t2) => Some (r, l2, EPoll answer :: t2)
    end.
Proof.
  destruct answer as [code|]; unfold poll, polled;
    cbv [bind emit get_locals set_simProc ret app];
    destruct (k _ _) as [[[r l2] t2]|]; reflexivity.
Qed.

Lemma rounds_S round n : rounds round (S n) = round ++ rounds round n.
Proof. reflexivity. Qed.

Section Discovery.
Variable w : World.

Lemma wait_for_cfg_loop_shape gas : forall c l r l' t,
  (gas + c = 201)%nat ->
  wait_for_cfg_loop w gas c l = Some (r, l', t) ->
  exists n, (c <= n <= 200)%nat /\
    (forall k, (c <= k < n)%nat -> cfg_exists w k = false /\ poll_disc w k = None) /\
    ((r = Ret tt /\ l' = l /\ cfg_exists w n = true /\
      t = rounds cfg_round (n - c) ++ [EExists portFileName true]) \/
     (exists code, r = Ret tt /\ l' = polled (Some code) l /\
        cfg_exists w n = false /\ poll_disc w n = Some code /\
        t = rounds cfg_round (n - c)
            ++ [EExists portFileName false; EPoll (Some code)]) \/
     (r = Raise cfg_timeout /\ l' = l /\ n = 200%nat /\ cfg_exists w n = false /\
      poll_disc w n = None /\ t = rounds cfg_round (S n - c))).
Proof.
  induction gas as [|g IH]; intros c l r l' t Hgas H.
  - discriminate H.
  - simpl in H. rewrite bind_emit in H.
    destruct (cfg_exists w c) eqn:Hex; simpl in H.
    + inversion H; subst.
      exists c. split; [lia|]. split; [intros; lia|].
      left. rewrite Nat.sub_diag. auto 10.
    + rewrite bind_poll in H.
      destruct (poll_disc w c) as [code|] eqn:Hpoll.
      * inversion H; subst.
        exists c. split; [lia|]. split; [intros; lia|].
        right; left. exists code. rewrite Nat.sub_diag. auto 10.
      * unfold sleep, polled in H. rewrite bind_emit in H.
        destruct (Nat.ltb_spec 200 (S c)) as [Hlt|Hge].
        -- inversion H; subst.
           assert (c = 200%nat) by lia. subst c.
           exists 200%nat. split; [lia|]. split; [intros; lia|].
           right; right. repeat split; auto 10.
        -- destruct (wait_for_cfg_loop w g (S c) l) as [[[r0 l0] t0]|] eqn:Hrec;
             [|discriminate H].
           inversion H; subst.
           destruct (IH (S c) l r l' t0 ltac:(lia) Hrec)
             as [n [Hn [Hbefore Hcases]]].
           exists n. split; [lia|]. split.
           { intros k Hk. destruct (Nat.eq_dec k c) as [->|Hne]; [auto|].
             apply Hbefore; lia. }
           assert (Hsub : (n - c = S (n - S c))%nat) by lia.
           assert (Hsub' : (S n - c = S (S n - S c))%nat) by lia.
           destruct Hcases
             as [[Hr [Hl [He Ht]]]
                |[[code [Hr [Hl [He [Hp Ht]]]]]
                 |[Hr [Hl [Hn2 [He [Hp Ht]]]]]]].
           ++ left. rewrite Hsub, rounds_S, Ht. auto 10.
           ++ right; left. exists code. rewrite Hsub, rounds_S, Ht. auto 10.
           ++ right; right. rewrite Hsub', rounds_S, Ht. auto 10.
Qed.

Lemma wait_for_cfg_loop_total gas : forall c l,
  (gas + c = 201)%nat -> (c <= 200)%nat ->
  exists r l' t, wait_for_cfg_loop w gas c l = Some (r, l', t).
Proof.
  induction gas as [|g IH]; intros c l Hgas Hc.
  - lia.
  - cbn [wait_for_cfg_loop]. rewrite bind_emit.
    destruct (cfg_exists w c); cbn [negb]; [simpl; eauto|].
    rewrite bind_poll.
    destruct (poll_disc w c); [simpl; eauto|].
    unfold sleep, polled. rewrite bind_emit.
    destruct (Nat.ltb_spec 200 (S c)) as [Hlt|Hge]; [simpl; eauto|].
    destruct (IH (S c) l ltac:(lia) ltac:(lia)) as [r [l' [t Hrec]]].
    rewrite Hrec. eauto.
Qed.

(** The bounded loop never runs out of gas. *)
Lemma wait_for_cfg_total l : exists r l' t, wait_for_cfg w l = Some (r, l', t).
Proof. apply wait_for_cfg_loop_total; [reflexivity | lia]. Qed.

(** The loop gives up after 201 looks and 201 pauses. *)
Lemma wait_for_cfg_timeout l :
  (forall k, (k <= 200)%nat -> cfg_exists w k = false /\ poll_disc w k = None) ->
  wait_for_cfg w l = Some (Raise cfg_timeout, l, rounds cfg_round 201).
Proof.
  intros Hall.
  destruct (wait_for_cfg_total l) as [r [l' [t H]]].
  destruct (wait_for_cfg_loop_shape 201%nat 0%nat _ _ _ _ eq_refl H)
    as [n [Hn [_ Hcases]]].
  destruct (Hall n ltac:(lia)) as [Hex Hpoll].
  destruct Hcases
    as [[_ [_ [He _]]]|[[code [_ [_ [_ [Hp _]]]]]|[Hr [Hl [Hn2 [_ [_ Ht]]]]]]];
    try congruence.
  subst. rewrite H. reflexivity.
Qed.

(** The file shows up at look [n]: the loop ends after [n] pauses. *)
Lemma wait_for_cfg_found n l :
  (n <= 200)%nat ->
  (forall k, (k < n)%nat -> cfg_exists w k = false /\ poll_disc w k = None) ->
  cfg_exists w n = true ->
  wait_for_cfg w l
  = Some (Ret tt, l, rounds cfg_round n ++ [EExists portFileName true]).
Proof.
  intros Hn Hbefore Hfound.
  destruct (wait_for_cfg_total l) as [r [l' [t H]]].
  destruct (wait_for_cfg_loop_shape 201%nat 0%nat _ _ _ _ eq_refl H)
    as [m [Hm [Hbefore' Hcases]]].
  assert (m = n).
  { destruct (Nat.lt_trichotomy m n) as [Hlt|[Heq|Hgt]]; [|exact Heq|].
    - destruct (Hbefore m Hlt) as [He Hp].
      destruct Hcases
        as [[_ [_ [He' _]]]|[[code [_ [_ [_ [Hp' _]]]]]|[_ [_ [Hm2 _]]]]];
        try congruence; lia.
    - destruct (Hbefore' n ltac:(lia)) as [He _]. congruence. }
  subst m.
  destruct Hcases
    as [[Hr [Hl [_ Ht]]]|[[code [_ [_ [He _]]]]|[_ [_ [_ [He _]]]]]];
    try congruence.
  subst. rewrite H, Nat.sub_0_r. reflexivity.
Qed.

(** The simulation is found dead at look [n], the file still missing:
    the loop ends there, after [n] pauses and without another one, and
    the exit has been collected. *)
Lemma wait_for_cfg_exited n code l :
  (n <= 200)%nat ->
  (forall k, (k < n)%nat -> cfg_exists w k = false /\ poll_disc w k = None) ->
  cfg_exists w n = false ->
  poll_disc w n = Some code ->
  wait_for_cfg w l
  = Some (Ret tt, polled (Some code) l,
          rounds cfg_round n ++ [EExists portFileName false; EPoll (Some code)]).
Proof.
  intros Hn Hbefore Hmissing Hdead.
  destruct (wait_for_cfg_total l) as [r [l' [t H]]].
  destruct (wait_for_cfg_loop_shape 201%nat 0%nat _ _ _ _ eq_refl H)
    as [m [Hm [Hbefore' Hcases]]].
  assert (m = n).
  { destruct (Nat.lt_trichotomy m n) as [Hlt|[Heq|Hgt]]; [|exact Heq|].
    - destruct (Hbefore m Hlt) as [He Hp].
      destruct Hcases
        as [[_ [_ [He' _]]]|[[c' [_ [_ [_ [Hp' _]]]]]|[_ [_ [Hm2 _]]]]];
        try congruence; lia.
    - destruct (Hbefore' n ltac:(lia)) as [_ Hp]. congruence. }
  subst m.
  destruct Hcases
    as [[_ [_ [He _]]]|[[c' [Hr [Hl [_ [Hp Ht]]]]]|[_ [_ [_ [_ [Hp _]]]]]]];
    try congruence.
  assert (c' = code) by congruence. subst.
  rewrite H, Nat.sub_0_r. reflexivity.
Qed.

End Discovery.

(** *** Reading the port *)

Lemma take_while_all f s : all_chars f (PyStr.take_while f s) = true.
Proof.
  induction s as [|c r IH]; simpl; [reflexivity|].
  destruct (f c) eqn:Hc; simpl; [rewrite Hc; exact IH | reflexivity].
Qed.

Lemma int_digits_nonneg s : forall acc,
  all_chars PyStr.is_digit s = true -> 0 <= acc -> 0 <= PyStr.int_digits acc s.
Proof.
  induction s as [|c r IH]; intros acc Hall Hacc;
    cbn [all_chars PyStr.int_digits] in *; [exact Hacc|].
  apply andb_prop in Hall. destruct Hall as [Hc Hr].
  apply IH; [exact Hr|].
  unfold PyStr.is_digit in Hc. apply andb_prop in Hc. destruct Hc as [Hlo _].
  apply Nat.leb_le in Hlo. lia.
Qed.

(** A port read from a matching line is never negative. *)
Lemma match_port_nonneg line g :
  Re.match_port line = Some g -> 0 <= PyStr.int g.
Proof.
  unfold Re.match_port.
  destruct (PyStr.strip_prefix "port: " line) as [rest|]; [|discriminate].
  destruct (PyStr.is_empty (PyStr.take_while PyStr.is_digit rest)); [discriminate|].
  intros H; inversion H; subst.
  apply int_digits_nonneg; [apply take_while_all | lia].
Qed.

Lemma scan_port_cases lines : forall port,
  (no_port_line lines /\ scan_port lines port = port) \/
  (exists line g, last_port_line lines line g /\ scan_port lines port = PyStr.int g).
Proof.
  induction lines as [|x rest IH]; intros port; simpl.
  - left. split; [intros y []|reflexivity].
  - destruct (Re.match_port x) as [g1|] eqn:Hx.
    + destruct (IH (PyStr.int g1)) as [[Hnone Hscan]|[line [g [[pre [post [Hl [Hm Hp]]]] Hscan]]]].
      * right. exists x, g1. split; [|exact Hscan].
        exists [], rest. auto.
      * right. exists line, g. split; [|exact Hscan].
        exists (x :: pre), post. subst rest. auto.
    + destruct (IH port) as [[Hnone Hscan]|[line [g [[pre [post [Hl [Hm Hp]]]] Hscan]]]].
      * left. split; [|exact Hscan].
        intros y [<-|Hy]; [exact Hx | apply Hnone; exact Hy].
      * right. exists line, g. split; [|exact Hscan].
        exists (x :: pre), post. subst rest. auto.
Qed.

Lemma scan_port_none lines port :
  no_port_line lines -> scan_port lines port = port.
Proof.
  induction lines as [|x rest IH]; intros Hnone; simpl; [reflexivity|].
  rewrite (Hnone x (or_introl eq_refl)).
  apply IH. intros y Hy. apply Hnone. right. exact Hy.
Qed.

Lemma scan_port_last lines line g port :
  last_port_line lines line g -> scan_port lines port = PyStr.int g.
Proof.
  intros [pre [post [-> [Hm Hp]]]]. revert port.
  induction pre as [|x pre IH]; intros port; simpl.
  - rewrite Hm. apply scan_port_none. exact Hp.
  - destruct (Re.match_port x); apply IH.
Qed.

Section ReadPort.
Variable w : World.

Lemma read_port_loop_done fuel reads port l :
  0 <= port -> read_port_loop w fuel reads port l = Some (Ret port, l, []).
Proof.
  intros Hp. assert (Hlt : (port <? 0) = false) by (apply Z.ltb_ge; exact Hp).
  destruct fuel; simpl; rewrite Hlt; reflexivity.
Qed.

(** The loop hands out a port only when the read it just did holds a
    matching line, and then the number on the last such line; every
    earlier read found the file there but without such a line. *)
Lemma read_port_loop_ret fuel : forall reads port l p l' t,
  port < 0 ->
  read_port_loop w fuel reads port l = Some (Ret p, l', t) ->
  l' = l /\
  exists n text line g,
    (reads <= n)%nat /\ cfg_read w n = Some text /\
    last_port_line (PyStr.readlines text) line g /\
    p = PyStr.int g /\ 0 <= p /\
    (forall j, (reads <= j < n)%nat ->
       exists text', cfg_read w j = Some text' /\
                     no_port_line (PyStr.readlines text')).
Proof.
  induction fuel as [|f IH]; intros reads port l p l' t Hneg H;
    assert (Hlt : (port <? 0) = true) by (apply Z.ltb_lt; exact Hneg);
    simpl in H; rewrite Hlt in H; [discriminate H|].
  destruct (cfg_read w reads) as [text|] eqn:Hread; [|discriminate H].
  rewrite bind_emit in H.
  destruct (scan_port_cases (PyStr.readlines text) port)
    as [[Hnone Hscan]|[line [g [Hlast Hscan]]]]; rewrite Hscan in H.
  - destruct (read_port_loop w f (S reads) port l) as [[[r0 l0] t0]|] eqn:Hrec;
      [|discriminate H].
    inversion H; subst.
    destruct (IH _ _ _ _ _ _ Hneg Hrec)
      as [Hl [n [text' [line [g [Hn [Hr [Hlast [Hp [Hp0 Hbefore]]]]]]]]]].
    split; [exact Hl|].
    exists n, text', line, g. repeat split; auto; try lia.
    intros j Hj. destruct (Nat.eq_dec j reads) as [->|Hne].
    + exists text. auto.
    + apply Hbefore. lia.
  - assert (Hnn : 0 <= PyStr.int g).
    { destruct Hlast as [pre [post [_ [Hm _]]]]. exact (match_port_nonneg _ _ Hm). }
    rewrite (read_port_loop_done f (S reads) _ l Hnn) in H.
    inversion H; subst. split; [reflexivity|].
    exists reads, text, line, g. repeat split; auto; try lia.
Qed.

(** With reads left for it, the loop does return once a read holds a
    matching line. *)
Lemma read_port_loop_found n : forall fuel reads port l text line g,
  port < 0 ->
  (forall j, (reads <= j < reads + n)%nat ->
     exists text', cfg_read w j = Some text' /\
                   no_port_line (PyStr.readlines text')) ->
  cfg_read w (reads + n) = Some text ->
  last_port_line (PyStr.readlines text) line g ->
  (n < fuel)%nat ->
  exists t, read_port_loop w fuel reads port l = Some (Ret (PyStr.int g), l, t).
Proof.
  induction n as [|n IH]; intros fuel reads port l text line g Hneg Hbefore Hread Hlast Hfuel;
    assert (Hlt : (port <? 0) = true) by (apply Z.ltb_lt; exact Hneg);
    (destruct fuel as [|f]; [lia|]); simpl; rewrite Hlt.
  - rewrite Nat.add_0_r in Hread. rewrite Hread, bind_emit.
    rewrite (scan_port_last _ _ _ port Hlast).
    rewrite read_port_loop_done.
    + eauto.
    + destruct Hlast as [pre [post [_ [Hm _]]]]. exact (match_port_nonneg _ _ Hm).
  - destruct (Hbefore reads ltac:(lia)) as [text' [Hread' Hnone]].
    rewrite Hread', bind_emit, (scan_port_none _ port Hnone).
    assert (Hrec : exists t, read_port_loop w f (S reads) port l
                             = Some (Ret (PyStr.int g), l, t)).
    { apply (IH f (S reads) port l text line g Hneg); [ | | exact Hlast | lia].
      - intros j Hj. apply Hbefore. lia.
      - rewrite <- Hread. f_equal. lia. }
    destruct Hrec as [t Ht]. rewrite Ht. eauto.
Qed.

(** The file is not there when the loop opens it. *)
Lemma read_port_missing fuel l :
  cfg_read w 0 = None ->
  read_port w (S fuel) l = Some (Raise (FileNotFoundError portFileName), l, []).
Proof. intros H. unfold read_port. simpl. rewrite H. reflexivity. Qed.

End ReadPort.

(** C6.  Port discovery, lines 178-192 of [run].  While the simulation
    runs and [cosim.cfg] is missing, the loop looks for the file, asks
    [poll()] and sleeps 100 ms; the counter passes its budget of 200 at
    the 201st look without the file, and the loop then raises the
    exception that stands for the start-up timeout.  A file that shows up
    at any of these looks ends the wait.  A port is returned only from a
    read of the file that holds a line matching the port pattern, it is
    the number on the last such line, never negative, and all reads before
    found no such line; given enough reads the port is returned.  The file
    with the lines garbage and port: 4711 gives 4711. *)
Theorem C6_port_discovery :
  forall w : World,
    (forall l,
        (forall k, (k <= 200)%nat -> cfg_exists w k = false /\ poll_disc w k = None) ->
        wait_for_cfg w l = Some (Raise cfg_timeout, l, rounds cfg_round 201)) /\
    (forall n l,
        (n <= 200)%nat ->
        (forall k, (k < n)%nat -> cfg_exists w k = false /\ poll_disc w k = None) ->
        cfg_exists w n = true ->
        wait_for_cfg w l
        = Some (Ret tt, l, rounds cfg_round n ++ [EExists portFileName true])) /\
    (forall fuel l port l' t,
        read_port w fuel l = Some (Ret port, l', t) ->
        exists n text line g,
          cfg_read w n = Some text /\
          last_port_line (PyStr.readlines text) line g /\
          port = PyStr.int g /\ 0 <= port /\
          (forall j, (j < n)%nat ->
             exists text', cfg_read w j = Some text' /\
                           no_port_line (PyStr.readlines text'))) /\
    (forall n fuel l text line g,
        (forall j, (j < n)%nat ->
           exists text', cfg_read w j = Some text' /\
                         no_port_line (PyStr.readlines text')) ->
        cfg_read w n = Some text ->
        last_port_line (PyStr.readlines text) line g ->
        (n < fuel)%nat ->
        exists t, read_port w fuel l = Some (Ret (PyStr.int g), l, t)) /\
    (forall fuel l,
        cfg_read w 0 = Some Demo.cfg_text ->
        read_port w (S fuel) l = Some (Ret 4711, l, [EReadCfg Demo.cfg_text])).
Proof.
  intros w. repeat split.
  - intros l Hall. apply wait_for_cfg_timeout. exact Hall.
  - intros n l Hn Hbefore Hfound. apply wait_for_cfg_found; assumption.
  - intros fuel l port l' t H.
    destruct (read_port_loop_ret w fuel 0%nat (-1) l port l' t ltac:(lia) H)
      as [_ [n [text [line [g [_ [Hr [Hlast [Hp [Hp0 Hbefore]]]]]]]]]].
    exists n, text, line, g. repeat split; auto.
    intros j Hj. apply Hbefore. lia.
  - intros n fuel l text line g Hbefore Hread Hlast Hfuel.
    apply (read_port_loop_found w n fuel 0%nat (-1) l text line g); auto; try lia.
    intros j Hj. apply Hbefore. lia.
  - intros fuel l Hread.
    assert (Hscan : scan_port (PyStr.readlines Demo.cfg_text) (-1) = 4711)
      by reflexivity.
    unfold read_port. cbn [read_port_loop]. change (-1 <? 0) with true. cbv iota.
    rewrite Hread, bind_emit, Hscan, read_port_loop_done by lia.
    reflexivity.
Qed.

Lemma C6_port_discovery_witness :
  wait_for_cfg Demo.world_no_cfg (mkLocals (Some (running 4242)) None)
  = Some (Raise cfg_timeout, mkLocals (Some (running 4242)) None, rounds cfg_round 201) /\
  wait_for_cfg Demo.world (mkLocals (Some (running 4242)) None)
  = Some (Ret tt, mkLocals (Some (running 4242)) None,
          rounds cfg_round 2 ++ [EExists portFileName true]) /\
  exists t, read_port Demo.world 2 (mkLocals (Some (running 4242)) None)
            = Some (Ret (PyStr.int "4711"), mkLocals (Some (running 4242)) None, t).
Proof.
  split; [|split].
  - apply (proj1 (C6_port_discovery Demo.world_no_cfg)).
    intros k Hk. split; reflexivity.
  - apply (proj1 (proj2 (C6_port_discovery Demo.world))); [lia | | reflexivity].
    intros k Hk.
    destruct k as [|[|k]]; [split; reflexivity | split; reflexivity | lia].
  - apply (proj1 (proj2 (proj2 (proj2 (C6_port_discovery Demo.world))))
             1%nat 2%nat (mkLocals (Some (running 4242)) None) Demo.cfg_text
             ("port: 4711" +++ PyStr.nl) "4711").
    + intros j Hj. exists "". split.
      * destruct j as [|j]; [reflexivity | lia].
      * intros x [].
    + reflexivity.
    + exists ["garbage" +++ PyStr.nl], []. split; [reflexivity|].
      split; [reflexivity | intros x []].
    + lia.
Defined.

(** The simulation exits before it wrote [cosim.cfg]: the look at
    which [poll()] reports the exit ends the waiting loop, with no pause
    after it and whatever is left of the budget unused; the loop raises
    nothing, and it is the [open] of the missing file that follows which
    raises, a [FileNotFoundError].  Nothing of the later phases runs. *)
Lemma run_after_launch_exited w self fuel n code l :
  (n <= 200)%nat ->
  (forall k, (k < n)%nat -> cfg_exists w k = false /\ poll_disc w k = None) ->
  cfg_exists w n = false ->
  poll_disc w n = Some code ->
  cfg_read w 0 = None ->
  run_after_launch w self (S fuel) l
  = Some (Raise (FileNotFoundError portFileName), polled (Some code) l,
          rounds cfg_round n ++ [EExists portFileName false; EPoll (Some code)]).
Proof.
  intros Hn Hbefore Hmissing Hdead Hread.
  unfold run_after_launch.
  rewrite (bind_ret _ _ _ _ _ _ (wait_for_cfg_exited w n code l Hn Hbefore Hmissing Hdead)).
  rewrite (bind_raise _ _ _ _ _ _ (read_port_missing w fuel _ Hread)).
  rewrite app_nil_r. reflexivity.
Qed.

(** *** The readiness probe *)

Section Readiness.
Variable w : World.
Variable port : Z.

Lemma port_ok_test : port_ok port -> (0 <=? port) && (port <=? 65535) = true.
Proof.
  intros [H0 H1]. apply andb_true_intro. split; apply Z.leb_le; assumption.
Qed.

Lemma port_bad_test : ~ port_ok port -> (0 <=? port) && (port <=? 65535) = false.
Proof.
  intros Hbad. apply not_true_is_false. intros H.
  apply andb_prop in H. destruct H as [H0 H1].
  apply Z.leb_le in H0, H1. apply Hbad. split; assumption.
Qed.

Lemma port_ok_dec : {port_ok port} + {~ port_ok port}.
Proof.
  unfold port_ok.
  destruct (Z_le_dec 0 port); [destruct (Z_le_dec port 65535)|]; auto;
    right; lia.
Qed.

Lemma isPortOpen_eq attempt l :
  port_ok port ->
  isPortOpen w attempt port l
  = Some (Ret (connect_ex w attempt port =? 0), l,
          probe port (connect_ex w attempt port)).
Proof.
  intros Hok. unfold isPortOpen. rewrite (port_ok_test Hok), !bind_emit.
  unfold ret. destruct (connect_ex w attempt port =? 0); reflexivity.
Qed.

(** A port that is no 16-bit number: the socket is made, [connect_ex]
    raises, and the socket is not closed. *)
Lemma isPortOpen_overflow attempt l :
  ~ port_ok port ->
  isPortOpen w attempt port l = Some (Raise port_overflow, l, [ESocket]).
Proof.
  intros Hbad. unfold isPortOpen. rewrite (port_bad_test Hbad), bind_emit.
  reflexivity.
Qed.

Lemma wait_for_rpc_overflow l :
  ~ port_ok port ->
  wait_for_rpc w port l = Some (Raise port_overflow, l, [ESocket]).
Proof.
  intros Hbad. unfold wait_for_rpc, poll_gas. cbn [wait_for_rpc_loop].
  rewrite (bind_raise _ _ _ _ _ _ (isPortOpen_overflow 0 l Hbad)). reflexivity.
Qed.

Lemma wait_for_rpc_loop_shape gas : forall c l r l' t,
  port_ok port ->
  (gas + c = 201)%nat ->
  wait_for_rpc_loop w gas port c l = Some (r, l', t) ->
  exists n, (c <= n <= 200)%nat /\
    (forall k, (c <= k < n)%nat ->
       connect_ex w k port <> 0 /\ poll_ready w k = None) /\
    ((r = Ret tt /\ l' = l /\ connect_ex w n port = 0 /\
      t = rpc_retries w port c (n - c) ++ probe port 0) \/
     (r = Raise (rpc_timeout port) /\ l' = l /\ n = 200%nat /\
      connect_ex w n port <> 0 /\
      t = rpc_retries w port c (n - c) ++ probe port (connect_ex w n port)) \/
     (exists code, r = Raise exited_early /\ l' = polled (Some code) l /\
        (n < 200)%nat /\
        connect_ex w n port <> 0 /\ poll_ready w n = Some code /\
        t = rpc_retries w port c (n - c) ++ probe port (connect_ex w n port)
            ++ [EPoll (Some code)])).
Proof.
  intros c l r l' t Hok. revert c l r l' t.
  induction gas as [|g IH]; intros c l r l' t Hgas H.
  - discriminate H.
  - cbn [wait_for_rpc_loop] in H.
    rewrite (bind_ret _ _ _ _ _ _ (isPortOpen_eq c l Hok)) in H.
    destruct (Z.eqb_spec (connect_ex w c port) 0) as [Hzero|Hfail]; cbn [negb] in H.
    + inversion H; subst.
      exists c. split; [lia|]. split; [intros; lia|].
      left. rewrite Nat.sub_diag, Hzero. auto.
    + destruct (Nat.ltb_spec 200 (S c)) as [Hlt|Hge].
      * inversion H; subst.
        assert (c = 200%nat) by lia. subst c.
        exists 200%nat. split; [lia|]. split; [intros; lia|].
        right; left. rewrite Nat.sub_diag. repeat split; auto.
      * rewrite bind_poll in H.
        destruct (poll_ready w c) as [code|] eqn:Hpoll.
        -- inversion H; subst.
           exists c. split; [lia|]. split; [intros; lia|].
           right; right. exists code. rewrite Nat.sub_diag.
           repeat split; auto; lia.
        -- unfold sleep, polled in H. rewrite bind_emit in H.
           destruct (wait_for_rpc_loop w g port (S c) l) as [[[r0 l0] t0]|] eqn:Hrec;
             [|discriminate H].
           inversion H; subst.
           destruct (IH (S c) l r l' t0 ltac:(lia) Hrec)
             as [n [Hn [Hbefore Hcases]]].
           exists n. split; [lia|]. split.
           { intros k Hk. destruct (Nat.eq_dec k c) as [->|Hne]; [auto|].
             apply Hbefore; lia. }
           assert (Hsub : (n - c = S (n - S c))%nat) by lia.
           rewrite Hsub. cbn [rpc_retries].
           destruct Hcases
             as [[Hr [Hl [Hc Ht]]]
                |[[Hr [Hl [Hn2 [Hc Ht]]]]
                 |[code [Hr [Hl [Hn2 [Hc [Hp Ht]]]]]]]];
             rewrite Ht.
           ++ left. auto 10.
           ++ right; left. auto 10.
           ++ right; right. exists code. auto 10.
Qed.

Lemma wait_for_rpc_loop_total gas : forall c l,
  (gas + c = 201)%nat -> (c <= 200)%nat ->
  exists r l' t, wait_for_rpc_loop w gas port c l = Some (r, l', t).
Proof.
  induction gas as [|g IH]; intros c l Hgas Hc.
  - lia.
  - cbn [wait_for_rpc_loop].
    destruct port_ok_dec as [Hok|Hbad];
      [|rewrite (bind_raise _ _ _ _ _ _ (isPortOpen_overflow c l Hbad)); eauto].
    rewrite (bind_ret _ _ _ _ _ _ (isPortOpen_eq c l Hok)).
    destruct (connect_ex w c port =? 0); cbn [negb]; [simpl; eauto|].
    destruct (Nat.ltb_spec 200 (S c)) as [Hlt|Hge]; [simpl; eauto|].
    rewrite bind_poll.
    destruct (poll_ready w c); [simpl; eauto|].
    unfold sleep, polled. rewrite bind_emit.
    destruct (IH (S c) l ltac:(lia) ltac:(lia)) as [r [l' [t Hrec]]].
    rewrite Hrec. eauto.
Qed.

Lemma wait_for_rpc_total l :
  exists r l' t, wait_for_rpc w port l = Some (r, l', t).
Proof. apply wait_for_rpc_loop_total; [reflexivity | lia]. Qed.

Lemma wait_for_rpc_shape l r l' t :
  port_ok port ->
  wait_for_rpc w port l = Some (r, l', t) ->
  exists n, (n <= 200)%nat /\
    (forall k, (k < n)%nat -> connect_ex w k port <> 0 /\ poll_ready w k = None) /\
    ((r = Ret tt /\ l' = l /\ connect_ex w n port = 0 /\
      t = rpc_retries w port 0 n ++ probe port 0) \/
     (r = Raise (rpc_timeout port) /\ l' = l /\ n = 200%nat /\
      connect_ex w n port <> 0 /\
      t = rpc_retries w port 0 n ++ probe port (connect_ex w n port)) \/
     (exists code, r = Raise exited_early /\ l' = polled (Some code) l /\
        (n < 200)%nat /\
        connect_ex w n port <> 0 /\ poll_ready w n = Some code /\
        t = rpc_retries w port 0 n ++ probe port (connect_ex w n port)
            ++ [EPoll (Some code)])).
Proof.
  intros Hok H.
  destruct (wait_for_rpc_loop_shape 201%nat 0%nat l r l' t Hok eq_refl H)
    as [n [Hn [Hbefore Hcases]]].
  exists n. rewrite Nat.sub_0_r in Hcases.
  split; [lia|]. split; [|exact Hcases].
  intros k Hk. apply Hbefore. lia.
Qed.

(** The loop ends normally only for a port [connect_ex] takes. *)
Lemma wait_for_rpc_ret_port_ok l l' t :
  wait_for_rpc w port l = Some (Ret tt, l', t) -> port_ok port.
Proof.
  intros H. destruct port_ok_dec as [Hok|Hbad]; [exact Hok|].
  rewrite (wait_for_rpc_overflow l Hbad) in H. discriminate H.
Qed.

End Readiness.

Section ReadinessFacts.
Variable w : World.
Variable port : Z.
Hypothesis Hok : port_ok port.

Lemma rpc_retries_closed n : forall c t,
  probes_closed t -> probes_closed (rpc_retries w port c n ++ t).
Proof.
  induction n as [|n IH]; intros c t Ht; simpl; [exact Ht|].
  apply IH. exact Ht.
Qed.

Lemma rpc_retries_sockets n : forall c t,
  sockets_closed false t -> sockets_closed false (rpc_retries w port c n ++ t).
Proof.
  induction n as [|n IH]; intros c t Ht; simpl; [exact Ht|].
  split; [reflexivity|]. apply IH. exact Ht.
Qed.

Lemma rpc_retries_polled n : forall c t,
  poll_before_retry false t -> poll_before_retry false (rpc_retries w port c n ++ t).
Proof.
  induction n as [|n IH]; intros c t Ht; simpl; [exact Ht|].
  apply IH. exact Ht.
Qed.

(** The simulation is found dead after the failed probe [n]. *)
Lemma wait_for_rpc_exited n code l :
  (n < 200)%nat ->
  (forall k, (k <= n)%nat -> connect_ex w k port <> 0) ->
  (forall k, (k < n)%nat -> poll_ready w k = None) ->
  poll_ready w n = Some code ->
  wait_for_rpc w port l
  = Some (Raise exited_early, polled (Some code) l,
          rpc_retries w port 0 n ++ probe port (connect_ex w n port)
          ++ [EPoll (Some code)]).
Proof.
  intros Hn Hfail Halive Hdead.
  destruct (wait_for_rpc_total w port l) as [r [l' [t H]]].
  destruct (wait_for_rpc_shape w port l r l' t Hok H) as [m [Hm [Hbefore Hcases]]].
  assert (m = n).
  { destruct (Nat.lt_trichotomy m n) as [Hlt|[Heq|Hgt]]; [|exact Heq|].
    - pose proof (Hfail m ltac:(lia)) as Hf. pose proof (Halive m Hlt) as Ha.
      destruct Hcases
        as [[_ [_ [Hc _]]]|[[_ [_ [Hm2 _]]]|[c' [_ [_ [_ [_ [Hp _]]]]]]]];
        try congruence; lia.
    - destruct (Hbefore n ltac:(lia)) as [_ Hp]. congruence. }
  subst m. pose proof (Hfail n ltac:(lia)) as Hf.
  destruct Hcases
    as [[_ [_ [Hc _]]]|[[_ [_ [Hm2 _]]]|[c' [Hr [Hl [_ [_ [Hp Ht]]]]]]]];
    [congruence | lia | ].
  assert (c' = code) by congruence. subst. exact H.
Qed.

(** All 201 probes fail while the simulation runs. *)
Lemma wait_for_rpc_timeout l :
  (forall k, (k <= 200)%nat -> connect_ex w k port <> 0) ->
  (forall k, (k < 200)%nat -> poll_ready w k = None) ->
  wait_for_rpc w port l
  = Some (Raise (rpc_timeout port), l,
          rpc_retries w port 0 200 ++ probe port (connect_ex w 200 port)).
Proof.
  intros Hfail Halive.
  destruct (wait_for_rpc_total w port l) as [r [l' [t H]]].
  destruct (wait_for_rpc_shape w port l r l' t Hok H) as [m [Hm [_ Hcases]]].
  pose proof (Hfail m Hm) as Hf.
  destruct Hcases
    as [[_ [_ [Hc _]]]|[[Hr [Hl [Hm2 [_ Ht]]]]|[c' [_ [_ [Hlt [_ [Hp _]]]]]]]].
  - congruence.
  - subst. exact H.
  - rewrite (Halive m Hlt) in Hp. discriminate Hp.
Qed.

End ReadinessFacts.

(** C8, as the spec has it, fails: port discovery hands over whatever
    number the config file holds, and for the port 70000 the first probe
    makes its socket, [connect_ex] raises an [OverflowError] before it
    connects, and the socket is never closed; the exception is neither
    the one for the early exit nor the one for the readiness timeout, and
    it is what the [try] block of [run] ends with. *)
Lemma C8_readiness_probe_counterexample :
  read_port world_big_port 1 (mkLocals (Some (running 4242)) None)
  = Some (Ret 70000, mkLocals (Some (running 4242)) None,
          [EReadCfg ("port: 70000" +++ PyStr.nl)]) /\
  wait_for_rpc world_big_port 70000 (mkLocals (Some (running 4242)) None)
  = Some (Raise port_overflow, mkLocals (Some (running 4242)) None, [ESocket]) /\
  ~ sockets_closed false [ESocket] /\
  port_overflow <> exited_early /\
  port_overflow <> rpc_timeout 70000 /\
  option_map fst (exec_M (run_try world_big_port Demo.runner 1))
  = Some (Raise port_overflow).
Proof.
  split; [vm_compute; reflexivity|].
  split; [vm_compute; reflexivity|].
  split; [simpl; intros [_ H]; discriminate H|].
  split; [discriminate|].
  split; [discriminate|].
  vm_compute. reflexivity.
Qed.

(** C8, amended.  The readiness probe, lines 194-202 of [run] and
    [isPortOpen], for a discovered port that [connect_ex] takes, a number
    from 0 to 65535.  One probe opens a socket, connects, closes the
    socket whatever the connect gave, and says open exactly when the
    connect gave 0.  The loop always ends.  However it ends, every socket
    it made is closed, every connect of its trace is followed by the close
    of the socket, and between two connects [poll()] was asked and found
    the simulation running; it ends normally only on a probe whose connect
    succeeded, the last thing it did.  When [poll()] reports the exit
    after a failed probe the loop raises the exited-early exception and
    probes no more; when the first probe and the 200 that follow it, 50 ms
    apart, all fail, it raises the exception that stands for the readiness
    timeout. *)
Theorem C8_readiness_probe :
  forall (w : World) (port : Z),
    port_ok port ->
    (forall attempt l,
        isPortOpen w attempt port l
        = Some (Ret (connect_ex w attempt port =? 0), l,
                [ESocket; EConnect port (connect_ex w attempt port); ESockClose])) /\
    (forall l, exists r l' t, wait_for_rpc w port l = Some (r, l', t)) /\
    (forall l r l' t,
        wait_for_rpc w port l = Some (r, l', t) ->
        sockets_closed false t /\
        probes_closed t /\
        poll_before_retry false t /\
        (r = Ret tt ->
         l' = l /\
         exists n, (n <= 200)%nat /\ connect_ex w n port = 0 /\
                   t = rpc_retries w port 0 n ++ probe port 0)) /\
    (forall n code l,
        (n < 200)%nat ->
        (forall k, (k <= n)%nat -> connect_ex w k port <> 0) ->
        (forall k, (k < n)%nat -> poll_ready w k = None) ->
        poll_ready w n = Some code ->
        wait_for_rpc w port l
        = Some (Raise exited_early, polled (Some code) l,
                rpc_retries w port 0 n ++ probe port (connect_ex w n port)
                ++ [EPoll (Some code)])) /\
    (forall l,
        (forall k, (k <= 200)%nat -> connect_ex w k port <> 0) ->
        (forall k, (k < 200)%nat -> poll_ready w k = None) ->
        wait_for_rpc w port l
        = Some (Raise (rpc_timeout port), l,
                rpc_retries w port 0 200 ++ probe port (connect_ex w 200 port))).
Proof.
  intros w port Hok. split; [|split; [|split; [|split]]].
  - intros attempt l. apply isPortOpen_eq. exact Hok.
  - intros l. apply wait_for_rpc_total.
  - intros l r l' t H.
    destruct (wait_for_rpc_shape w port l r l' t Hok H) as [n [Hn [_ Hcases]]].
    destruct Hcases
      as [[Hr [Hl [Hc Ht]]]
         |[[Hr [Hl [Hn2 [Hc Ht]]]]|[code [Hr [Hl [Hn2 [Hc [Hp Ht]]]]]]]];
      subst r t.
    + split; [apply rpc_retries_sockets; simpl; auto|].
      split; [apply rpc_retries_closed; simpl; exact I|].
      split; [apply rpc_retries_polled; simpl; exact I|].
      intros _. split; [exact Hl|]. exists n. auto.
    + split; [apply rpc_retries_sockets; simpl; auto|].
      split; [apply rpc_retries_closed; simpl; exact I|].
      split; [apply rpc_retries_polled; simpl; exact I|].
      intros Hr. discriminate Hr.
    + split; [apply rpc_retries_sockets; simpl; auto|].
      split; [apply rpc_retries_closed; simpl; exact I|].
      split; [apply rpc_retries_polled; simpl; exact I|].
      intros Hr. discriminate Hr.
  - intros n code l. apply wait_for_rpc_exited. exact Hok.
  - intros l. apply wait_for_rpc_timeout. exact Hok.
Qed.

Lemma C8_readiness_probe_witness :
  wait_for_rpc Demo.world_port_closed 4711 (mkLocals (Some (running 4242)) None)
  = Some (Raise (rpc_timeout 4711), mkLocals (Some (running 4242)) None,
          rpc_retries Demo.world_port_closed 4711 0 200 ++ probe 4711 111) /\
  (exists r l' t,
      wait_for_rpc Demo.world 4711 (mkLocals (Some (running 4242)) None)
      = Some (r, l', t)).
Proof.
  assert (Hok : port_ok 4711) by (unfold port_ok; lia).
  split.
  - apply (proj2 (proj2 (proj2 (proj2
             (C8_readiness_probe Demo.world_port_closed 4711 Hok))))).
    + intros k Hk. simpl. lia.
    + intros k Hk. reflexivity.
  - apply (proj1 (proj2 (C8_readiness_probe Demo.world 4711 Hok))).
Defined.

(* ================================================================== *)
(** * The phases of [run] *)

Section Phases.
Variable w : World.
Variable self : CosimTestRunner.

Lemma wait_for_cfg_loop_keeps {X} (f : Locals -> X) gas :
  (forall answer, keeps f (poll answer)) ->
  forall c, keeps f (wait_for_cfg_loop w gas c).
Proof.
  intros Hpoll.
  induction gas as [|g IH]; intros c; cbn [wait_for_cfg_loop]; unfold sleep;
    frame.
Qed.

Lemma read_port_loop_keeps {X} (f : Locals -> X) fuel :
  forall reads port, keeps f (read_port_loop w fuel reads port).
Proof.
  induction fuel as [|n IH]; intros reads port; cbn [read_port_loop]; frame.
Qed.

Lemma wait_for_rpc_loop_keeps {X} (f : Locals -> X) gas :
  (forall answer, keeps f (poll answer)) ->
  forall port c, keeps f (wait_for_rpc_loop w gas port c).
Proof.
  intros Hpoll.
  induction gas as [|g IH]; intros port c; cbn [wait_for_rpc_loop];
    unfold isPortOpen, sleep; frame.
Qed.

Lemma wait_for_cfg_loop_emits P gas :
  (forall b, P (EExists portFileName b)) -> (forall rc, P (EPoll rc)) ->
  (forall ms, P (ESleep ms)) ->
  forall c, emits_only P (wait_for_cfg_loop w gas c).
Proof.
  intros H1 H2 H3.
  induction gas as [|g IH]; intros c; cbn [wait_for_cfg_loop]; unfold sleep;
    frame.
Qed.

Lemma read_port_loop_emits P fuel :
  (forall text, P (EReadCfg text)) ->
  forall reads port, emits_only P (read_port_loop w fuel reads port).
Proof.
  intros H1.
  induction fuel as [|n IH]; intros reads port; cbn [read_port_loop]; frame.
Qed.

Lemma wait_for_rpc_loop_emits P gas :
  P ESocket -> (forall p r, P (EConnect p r)) -> P ESockClose ->
  (forall rc, P (EPoll rc)) -> (forall ms, P (ESleep ms)) ->
  forall port c, emits_only P (wait_for_rpc_loop w gas port c).
Proof.
  intros H1 H2 H3 H4 H5.
  induction gas as [|g IH]; intros port c; cbn [wait_for_rpc_loop];
    unfold isPortOpen, sleep; frame.
Qed.

Lemma run_setup_keeps {X} (f : Locals -> X) : keeps f (run_setup w self).
Proof. unfold run_setup, open_w. frame. Qed.

Lemma run_test_keeps_sim port : keeps simProc (run_test w self port).
Proof.
  unfold run_test, writeScript, open_w, close, input, print, subprocess_run_test.
  frame.
Qed.

Lemma run_setup_no_launch : emits_only not_launch (run_setup w self).
Proof. unfold run_setup, open_w. frame. Qed.

Lemma run_after_launch_no_launch fuel :
  emits_only not_launch (run_after_launch w self fuel).
Proof.
  unfold run_after_launch, wait_for_cfg, read_port, wait_for_rpc.
  apply emits_bind;
    [apply wait_for_cfg_loop_emits; intros; exact I | intros _].
  apply emits_bind; [apply read_port_loop_emits; intros; exact I | intros port].
  apply emits_bind;
    [apply wait_for_rpc_loop_emits; intros; exact I | intros _].
  unfold run_test, writeScript, open_w, close, input, print, subprocess_run_test.
  frame.
Qed.

Lemma run_try_no_teardown fuel : emits_only not_teardown (run_try w self fuel).
Proof.
  unfold run_try.
  apply emits_bind; [unfold run_setup, open_w; frame | intros _].
  apply emits_bind;
    [unfold run_launch, print, subprocess_Popen, close; frame | intros _].
  unfold run_after_launch, wait_for_cfg, read_port, wait_for_rpc.
  apply emits_bind;
    [apply wait_for_cfg_loop_emits; intros; exact I | intros _].
  apply emits_bind; [apply read_port_loop_emits; intros; exact I | intros port].
  apply emits_bind;
    [apply wait_for_rpc_loop_emits; intros; exact I | intros _].
  unfold run_test, writeScript, open_w, close, input, print, subprocess_run_test.
  frame.
Qed.

End Phases.

(* ================================================================== *)
(** * The [finally] block and the verdict *)

Lemma bind_get {B} (k : Locals -> M B) l :
  bind get_locals k l =
    match k l l with
    | None => None
    | Some (r, l2, t2) => Some (r, l2, t2)
    end.
Proof. reflexivity. Qed.

Lemma Forall_not_launch_In t cmd dbg pid :
  Forall not_launch t -> ~ In (ELaunch cmd dbg pid) t.
Proof.
  intros Hall Hin. rewrite Forall_forall in Hall. exact (Hall _ Hin).
Qed.

(** ** What the locals know of the simulation *)

Lemma exit_seen_app t1 t2 : exit_seen (t1 ++ t2) = exit_seen t1 || exit_seen t2.
Proof. apply existsb_app. Qed.

Lemma exit_seen_quiet t : Forall not_exit_poll t -> exit_seen t = false.
Proof.
  induction 1 as [|e t He _ IH]; [reflexivity|].
  cbn [exit_seen existsb]. rewrite He. exact IH.
Qed.

Lemma exit_seen_In t : exit_seen t = true <-> exists code, In (EPoll (Some code)) t.
Proof.
  unfold exit_seen. rewrite existsb_exists. split.
  - intros [[] [Hin He]]; try discriminate He.
    destruct returncode0 as [code|]; [eauto | discriminate He].
  - intros [code Hin]. exists (EPoll (Some code)). auto.
Qed.

Lemma tracks_quiet {A} (m : M A) :
  keeps simProc m -> emits_only not_exit_poll m -> tracks m.
Proof.
  intros Hk He l r l' t H.
  unfold sim_pid, collected. rewrite (Hk _ _ _ _ H), (exit_seen_quiet _ (He _ _ _ _ H)).
  split; [reflexivity | intros _; rewrite orb_false_r; reflexivity].
Qed.

Lemma tracks_poll answer : tracks (poll answer).
Proof.
  intros l r l' t H. split; [exact (keeps_pid_poll _ _ _ _ _ H)|].
  destruct answer as [code|];
    cbv [poll bind emit get_locals set_simProc ret app] in H; inversion H; subst.
  - unfold sim_pid, collected. cbn [simProc exit_seen existsb is_exit_poll].
    destruct (simProc l) as [p|]; [intros _ | intros Hn; contradiction Hn; reflexivity].
    cbn. rewrite orb_true_r. reflexivity.
  - intros _. cbn. rewrite orb_false_r. reflexivity.
Qed.

Lemma tracks_bind {A B} (m : M A) (k : A -> M B) :
  tracks m -> (forall a, tracks (k a)) -> tracks (bind m k).
Proof.
  intros Hm Hk l r l' t H.
  destruct (bind_inv _ _ _ _ _ _ H)
    as [[e [H1 _]]|[a [l1 [t1 [t2 [H1 [H2 ->]]]]]]].
  - exact (Hm _ _ _ _ H1).
  - destruct (Hm _ _ _ _ H1) as [Hp1 Hc1].
    destruct (Hk _ _ _ _ _ H2) as [Hp2 Hc2].
    split; [congruence|]. intros Hn.
    rewrite exit_seen_app, orb_assoc, <- (Hc1 Hn). apply Hc2. congruence.
Qed.

Ltac quiet :=
  apply tracks_quiet; [frame | frame; try reflexivity].

Section Tracking.
Variable w : World.
Variable self : CosimTestRunner.

Lemma wait_for_cfg_loop_tracks gas :
  forall c, tracks (wait_for_cfg_loop w gas c).
Proof.
  induction gas as [|g IH]; intros c; cbn [wait_for_cfg_loop]; [quiet|].
  apply tracks_bind; [quiet | intros _].
  destruct (negb (cfg_exists w c)); [|quiet].
  apply tracks_bind; [apply tracks_poll | intros [code|]]; [quiet|].
  apply tracks_bind; [unfold sleep; quiet | intros _].
  destruct (200 <? S c)%nat; [quiet | apply IH].
Qed.

Lemma read_port_loop_tracks fuel :
  forall reads port, tracks (read_port_loop w fuel reads port).
Proof.
  intros reads port. apply tracks_quiet.
  - apply read_port_loop_keeps.
  - apply read_port_loop_emits. intros; reflexivity.
Qed.

Lemma wait_for_rpc_loop_tracks gas :
  forall port c, tracks (wait_for_rpc_loop w gas port c).
Proof.
  induction gas as [|g IH]; intros port c; cbn [wait_for_rpc_loop]; [quiet|].
  apply tracks_bind; [unfold isPortOpen; quiet | intros opened].
  destruct (negb opened); [|quiet].
  destruct (200 <? S c)%nat; [quiet|].
  apply tracks_bind; [apply tracks_poll | intros [code|]]; [quiet|].
  apply tracks_bind; [unfold sleep; quiet | intros _]. apply IH.
Qed.

Lemma run_test_tracks port : tracks (run_test w self port).
Proof.
  apply tracks_quiet; [apply run_test_keeps_sim|].
  unfold run_test, writeScript, open_w, close, input, print, subprocess_run_test.
  frame; reflexivity.
Qed.

(** The phases after the launch keep the process id, and the object
    remembers an exit exactly when one of their polls reported it. *)
Lemma run_after_launch_tracks fuel : tracks (run_after_launch w self fuel).
Proof.
  unfold run_after_launch, wait_for_cfg, read_port, wait_for_rpc.
  apply tracks_bind; [apply wait_for_cfg_loop_tracks | intros _].
  apply tracks_bind; [apply read_port_loop_tracks | intros port].
  apply tracks_bind; [apply wait_for_rpc_loop_tracks | intros _].
  apply run_test_tracks.
Qed.

End Tracking.

(** [case_log w path x]: the three ways a read of the log [path] can go. *)
Ltac case_log w path x :=
  destruct (log_file w path) as [x|]; [destruct (log_decodes w path)|].

Section Finally.
Variable w : World.
Variable self : CosimTestRunner.

Lemma readLogs_keeps {X} (f : Locals -> X) : keeps f (readLogs w).
Proof. unfold readLogs, read_log. frame. Qed.

(** [readLogs] returns when the four logs are there and are text, with
    the flag set exactly when one of the two stderr logs is not empty. *)
Lemma readLogs_ret l err logs l' t :
  readLogs w l = Some (Ret (err, logs), l', t) ->
  exists sim_err test_err,
    log_file w "sim_stderr.log" = Some sim_err /\
    log_file w "test_stderr.log" = Some test_err /\
    err = negb (String.eqb sim_err "") || negb (String.eqb test_err "").
Proof.
  unfold readLogs, read_log.
  case_log w "sim_stdout.log" so; case_log w "sim_stderr.log" se;
    case_log w "test_stdout.log" to; case_log w "test_stderr.log" te;
    cbv [bind emit ret raise];
    try destruct (String.eqb se "") eqn:E1;
    try destruct (String.eqb te "") eqn:E2;
    cbv beta iota; intros H; try discriminate H.
  all: exists se, te; split; [reflexivity|]; split; [reflexivity|].
  all: inversion H; subst; rewrite E1, E2; reflexivity.
Qed.

Lemma aggregate_quiet P l :
  (forall s, P (EPrint s)) -> (forall path, P (EReadLog path)) ->
  emits_only P (aggregate w l).
Proof.
  intros H1 H2. unfold aggregate, readLogs, read_log, print. frame.
Qed.

(** The verdict is a pass only when the test ran and returned 0 and both
    stderr logs are empty. *)
Lemma aggregate_pass l l0 l' t :
  aggregate w l l0 = Some (Ret true, l', t) ->
  testProc l = Some 0 /\
  log_file w "sim_stderr.log" = Some "" /\
  log_file w "test_stderr.log" = Some "".
Proof.
  unfold aggregate, print. rewrite bind_emit.
  destruct (bind (readLogs w) _ l0) as [[[r1 l1] t1]|] eqn:Hb; [|discriminate].
  intros H. inversion H; subst. clear H.
  destruct (bind_inv _ _ _ _ _ _ Hb)
    as [[e [_ He]]|[[err logs] [l2 [t2 [t3 [Hlogs [Hk _]]]]]]]; [discriminate He|].
  destruct (readLogs_ret _ _ _ _ _ Hlogs) as [se [te [Hse [Hte Herr]]]].
  assert (Hpass : testProc l = Some 0 /\ err = false).
  { revert Hk. unfold print.
    destruct (testProc l) as [rc|]; [destruct (Z.eqb_spec rc 0) as [Hz|Hnz]|];
      destruct err; cbv [bind emit ret andb negb]; intros Hk;
      try discriminate Hk.
    subst rc. auto. }
  destruct Hpass as [Htest Hfalse]. rewrite Hfalse in Herr.
  symmetry in Herr. apply orb_false_elim in Herr. destruct Herr as [H1 H2].
  apply negb_false_iff in H1, H2.
  apply String.eqb_eq in H1, H2. subst. auto.
Qed.

(** The teardown of a simulation whose exit no [poll()] has collected,
    and of one that was collected. *)
Lemma teardown_eq p l :
  teardown w p l =
    match returncode p with
    | Some _ => Some (Raise ProcessLookupError, l, [])
    | None => Some (Ret tt, l, teardown_events w (pid p))
    end.
Proof.
  unfold teardown, teardown_events.
  destruct (returncode p); [reflexivity|].
  destruct (wait_exits w); reflexivity.
Qed.

(** The [finally] block, taken apart: once the exit of the simulation
    has been collected the block raises at [os.getpgid] and does nothing
    else; otherwise it stops the simulation, if there is one, and goes on
    to the logs. *)
Lemma run_finally_cases l rf l' t :
  run_finally w l = Some (rf, l', t) ->
  (collected l = true /\ rf = Raise ProcessLookupError /\ l' = l /\ t = []) \/
  (collected l = false /\
   exists rest,
     t = match sim_pid l with
         | Some pid => teardown_events w pid
         | None => []
         end ++ rest /\
     aggregate w l l = Some (rf, l', rest)).
Proof.
  unfold run_finally. rewrite bind_get. unfold collected, sim_pid.
  destruct (simProc l) as [p|]; cbn [option_map].
  - unfold bind at 1. rewrite teardown_eq.
    destruct (returncode p) as [code|].
    + intros H. inversion H; subst. left. auto.
    + destruct (aggregate w l l) as [[[r2 l2] t2]|] eqn:Hagg; [|discriminate].
      intros H. inversion H; subst. right. split; [reflexivity|].
      eexists. split; reflexivity.
  - unfold bind at 1. cbv [ret].
    destruct (aggregate w l l) as [[[r2 l2] t2]|] eqn:Hagg; [|discriminate].
    intros H. inversion H; subst. right. split; [reflexivity|].
    eexists. split; reflexivity.
Qed.

Lemma run_finally_inv l rf l' t :
  run_finally w l = Some (rf, l', t) ->
  exists rest,
    t = (if collected l then []
         else match sim_pid l with
              | Some pid => teardown_events w pid
              | None => []
              end) ++ rest /\
    Forall not_teardown rest /\
    Forall not_launch t /\
    (rf = Ret true ->
     testProc l = Some 0 /\
     log_file w "sim_stderr.log" = Some "" /\
     log_file w "test_stderr.log" = Some "").
Proof.
  intros H.
  destruct (run_finally_cases _ _ _ _ H)
    as [[Hc [Hr [_ Ht]]]|[Hc [rest [Ht Hagg]]]]; rewrite Hc.
  - exists []. subst. split; [reflexivity|]. split; [constructor|].
    split; [constructor|]. intros Hr. discriminate Hr.
  - exists rest. split; [exact Ht|].
    split; [exact (aggregate_quiet not_teardown l (fun _ => I) (fun _ => I) _ _ _ _ Hagg)|].
    split.
    + subst t. apply Forall_app. split.
      * unfold teardown_events.
        destruct (sim_pid l); [destruct (wait_exits w)|]; repeat constructor.
      * exact (aggregate_quiet not_launch l (fun _ => I) (fun _ => I) _ _ _ _ Hagg).
    + intros ->. exact (aggregate_pass _ _ _ _ Hagg).
Qed.

Lemma run_launch_inv l r l' t :
  run_launch w self l = Some (r, l', t) ->
  testProc l' = testProc l /\
  Forall not_exit_poll t /\
  forall cmd dbg pid,
    In (ELaunch cmd dbg pid) t -> simProc l' = Some (running pid).
Proof.
  unfold run_launch, print, subprocess_Popen, close. cbv zeta.
  destruct (popen_pid w) as [pid'|];
    cbv [bind emit ret raise set_simProc app]; intros H; inversion H; subst;
    (split; [reflexivity|]);
    (split; [repeat constructor|]);
    intros cmd dbg pid Hin; simpl in Hin;
    repeat (destruct Hin as [Hin|Hin]; try discriminate Hin);
    try contradiction.
  inversion Hin. reflexivity.
Qed.

(** The [try] body, taken apart at the launch. *)
Lemma run_try_inv fuel l r l' t :
  run_try w self fuel l = Some (r, l', t) ->
  (exists e, run_setup w self l = Some (Raise e, l', t) /\ r = Raise e) \/
  (exists ls ts,
      run_setup w self l = Some (Ret tt, ls, ts) /\
      ((exists e tl, run_launch w self ls = Some (Raise e, l', tl) /\
                     r = Raise e /\ t = ts ++ tl) \/
       (exists ll tl ta,
           run_launch w self ls = Some (Ret tt, ll, tl) /\
           run_after_launch w self fuel ll = Some (r, l', ta) /\
           t = ts ++ tl ++ ta))).
Proof.
  intros H. unfold run_try in H.
  destruct (bind_inv _ _ _ _ _ _ H)
    as [[e [H1 Hr]]|[[] [ls [ts [t2 [H1 [H2 ->]]]]]]]; [left; eauto|].
  right. exists ls, ts. split; [exact H1|].
  destruct (bind_inv _ _ _ _ _ _ H2)
    as [[e [H3 Hr]]|[[] [ll [tl [ta [H3 [H4 ->]]]]]]].
  - left. exists e, t2. auto.
  - right. exists ll, tl, ta. auto.
Qed.

Lemma run_launch_state l r l' t :
  run_launch w self l = Some (r, l', t) ->
  (exists pid cmd dbg,
      r = Ret tt /\ simProc l' = Some (running pid) /\
      In (ELaunch cmd dbg pid) t) \/
  (exists e, r = Raise e /\ l' = l /\ Forall not_launch t).
Proof.
  unfold run_launch, print, subprocess_Popen, close. cbv zeta.
  destruct (popen_pid w) as [pid|];
    cbv [bind emit ret raise set_simProc app]; intros H; inversion H; subst.
  - left. eexists. eexists. eexists.
    split; [reflexivity|]. split; [reflexivity|]. simpl. eauto.
  - right. eexists. repeat split. repeat constructor.
Qed.

Lemma run_setup_no_exit_poll : emits_only not_exit_poll (run_setup w self).
Proof. unfold run_setup, open_w. frame; reflexivity. Qed.

(** A launch in the trace of the [try] body means that, when the
    [finally] block starts, [simProc] is the process launched, and that
    its exit has been collected exactly when a [poll()] reported it. *)
Lemma run_try_launched fuel l r l' t cmd dbg pid :
  run_try w self fuel l = Some (r, l', t) ->
  In (ELaunch cmd dbg pid) t ->
  sim_pid l' = Some pid /\ collected l' = exit_seen t.
Proof.
  intros H Hin. unfold run_try in H.
  destruct (bind_inv _ _ _ _ _ _ H)
    as [[e [H1 _]]|[[] [l1 [t1 [t2 [H1 [H2 ->]]]]]]].
  - exfalso.
    exact (Forall_not_launch_In _ _ _ _ (run_setup_no_launch w self _ _ _ _ H1) Hin).
  - apply in_app_or in Hin. destruct Hin as [Hin|Hin];
      [exfalso;
       exact (Forall_not_launch_In _ _ _ _ (run_setup_no_launch w self _ _ _ _ H1) Hin)|].
    rewrite exit_seen_app,
      (exit_seen_quiet _ (run_setup_no_exit_poll _ _ _ _ H1)), orb_false_l.
    destruct (bind_inv _ _ _ _ _ _ H2)
      as [[e [H3 _]]|[[] [l2 [t3 [t4 [H3 [H4 ->]]]]]]].
    + destruct (run_launch_inv _ _ _ _ H3) as [_ [Hq Hsim]].
      rewrite (exit_seen_quiet _ Hq). unfold sim_pid, collected.
      rewrite (Hsim _ _ _ Hin). auto.
    + destruct (run_launch_inv _ _ _ _ H3) as [_ [Hq Hsim]].
      assert (Hin3 : In (ELaunch cmd dbg pid) t3).
      { apply in_app_or in Hin. destruct Hin as [Hin|Hin]; [exact Hin|].
        exfalso.
        exact (Forall_not_launch_In _ _ _ _
                 (run_after_launch_no_launch w self fuel _ _ _ _ H4) Hin). }
      pose proof (Hsim _ _ _ Hin3) as Hl2.
      destruct (run_after_launch_tracks w self fuel _ _ _ _ H4) as [Hp Hc].
      assert (Hpid : sim_pid l2 = Some pid) by (unfold sim_pid; rewrite Hl2; reflexivity).
      rewrite exit_seen_app, (exit_seen_quiet _ Hq), orb_false_l.
      split; [congruence|].
      rewrite Hc by congruence. unfold collected. rewrite Hl2. reflexivity.
Qed.

End Finally.

(* ================================================================== *)
(** * The exceptions a computation can raise *)

Section Raises.
Context (P : exn -> Prop).

Lemma raises_ret {A} (a : A) : raises_only P (ret a).
Proof. intros l e l' t H; inversion H. Qed.

Lemma raises_raise {A} e : P e -> raises_only P (@raise A e).
Proof. intros He l e' l' t H; inversion H; subst; exact He. Qed.

Lemma raises_out_of_fuel {A} : raises_only P (@out_of_fuel A).
Proof. intros l e l' t H; inversion H. Qed.

Lemma raises_emit ev : raises_only P (emit ev).
Proof. intros l e l' t H; inversion H. Qed.

Lemma raises_get : raises_only P get_locals.
Proof. intros l e l' t H; inversion H. Qed.

Lemma raises_set_simProc p : raises_only P (set_simProc p).
Proof. intros l e l' t H; inversion H. Qed.

Lemma raises_set_testProc p : raises_only P (set_testProc p).
Proof. intros l e l' t H; inversion H. Qed.

Lemma raises_bind {A B} (m : M A) (k : A -> M B) :
  raises_only P m -> (forall a, raises_only P (k a)) -> raises_only P (bind m k).
Proof.
  intros Hm Hk l e l' t H.
  destruct (bind_inv _ _ _ _ _ _ H)
    as [[e' [H1 Hr]]|[a [l1 [t1 [t2 [H1 [H2 _]]]]]]].
  - inversion Hr; subst. exact (Hm _ _ _ _ H1).
  - exact (Hk _ _ _ _ _ H2).
Qed.

Lemma raises_try_finally {A B} (body : M A) (fin : M B) :
  raises_only P body -> raises_only P fin -> raises_only P (try_finally body fin).
Proof.
  intros Hb Hf l e l' t H.
  destruct (try_finally_inv _ _ _ _ _ _ H)
    as [rb [l1 [t1 [rf [t2 [H1 [H2 [_ Hr]]]]]]]].
  destruct rf as [b|e'].
  - destruct rb as [a|e'']; [discriminate Hr|].
    inversion Hr; subst. exact (Hb _ _ _ _ H1).
  - inversion Hr; subst. exact (Hf _ _ _ _ H2).
Qed.

End Raises.

Ltac raising :=
  repeat first
    [ assumption
    | apply raises_ret | apply raises_out_of_fuel | apply raises_emit
    | apply raises_get | apply raises_set_simProc | apply raises_set_testProc
    | apply raises_raise; exact I
    | apply raises_bind; [| intros ? ]
    | match goal with
      | |- raises_only _ (if ?b then _ else _) => destruct b
      | |- raises_only _ (match ?x with _ => _ end) => destruct x
      | |- raises_only _ (let '(_, _) := ?x in _) => destruct x
      end ]; auto.

Section RunRaises.
Variable w : World.
Variable self : CosimTestRunner.

Lemma wait_for_cfg_loop_raises gas :
  forall c, raises_only not_exit (wait_for_cfg_loop w gas c).
Proof.
  induction gas as [|g IH]; intros c; cbn [wait_for_cfg_loop]; unfold sleep;
    raising.
Qed.

Lemma read_port_loop_raises fuel :
  forall reads port, raises_only not_exit (read_port_loop w fuel reads port).
Proof.
  induction fuel as [|n IH]; intros reads port; cbn [read_port_loop]; raising.
Qed.

Lemma wait_for_rpc_loop_raises gas :
  forall port c, raises_only not_exit (wait_for_rpc_loop w gas port c).
Proof.
  induction gas as [|g IH]; intros port c; cbn [wait_for_rpc_loop];
    unfold isPortOpen, sleep; raising.
Qed.

(** [run] never raises [SystemExit]. *)
Lemma run_raises fuel : raises_only not_exit (run w self fuel).
Proof.
  unfold run.
  apply raises_bind; [apply raises_set_testProc | intros _].
  apply raises_bind; [apply raises_set_simProc | intros _].
  apply raises_bind; [| intros passed; apply raises_ret].
  apply raises_try_finally.
  - unfold run_try.
    apply raises_bind; [unfold run_setup, open_w; raising | intros _].
    apply raises_bind;
      [unfold run_launch, print, subprocess_Popen, close; raising | intros _].
    unfold run_after_launch, wait_for_cfg, read_port, wait_for_rpc.
    apply raises_bind; [apply wait_for_cfg_loop_raises | intros _].
    apply raises_bind; [apply read_port_loop_raises | intros port].
    apply raises_bind; [apply wait_for_rpc_loop_raises | intros _].
    unfold run_test, writeScript, open_w, close, input, print, subprocess_run_test.
    raising.
  - unfold run_finally, teardown, aggregate, readLogs, read_log, print.
    raising.
Qed.

Lemma not_exit_status e : not_exit e -> exit_status (Raise e) = 1.
Proof. destruct e; simpl; intros H; [reflexivity .. | contradiction]. Qed.

End RunRaises.

(* ================================================================== *)
(** * [run] as a whole *)

Lemma total_ret {A} (a : A) : total (ret a).
Proof. intros l. unfold ret. eauto. Qed.

Lemma total_raise {A} e : total (@raise A e).
Proof. intros l. unfold raise. eauto. Qed.

Lemma total_emit e : total (emit e).
Proof. intros l. unfold emit. eauto. Qed.

Lemma total_get : total get_locals.
Proof. intros l. unfold get_locals. eauto. Qed.

Lemma total_set_simProc p : total (set_simProc p).
Proof. intros l. unfold set_simProc. eauto. Qed.

Lemma total_set_testProc p : total (set_testProc p).
Proof. intros l. unfold set_testProc. eauto. Qed.

Lemma total_bind {A B} (m : M A) (k : A -> M B) :
  total m -> (forall a, total (k a)) -> total (bind m k).
Proof.
  intros Hm Hk l. destruct (Hm l) as [[a|e] [l1 [t1 H1]]].
  - destruct (Hk a l1) as [r [l2 [t2 H2]]].
    rewrite (bind_ret _ _ _ _ _ _ H1), H2. eauto.
  - rewrite (bind_raise _ _ _ _ _ _ H1). eauto.
Qed.

Lemma total_try_finally {A B} (body : M A) (fin : M B) :
  total body -> total fin -> total (try_finally body fin).
Proof.
  intros Hb Hf l. unfold try_finally.
  destruct (Hb l) as [rb [l1 [t1 H1]]]. rewrite H1.
  destruct (Hf l1) as [[b|e] [l2 [t2 H2]]]; rewrite H2;
    [destruct rb|]; eauto.
Qed.

Ltac totality :=
  repeat first
    [ assumption
    | apply total_ret | apply total_raise | apply total_emit | apply total_get
    | apply total_set_simProc | apply total_set_testProc
    | apply total_bind; [| intros ? ]
    | match goal with
      | |- total (if ?b then _ else _) => destruct b
      | |- total (match ?x with _ => _ end) => destruct x
      | |- total (let '(_, _) := ?x in _) => destruct x
      end ].

Section Whole.
Variable w : World.
Variable self : CosimTestRunner.

Lemma wait_for_cfg_is_total : total (wait_for_cfg w).
Proof.
  intros l. destruct (wait_for_cfg_total w l) as [r [t H]]. eauto.
Qed.

Lemma wait_for_rpc_is_total port : total (wait_for_rpc w port).
Proof.
  intros l. destruct (wait_for_rpc_total w port l) as [r [t H]]. eauto.
Qed.

Lemma run_test_total port : total (run_test w self port).
Proof.
  unfold run_test, writeScript, open_w, close, input, print, subprocess_run_test.
  totality.
Qed.

Lemma run_finally_total : total (run_finally w).
Proof.
  unfold run_finally, teardown, aggregate, readLogs, read_log, print.
  totality.
Qed.

(** [run] ends as soon as the reading of the port does. *)
Lemma run_total fuel :
  total (read_port w fuel) -> total (run w self fuel).
Proof.
  intros Hread. unfold run.
  apply total_bind; [apply total_set_testProc | intros _].
  apply total_bind; [apply total_set_simProc | intros _].
  apply total_bind; [| intros passed; apply total_ret].
  apply total_try_finally; [| apply run_finally_total].
  unfold run_try.
  apply total_bind; [unfold run_setup, open_w; totality | intros _].
  apply total_bind;
    [unfold run_launch, print, subprocess_Popen, close; totality | intros _].
  unfold run_after_launch.
  apply total_bind; [apply wait_for_cfg_is_total | intros _].
  apply total_bind; [exact Hread | intros port].
  apply total_bind; [apply wait_for_rpc_is_total | intros _].
  apply run_test_total.
Qed.

(** The reading of the port ends when some read finds the file missing
    or holding a port line, given the fuel to get there. *)
Lemma read_port_loop_total n : forall fuel reads port,
  (cfg_read w (reads + n) = None \/
   exists text line g, cfg_read w (reads + n) = Some text /\
                       last_port_line (PyStr.readlines text) line g) ->
  (n < fuel)%nat ->
  total (read_port_loop w fuel reads port).
Proof.
  induction n as [|n IH]; intros fuel reads port Hend Hfuel l;
    (destruct fuel as [|f]; [lia|]); cbn [read_port_loop];
    (destruct (port <? 0) eqn:Hneg; [|unfold ret; eauto]).
  - rewrite Nat.add_0_r in Hend.
    destruct Hend as [Hnone|[text [line [g [Hsome Hlast]]]]].
    + rewrite Hnone. unfold raise. eauto.
    + rewrite Hsome, bind_emit, (scan_port_last _ _ _ port Hlast).
      rewrite read_port_loop_done; [eauto|].
      destruct Hlast as [pre [post [_ [Hm _]]]]. exact (match_port_nonneg _ _ Hm).
  - destruct (cfg_read w reads) as [text|]; [|unfold raise; eauto].
    rewrite bind_emit.
    assert (Hnext : (cfg_read w (S reads + n) = None \/
                     exists text line g,
                       cfg_read w (S reads + n) = Some text /\
                       last_port_line (PyStr.readlines text) line g)).
    { replace (S reads + n)%nat with (reads + S n)%nat by lia. exact Hend. }
    destruct (IH f (S reads) (scan_port (PyStr.readlines text) port) Hnext
                ltac:(lia) l) as [r [l' [t H]]].
    rewrite H. eauto.
Qed.

(** [run] starts by clearing its two locals. *)
Lemma run_reset fuel l :
  run w self fuel l = run w self fuel (mkLocals None None).
Proof.
  unfold run. cbv [bind set_testProc set_simProc simProc testProc].
  reflexivity.
Qed.

(** What a finished [run] is made of: the [try] body from fresh locals,
    then the [finally] block from the locals the body left. *)
Lemma run_inv fuel l r l' t :
  run w self fuel l = Some (r, l', t) ->
  exists rb l1 t1 rf t2,
    run_try w self fuel (mkLocals None None) = Some (rb, l1, t1) /\
    run_finally w l1 = Some (rf, l', t2) /\
    t = t1 ++ t2 /\
    r = match rf with
        | Raise e => Raise e
        | Ret passed =>
            match rb with
            | Raise e => Raise e
            | Ret _ => Ret (if passed then 0 else 1)
            end
        end.
Proof.
  unfold run. cbv [bind set_testProc set_simProc simProc testProc].
  destruct (try_finally _ _ _) as [[[rp lp] tp]|] eqn:Htf;
    [|intros Hrun; discriminate Hrun].
  destruct (try_finally_inv _ _ _ _ _ _ Htf)
    as [rb [l1 [t1 [rf [t2 [Hb [Hf [Ht Hr]]]]]]]].
  destruct rp as [passed|e]; cbv [ret]; cbn [app]; rewrite ?app_nil_r;
    intros Hrun; inversion Hrun; subst;
    exists rb, l1, t1, rf, t2;
    destruct rf as [b|e']; try destruct rb as [u|e'']; try discriminate Hr;
    inversion Hr; subst; rewrite ?app_nil_r; repeat split; auto.
Qed.

End Whole.

Section Collected.
Variable w : World.
Variable self : CosimTestRunner.

Lemma run_try_no_log_read fuel : emits_only not_log_read (run_try w self fuel).
Proof.
  unfold run_try.
  apply emits_bind; [unfold run_setup, open_w; frame | intros _].
  apply emits_bind;
    [unfold run_launch, print, subprocess_Popen, close; frame | intros _].
  unfold run_after_launch, wait_for_cfg, read_port, wait_for_rpc.
  apply emits_bind;
    [apply wait_for_cfg_loop_emits; intros; exact I | intros _].
  apply emits_bind; [apply read_port_loop_emits; intros; exact I | intros port].
  apply emits_bind;
    [apply wait_for_rpc_loop_emits; intros; exact I | intros _].
  unfold run_test, writeScript, open_w, close, input, print, subprocess_run_test.
  frame.
Qed.

Lemma run_finally_no_exit_poll : emits_only not_exit_poll (run_finally w).
Proof.
  unfold run_finally, teardown, aggregate, readLogs, read_log, print.
  frame; reflexivity.
Qed.

(** A finished call of [run] that launched the simulation, taken apart
    at the [finally] block. *)
Lemma run_launched_inv fuel r t cmd dbg pid :
  exec_M (run w self fuel) = Some (r, t) ->
  In (ELaunch cmd dbg pid) t ->
  exists rb l1 t1 rf l' t2,
    run_try w self fuel (mkLocals None None) = Some (rb, l1, t1) /\
    run_finally w l1 = Some (rf, l', t2) /\
    t = t1 ++ t2 /\
    In (ELaunch cmd dbg pid) t1 /\
    sim_pid l1 = Some pid /\
    collected l1 = exit_seen t /\
    r = match rf with
        | Raise e => Raise e
        | Ret passed =>
            match rb with
            | Raise e => Raise e
            | Ret _ => Ret (if passed then 0 else 1)
            end
        end.
Proof.
  intros Hrun Hin. unfold exec_M in Hrun.
  destruct (run w self fuel (mkLocals None None)) as [[[r0 l0] t0]|] eqn:H;
    [|discriminate Hrun].
  inversion Hrun; subst r0 t0. clear Hrun.
  destruct (run_inv w self fuel _ _ _ _ H)
    as [rb [l1 [t1 [rf [t2 [Hb [Hf [Ht Hr]]]]]]]].
  destruct (run_finally_inv w l1 rf l0 t2 Hf) as [_ [_ [_ [Hnl _]]]].
  subst t. apply in_app_or in Hin. destruct Hin as [Hin|Hin];
    [|exfalso; exact (Forall_not_launch_In _ _ _ _ Hnl Hin)].
  destruct (run_try_launched w self fuel _ _ _ _ _ _ _ Hb Hin) as [Hpid Hcol].
  exists rb, l1, t1, rf, l0, t2. repeat split; auto.
  rewrite exit_seen_app,
    (exit_seen_quiet _ (run_finally_no_exit_poll _ _ _ _ Hf)), orb_false_r.
  exact Hcol.
Qed.

(** From fresh locals, the [try] body leaves the exit of the simulation
    collected exactly when one of its polls reported it. *)
Lemma run_try_collected fuel rb l1 t1 :
  run_try w self fuel (mkLocals None None) = Some (rb, l1, t1) ->
  collected l1 = exit_seen t1.
Proof.
  intros Hb.
  destruct (run_try_inv w self fuel _ _ _ _ Hb)
    as [[e [Hs _]]|[ls [ts [Hs [[e [tl [Hl [_ Heq]]]]|[ll [tl [ta [Hl [Ha Heq]]]]]]]]]].
  - rewrite (exit_seen_quiet _ (run_setup_no_exit_poll w self _ _ _ _ Hs)).
    rewrite (run_setup_keeps w self (fun x => x) _ _ _ _ Hs). reflexivity.
  - subst t1.
    rewrite exit_seen_app,
      (exit_seen_quiet _ (run_setup_no_exit_poll w self _ _ _ _ Hs)),
      (exit_seen_quiet _ (proj1 (proj2 (run_launch_inv w self _ _ _ _ Hl)))).
    destruct (run_launch_state w self _ _ _ _ Hl)
      as [[pid [cmd [dbg [Hr _]]]]|[e' [_ [Hl1 _]]]]; [discriminate Hr|].
    rewrite Hl1, (run_setup_keeps w self (fun x => x) _ _ _ _ Hs). reflexivity.
  - destruct (run_launch_state w self _ _ _ _ Hl)
      as [[pid [cmd [dbg [_ [_ Hin]]]]]|[e' [Hr _]]]; [|discriminate Hr].
    refine (proj2 (run_try_launched w self fuel _ _ _ _ cmd dbg pid Hb _)).
    subst t1. apply in_or_app. right. apply in_or_app. left. exact Hin.
Qed.

(** No [poll()] reported the exit: the simulation is stopped. *)
Lemma run_not_collected fuel r t cmd dbg pid :
  exec_M (run w self fuel) = Some (r, t) ->
  In (ELaunch cmd dbg pid) t ->
  exit_seen t = false ->
  exists before after,
    t = before ++ teardown_events w pid ++ after /\
    In (ELaunch cmd dbg pid) before /\
    Forall not_teardown before /\
    Forall not_teardown after.
Proof.
  intros Hrun Hin Hseen.
  destruct (run_launched_inv fuel r t cmd dbg pid Hrun Hin)
    as [rb [l1 [t1 [rf [l' [t2 [Hb [Hf [Ht [Hin1 [Hpid [Hcol _]]]]]]]]]]]].
  destruct (run_finally_inv w l1 rf l' t2 Hf) as [rest [Ht2 [Hrest _]]].
  rewrite Hcol, Hseen, Hpid in Ht2.
  exists t1, rest. subst t t2.
  split; [reflexivity|]. split; [exact Hin1|].
  split; [exact (run_try_no_teardown w self fuel _ _ _ _ Hb) | exact Hrest].
Qed.

(** A [poll()] reported the exit: the [finally] block raises at once,
    and its exception is the one [run] is left with. *)
Lemma run_collected fuel r t cmd dbg pid :
  exec_M (run w self fuel) = Some (r, t) ->
  In (ELaunch cmd dbg pid) t ->
  exit_seen t = true ->
  r = Raise ProcessLookupError /\
  Forall not_teardown t /\
  Forall not_log_read t /\
  exists rb l1,
    run_try w self fuel (mkLocals None None) = Some (rb, l1, t).
Proof.
  intros Hrun Hin Hseen.
  destruct (run_launched_inv fuel r t cmd dbg pid Hrun Hin)
    as [rb [l1 [t1 [rf [l' [t2 [Hb [Hf [Ht [Hin1 [Hpid [Hcol Hr]]]]]]]]]]]].
  destruct (run_finally_cases w l1 rf l' t2 Hf)
    as [[_ [Hrf [_ Ht2]]]|[Hc _]]; [|congruence].
  subst rf t2. rewrite app_nil_r in Ht. subst t1.
  split; [exact Hr|].
  split; [exact (run_try_no_teardown w self fuel _ _ _ _ Hb)|].
  split; [exact (run_try_no_log_read fuel _ _ _ _ Hb)|].
  eauto.
Qed.

End Collected.

(** C1.  Where the teardown runs, and where the code misses it.  Take
    any call of [run] that ends, by a return or by an exception, and in
    which the simulation was launched with process id [pid]; [run] does
    end whenever the loop that reads the port does.  If no [poll()] of the
    run reported the exit of the simulation, the trace is: the events up to
    and including the launch, none of them a teardown event; then the
    teardown of [pid], that is the interrupt to its process group, the
    wait with the timeout of one second and, when that wait timed out, the
    kill; then only events of the log aggregation.  If a [poll()] did
    report the exit, as it does when the simulation exits before it wrote
    its config file or between two probes of the port, the exit has been
    collected, [os.getpgid] raises in the [finally] block, and [run] is
    left with a [ProcessLookupError] after no interrupt, no wait, no kill
    and no read of a log: on these exit paths the teardown that the claim
    promises does not run. *)
Theorem C1_teardown_on_every_exit_path :
  forall w self fuel,
    (total (read_port w fuel) -> total (run w self fuel)) /\
    (forall r t cmd dbg pid,
        exec_M (run w self fuel) = Some (r, t) ->
        In (ELaunch cmd dbg pid) t ->
        (exit_seen t = false ->
         exists before after,
           t = before ++ teardown_events w pid ++ after /\
           In (ELaunch cmd dbg pid) before /\
           Forall not_teardown before /\
           Forall not_teardown after) /\
        (exit_seen t = true ->
         r = Raise ProcessLookupError /\
         Forall not_teardown t /\
         Forall not_log_read t)).
Proof.
  intros w self fuel. split; [apply run_total|].
  intros r t cmd dbg pid Hrun Hin. split; intros Hseen.
  - exact (run_not_collected w self fuel r t cmd dbg pid Hrun Hin Hseen).
  - destruct (run_collected w self fuel r t cmd dbg pid Hrun Hin Hseen)
      as [Hr [Ht [Hl _]]].
    auto.
Qed.

(** The simulation is launched, never writes its config file and is
    found dead at the fourth [poll()]: no teardown.  The simulation that
    stays alive without writing the file is torn down. *)
Lemma C1_teardown_on_every_exit_path_witness :
  (result_of (exec_M (run Demo.world_sim_dies Demo.runner 1))
   = Raise ProcessLookupError /\
   Forall not_teardown (trace_of (exec_M (run Demo.world_sim_dies Demo.runner 1))) /\
   Forall not_log_read (trace_of (exec_M (run Demo.world_sim_dies Demo.runner 1)))) /\
  (exists before after,
     trace_of (exec_M (run Demo.world_no_cfg Demo.runner 1))
     = before ++ teardown_events Demo.world_no_cfg 4242 ++ after /\
     In (ELaunch [simRunScript Demo.runner; "--no-objdir"; ""] None 4242)
        before /\
     Forall not_teardown before /\
     Forall not_teardown after).
Proof.
  split.
  - apply (proj2 (proj2 (C1_teardown_on_every_exit_path Demo.world_sim_dies
                           Demo.runner 1)
                        (result_of (exec_M (run Demo.world_sim_dies Demo.runner 1)))
                        (trace_of (exec_M (run Demo.world_sim_dies Demo.runner 1)))
                        [simRunScript Demo.runner; "--no-objdir"; ""] None 4242
                        ltac:(vm_compute; reflexivity)
                        ltac:(vm_compute; tauto))).
    vm_compute. reflexivity.
  - apply (proj1 (proj2 (C1_teardown_on_every_exit_path Demo.world_no_cfg
                           Demo.runner 1)
                        (Raise cfg_timeout)
                        (trace_of (exec_M (run Demo.world_no_cfg Demo.runner 1)))
                        [simRunScript Demo.runner; "--no-objdir"; ""] None 4242
                        ltac:(vm_compute; reflexivity)
                        ltac:(vm_compute; tauto))).
    vm_compute. reflexivity.
Defined.

(** C7.  What the code does when the simulation exits before it wrote
    [cosim.cfg].  The look at which [poll()] reports the exit ends the
    waiting loop, with no pause after it and whatever is left of the
    budget unused.  But the loop raises nothing there: it is the [open] of
    the missing file that raises, a [FileNotFoundError], and nothing of the
    later phases runs.  The exit having been collected, the [finally]
    block raises in turn, so that a call of [run] that launched the
    simulation is left with a [ProcessLookupError], the report of the exit
    being the last event of its trace.  The exception for the early exit,
    which the readiness loop raises in the same situation, is not raised
    on this path. *)
Theorem C7_exit_before_cfg :
  forall w self fuel n code,
    (n <= 200)%nat ->
    (forall k, (k < n)%nat -> cfg_exists w k = false /\ poll_disc w k = None) ->
    cfg_exists w n = false ->
    poll_disc w n = Some code ->
    cfg_read w 0 = None ->
    (forall l,
        run_after_launch w self (S fuel) l
        = Some (Raise (FileNotFoundError portFileName), polled (Some code) l,
                rounds cfg_round n
                ++ [EExists portFileName false; EPoll (Some code)])) /\
    (forall r t cmd dbg pid,
        exec_M (run w self (S fuel)) = Some (r, t) ->
        In (ELaunch cmd dbg pid) t ->
        r = Raise ProcessLookupError /\
        r <> Raise exited_early /\
        exists before,
          t = before ++ rounds cfg_round n
                     ++ [EExists portFileName false; EPoll (Some code)]).
Proof.
  intros w self fuel n code Hn Hbefore Hmissing Hdead Hread.
  assert (Hafter : forall l,
    run_after_launch w self (S fuel) l
    = Some (Raise (FileNotFoundError portFileName), polled (Some code) l,
            rounds cfg_round n ++ [EExists portFileName false; EPoll (Some code)]))
    by (intros l; apply run_after_launch_exited; assumption).
  split; [exact Hafter|].
  intros r t cmd dbg pid Hrun Hin.
  destruct (run_launched_inv w self (S fuel) r t cmd dbg pid Hrun Hin)
    as [rb [l1 [t1 [rf [l' [t2 [Hb [Hf [Ht [Hin1 _]]]]]]]]]].
  assert (Ht1 : exists before,
             t1 = before ++ rounds cfg_round n
                         ++ [EExists portFileName false; EPoll (Some code)]).
  { destruct (run_try_inv w self (S fuel) _ _ _ _ Hb)
      as [[e [Hs _]]|[ls [ts [Hs [[e [tl [Hl [_ Heq]]]]|[ll [tl [ta [Hl [Ha Heq]]]]]]]]]].
    - exfalso.
      exact (Forall_not_launch_In _ _ _ _ (run_setup_no_launch w self _ _ _ _ Hs) Hin1).
    - exfalso. subst t1. apply in_app_or in Hin1. destruct Hin1 as [Hi|Hi].
      + exact (Forall_not_launch_In _ _ _ _ (run_setup_no_launch w self _ _ _ _ Hs) Hi).
      + revert Hl Hi. unfold run_launch, print, subprocess_Popen, close. cbv zeta.
        destruct (popen_pid w);
          cbv [bind emit ret raise set_simProc app]; intros Hl Hi;
          inversion Hl; subst; simpl in Hi;
          repeat (destruct Hi as [Hi|Hi]; try discriminate Hi); contradiction.
    - rewrite Hafter in Ha. inversion Ha; subst.
      exists (ts ++ tl). rewrite <- app_assoc. reflexivity. }
  destruct Ht1 as [before Ht1].
  assert (Hseen : exit_seen t = true).
  { apply exit_seen_In. exists code. subst t t1.
    apply in_or_app. left. apply in_or_app. right.
    apply in_or_app. right. simpl. auto. }
  destruct (run_collected w self (S fuel) r t cmd dbg pid Hrun Hin Hseen)
    as [Hr [_ [_ [rb' [l1' Hb']]]]].
  split; [exact Hr|]. split; [rewrite Hr; discriminate|].
  rewrite Hb in Hb'. injection Hb' as _ _ Heq.
  exists before. rewrite <- Heq. exact Ht1.
Qed.

Lemma C7_exit_before_cfg_witness :
  result_of (exec_M (run Demo.world_sim_dies Demo.runner 1))
  = Raise ProcessLookupError /\
  result_of (exec_M (run Demo.world_sim_dies Demo.runner 1))
  <> Raise exited_early /\
  exists before,
    trace_of (exec_M (run Demo.world_sim_dies Demo.runner 1))
    = before ++ rounds cfg_round 3
             ++ [EExists portFileName false; EPoll (Some 1)].
Proof.
  apply (proj2 (C7_exit_before_cfg Demo.world_sim_dies Demo.runner 0 3 1
                  ltac:(lia)
                  ltac:(intros k Hk;
                        destruct k as [|[|[|k]]];
                        [split; reflexivity | split; reflexivity
                        | split; reflexivity | lia])
                  eq_refl eq_refl eq_refl)
               (result_of (exec_M (run Demo.world_sim_dies Demo.runner 1)))
               (trace_of (exec_M (run Demo.world_sim_dies Demo.runner 1)))
               [simRunScript Demo.runner; "--no-objdir"; ""] None 4242).
  - vm_compute. reflexivity.
  - vm_compute. tauto.
Defined.

(* ================================================================== *)
(** * The verdict *)

Section Verdict.
Variable w : World.
Variable self : CosimTestRunner.

Lemma test_inv_keeps {A} (m : M A) : keeps testProc m -> test_inv w self m.
Proof. intros Hk l r l' t H. left. exact (Hk _ _ _ _ H). Qed.

Lemma test_inv_bind {A B} (m : M A) (k : A -> M B) :
  keeps testProc m -> (forall a, test_inv w self (k a)) -> test_inv w self (bind m k).
Proof.
  intros Hm Hk l r l' t H.
  destruct (bind_inv _ _ _ _ _ _ H)
    as [[e [H1 _]]|[a [l1 [t1 [t2 [H1 [H2 _]]]]]]].
  - left. exact (Hm _ _ _ _ H1).
  - rewrite <- (Hm _ _ _ _ H1). exact (Hk _ _ _ _ _ H2).
Qed.

Lemma run_launch_keeps_test : keeps testProc (run_launch w self).
Proof. intros l r l' t H. exact (proj1 (run_launch_inv w self _ _ _ _ H)). Qed.

Lemma run_test_inv port : test_inv w self (run_test w self port).
Proof.
  unfold run_test.
  apply test_inv_bind; [unfold writeScript, open_w, close; frame | intros _].
  destruct (server_only self) eqn:Hso;
    [apply test_inv_keeps; unfold input; frame|].
  apply test_inv_bind; [frame | intros pythonpath]. cbv zeta.
  apply test_inv_bind; [unfold print; frame | intros _].
  intros l r l' t. unfold subprocess_run_test, close.
  destruct (test_proc w) as [rc|] eqn:Htest; destruct (interactive self);
    cbv [bind emit ret raise set_testProc negb testProc]; intros H;
    inversion H; subst; cbn [testProc]; eauto.
Qed.

Lemma run_try_test_inv fuel : test_inv w self (run_try w self fuel).
Proof.
  unfold run_try, run_after_launch, wait_for_cfg, read_port, wait_for_rpc.
  apply test_inv_bind; [apply run_setup_keeps | intros _].
  apply test_inv_bind; [apply run_launch_keeps_test | intros _].
  apply test_inv_bind;
    [apply wait_for_cfg_loop_keeps; exact keeps_test_poll | intros _].
  apply test_inv_bind; [apply read_port_loop_keeps | intros port].
  apply test_inv_bind;
    [apply wait_for_rpc_loop_keeps; exact keeps_test_poll | intros _].
  apply run_test_inv.
Qed.

(** [run] returns 0 or 1 or raises; it returns 0 only when a test ran
    outside the server-only mode, returned 0, and both stderr logs are
    empty. *)
Lemma run_verdict fuel l r l' t :
  run w self fuel l = Some (r, l', t) ->
  (r = Ret 0 \/ (r <> Ret 0 /\ run_status r = 1)) /\
  (r = Ret 0 ->
   server_only self = false /\ test_proc w = Some 0 /\
   log_file w "sim_stderr.log" = Some "" /\
   log_file w "test_stderr.log" = Some "").
Proof.
  intros H.
  destruct (run_inv w self fuel _ _ _ _ H)
    as [rb [l1 [t1 [rf [t2 [Hb [Hf [_ Hr]]]]]]]].
  split.
  - assert (Hraise : forall e, r = Raise e -> r <> Ret 0 /\ run_status r = 1).
    { intros e He. rewrite He in H |- *. split; [discriminate|].
      apply not_exit_status.
      exact (run_raises w self fuel _ _ _ _ H). }
    destruct rf as [[|]|e]; [destruct rb as [u|e] | destruct rb as [u|e] |].
    + left. exact Hr.
    + right. exact (Hraise e Hr).
    + right. rewrite Hr. split; [discriminate | reflexivity].
    + right. exact (Hraise e Hr).
    + right. exact (Hraise e Hr).
  - intros H0. subst r.
    destruct rf as [[|]|e]; [|destruct rb; discriminate H0|discriminate H0].
    destruct (run_finally_inv w l1 _ _ _ Hf) as [_ [_ [_ [_ Hpass]]]].
    destruct (Hpass eq_refl) as [Htest [Hse Hte]].
    destruct (run_try_test_inv fuel _ _ _ _ Hb) as [Hnone|[Hso [rc [Hrc Hrc']]]].
    + simpl in Hnone. congruence.
    + assert (rc = 0) by congruence. subst rc. auto.
Qed.

End Verdict.

Lemma exec_M_inv {A} (m : M A) r t :
  exec_M m = Some (r, t) ->
  exists l', m (mkLocals None None) = Some (r, l', t).
Proof.
  unfold exec_M. destruct (m (mkLocals None None)) as [[[r0 l0] t0]|];
    [|discriminate].
  intros H. inversion H; subst. eauto.
Qed.

(** C5.  Whenever [run] ends, so that the logs were read: if the
    captured stderr of the simulation or of the test is not empty, the
    outcome is a failure, exit status 1, whatever the test returned, 0
    included; and [run] returns 0 only if the test returned 0 and both
    stderr logs are empty. *)
Theorem C5_stderr_fails_the_run :
  forall w self fuel r t,
    exec_M (run w self fuel) = Some (r, t) ->
    ((exists s, log_file w "sim_stderr.log" = Some s /\ s <> "") \/
     (exists s, log_file w "test_stderr.log" = Some s /\ s <> "") ->
     run_status r = 1) /\
    (r = Ret 0 ->
     test_proc w = Some 0 /\
     log_file w "sim_stderr.log" = Some "" /\
     log_file w "test_stderr.log" = Some "").
Proof.
  intros w self fuel r t Hrun.
  destruct (exec_M_inv _ _ _ Hrun) as [l' H].
  destruct (run_verdict w self fuel _ _ _ _ H) as [Hcases Hpass].
  split.
  - intros Hnoise.
    destruct Hcases as [H0|[_ H1]]; [|exact H1].
    destruct (Hpass H0) as [_ [_ [Hse Hte]]].
    destruct Hnoise as [[s [Hs Hne]]|[s [Hs Hne]]]; congruence.
  - intros H0. destruct (Hpass H0) as [_ [Htest [Hse Hte]]]. auto.
Qed.

Lemma C5_stderr_fails_the_run_witness :
  option_map fst (exec_M (run Demo.world_stderr Demo.runner 2)) = Some (Ret 1) /\
  test_proc Demo.world_stderr = Some 0 /\
  run_status (Ret 1) = 1 /\
  option_map fst (exec_M (run Demo.world Demo.runner 2)) = Some (Ret 0) /\
  log_file Demo.world "sim_stderr.log" = Some "" /\
  log_file Demo.world "test_stderr.log" = Some "".
Proof.
  split; [vm_compute; reflexivity|]. split; [reflexivity|]. split.
  - apply (proj1 (C5_stderr_fails_the_run Demo.world_stderr Demo.runner 2 (Ret 1)
                    (trace_of (exec_M (run Demo.world_stderr Demo.runner 2)))
                    ltac:(vm_compute; reflexivity))).
    left. exists ("%Warning: width" +++ PyStr.nl).
    split; [reflexivity | discriminate].
  - split; [vm_compute; reflexivity|].
    apply (proj2 (C5_stderr_fails_the_run Demo.world Demo.runner 2 (Ret 0)
                    (trace_of (exec_M (run Demo.world Demo.runner 2)))
                    ltac:(vm_compute; reflexivity))).
    reflexivity.
Defined.

(** C9, as the spec has it, fails: in server-only mode, with the
    operator ending the session, every log empty of stderr and nothing
    going wrong, [run] returns 1. *)
Lemma C9_server_only_counterexample :
  server_only Demo.server = true /\
  input_line Demo.world = Some "" /\
  log_file Demo.world "sim_stderr.log" = Some "" /\
  log_file Demo.world "test_stderr.log" = Some "" /\
  option_map fst (exec_M (run Demo.world Demo.server 2)) = Some (Ret 1).
Proof. repeat split; vm_compute; reflexivity. Qed.

(** C9, amended.  In server-only mode no test process is run and
    [testProc] stays unset, so a call of [run] that ends never reports a
    pass: it returns 1 or lets an exception through, exit status 1 either
    way, also when the operator ended the session and no stderr was
    captured. *)
Theorem C9_server_only_never_passes :
  forall w self fuel r t,
    server_only self = true ->
    exec_M (run w self fuel) = Some (r, t) ->
    r <> Ret 0 /\ run_status r = 1.
Proof.
  intros w self fuel r t Hso Hrun.
  destruct (exec_M_inv _ _ _ Hrun) as [l' H].
  destruct (run_verdict w self fuel _ _ _ _ H) as [Hcases Hpass].
  assert (Hne : r <> Ret 0).
  { intros H0. destruct (Hpass H0) as [Hso' _]. congruence. }
  split; [exact Hne|].
  destruct Hcases as [H0|[_ H1]]; [contradiction | exact H1].
Qed.

Lemma C9_server_only_never_passes_witness :
  Ret 1 <> Ret 0 /\ run_status (Ret 1) = 1.
Proof.
  apply (C9_server_only_never_passes Demo.world Demo.server 2 (Ret 1)
           (trace_of (exec_M (run Demo.world Demo.server 2)))).
  - reflexivity.
  - vm_compute. reflexivity.
Defined.

(* ================================================================== *)
(** * Exit codes *)

Section ExitCodes.
Variable w : World.
Variable self : CosimTestRunner.

Lemma compile_inv l r l' t :
  compile w self l = Some (r, l', t) ->
  l' = l /\
  match compile_proc w with
  | Some (rc, _, _) => r = Ret rc
  | None => r = Raise (OSError "subprocess.run")
  end.
Proof.
  unfold compile, subprocess_run_capture, print. cbv zeta.
  destruct (compile_proc w) as [[[rc out] err]|]; cbv [bind emit ret raise].
  - destruct (rc =? 0); cbv [negb]; intros H; inversion H; subst; auto.
  - intros H; inversion H; subst; auto.
Qed.

End ExitCodes.

(** An exit status from 0 to 255 is the exit code. *)
Lemma exit_code_small r :
  0 <= exit_status r < 256 -> exit_code r = exit_status r.
Proof.
  intros Hr. unfold exit_code. cbv zeta.
  destruct (Z.leb_spec (- 2 ^ 63) (exit_status r)) as [_|Hlo]; [|lia].
  destruct (Z.ltb_spec (exit_status r) (2 ^ 63)) as [_|Hhi]; [|lia].
  cbn [andb]. change 255 with (Z.ones 8).
  rewrite Z.land_ones by lia. apply Z.mod_small. exact Hr.
Qed.

(** An exit status that fits a C [long] is cut to its low eight bits. *)
Lemma exit_code_wraps r :
  - 2 ^ 63 <= exit_status r < 2 ^ 63 -> exit_code r = exit_status r mod 256.
Proof.
  intros [Hlo Hhi]. unfold exit_code. cbv zeta.
  destruct (Z.leb_spec (- 2 ^ 63) (exit_status r)) as [_|Hlo']; [|lia].
  destruct (Z.ltb_spec (exit_status r) (2 ^ 63)) as [_|Hhi']; [|lia].
  cbn [andb]. change 255 with (Z.ones 8).
  rewrite Z.land_ones by lia. reflexivity.
Qed.

(** Lines 361-364 of [__main__], by the status they leave. *)
Lemma compile_and_run_status w self fuel r t :
  exec_M (compile_and_run w self fuel) = Some (r, t) ->
  match compile_proc w with
  | Some (rc, _, _) =>
      if rc =? 0 then
        (exit_status r = 0 \/ exit_status r = 1) /\
        (exit_status r = 0 ->
         test_proc w = Some 0 /\
         log_file w "sim_stderr.log" = Some "" /\
         log_file w "test_stderr.log" = Some "")
      else r = Ret (Some rc)
  | None => exit_status r = 1
  end.
Proof.
  intros Hrun.
  destruct (exec_M_inv _ _ _ Hrun) as [l' H]. unfold compile_and_run in H.
  destruct (bind_inv _ _ _ _ _ _ H)
    as [[e [H1 Hr]]|[rc [l1 [t1 [t2 [H1 [H2 _]]]]]]].
  - destruct (compile_inv w self _ _ _ _ H1) as [_ Hc].
    destruct (compile_proc w) as [[[rc out] err]|]; [discriminate Hc|].
    inversion Hc; subst. reflexivity.
  - destruct (compile_inv w self _ _ _ _ H1) as [_ Hc].
    destruct (compile_proc w) as [[[rc' out] err]|]; [|discriminate Hc].
    inversion Hc; subst rc'.
    destruct (rc =? 0) eqn:Hz; cbn [negb] in H2.
    + destruct (bind_inv _ _ _ _ _ _ H2)
        as [[e [H3 Hr]]|[z [l2 [t3 [t4 [H3 [H4 _]]]]]]].
      * destruct (run_verdict w self fuel _ _ _ _ H3) as [Hcases _].
        subst r.
        destruct Hcases as [H0|[_ Hone]]; [discriminate H0|].
        change (run_status (Raise e)) with (exit_status (Raise e)) in Hone.
        split; [right; exact Hone | intros H0; congruence].
      * destruct (run_verdict w self fuel _ _ _ _ H3) as [Hcases Hpass].
        inversion H4; subst r.
        change (exit_status (Ret (Some z))) with (run_status (Ret z)).
        split.
        -- destruct Hcases as [H0|[_ Hone]]; [inversion H0; auto | auto].
        -- intros H0. change (run_status (Ret z)) with z in H0. subst z.
           destruct (Hpass eq_refl) as [_ Hrest]. exact Hrest.
    + inversion H2; subst. reflexivity.
Qed.

(** C4, as the spec has it, fails, in three ways.  A command line that
    [argparse] rejects ends the script with the exit code 2.  A compiler
    that exits with 2 makes lines 361-364 of [__main__] return 2, and the
    exit code is 2.  A compiler killed by signal 9 has the returncode -9,
    which [__main__] returns as it is, and the exit code is its low eight
    bits, 247. *)
Lemma C4_exit_code_counterexample :
  (exec_M (__main__ world_usage_error 2 ["esi-cosim-runner.py"; "--bogus"])
   = Some (Raise (SystemExit 2), []) /\
   exit_code (Raise (SystemExit 2)) = 2) /\
  (compile_proc Demo.world_compile_fails = Some (2, "", "syntax error") /\
   option_map fst (exec_M (compile_and_run Demo.world_compile_fails Demo.runner 2))
   = Some (Ret (Some 2)) /\
   exit_code (Ret (Some 2)) = 2) /\
  (compile_proc world_compile_killed = Some (-9, "", "") /\
   option_map fst (exec_M (compile_and_run world_compile_killed Demo.runner 2))
   = Some (Ret (Some (-9))) /\
   exit_code (Ret (Some (-9))) = 247).
Proof. repeat split; vm_compute; reflexivity. Qed.

(** C4, amended.  The exit code of every invocation that ends.  With no
    argument [__main__] prints the usage text and returns nothing, exit
    code 0.  When [argparse] does not return, the exit code is 0 for the
    help text and 2 for a command line it rejects.  With a command line
    that parses, this configured copy always ends with the exception of
    the DPI-library guard, exit code 1.  For the code of lines 361-364,
    given any runner object: if the compiler could be run and exited with
    0, the exit code is 0 or 1, and 0 only if the test returned 0 and both
    stderr logs are empty; if the compiler exited with another status,
    that status is returned as it is and the exit code is its low eight
    bits, the status itself when it lies between 1 and 255; if the
    compiler could not be run, the exception gives the exit code 1. *)
Theorem C4_exit_codes :
  (forall w fuel args r t,
      exec_M (__main__ w fuel args) = Some (r, t) ->
      if (length args <=? 1)%nat then
        r = Ret None /\ t = [EPrintHelp] /\ exit_code r = 0
      else
        match parse_args w (tl args) with
        | None =>
            if parse_help w (tl args) then
              r = Raise (SystemExit 0) /\ t = [EPrintHelp] /\ exit_code r = 0
            else r = Raise (SystemExit 2) /\ t = [] /\ exit_code r = 2
        | Some _ => r = Raise dpi_error /\ exit_code r = 1
        end) /\
  (forall w self fuel r t,
      exec_M (compile_and_run w self fuel) = Some (r, t) ->
      match compile_proc w with
      | Some (rc, _, _) =>
          if rc =? 0 then
            (exit_code r = 0 \/ exit_code r = 1) /\
            (exit_code r = 0 ->
             test_proc w = Some 0 /\
             log_file w "sim_stderr.log" = Some "" /\
             log_file w "test_stderr.log" = Some "")
          else r = Ret (Some rc) /\
               (- 2 ^ 63 <= rc < 2 ^ 63 -> exit_code r = rc mod 256) /\
               (0 < rc < 256 -> exit_code r = rc)
      | None => exit_code r = 1
      end).
Proof.
  split.
  - intros w fuel args r t. unfold exec_M, __main__.
    destruct (length args <=? 1)%nat.
    + cbv [bind emit ret app]. intros H. inversion H; subst.
      repeat split; reflexivity.
    + destruct (parse_args w (tl args)) as [ns|].
      * unfold bind at 1.
        destruct (path_exists w (OsPath.basename (ns_source ns) +++ ".d"));
          simpl; intros H; inversion H; subst; split; reflexivity.
      * destruct (parse_help w (tl args));
          cbv [bind emit raise app]; intros H; inversion H; subst;
          repeat split; reflexivity.
  - intros w self fuel r t Hrun.
    pose proof (compile_and_run_status w self fuel r t Hrun) as Hs.
    destruct (compile_proc w) as [[[rc out] err]|].
    + destruct (rc =? 0) eqn:Hz.
      * destruct Hs as [Hcases Hpass].
        assert (Hsmall : exit_code r = exit_status r)
          by (apply exit_code_small; destruct Hcases as [Hc|Hc]; rewrite Hc; lia).
        rewrite Hsmall. split; [exact Hcases | exact Hpass].
      * subst r. split; [reflexivity|]. split.
        -- intros Hrc. exact (exit_code_wraps (Ret (Some rc)) Hrc).
        -- intros Hrc. apply (exit_code_small (Ret (Some rc))). simpl. lia.
    + rewrite exit_code_small; [exact Hs | rewrite Hs; lia].
Qed.

Lemma C4_exit_codes_witness :
  (result_of_main
     (exec_M (__main__ Demo.world 2 ["esi-cosim-runner.py"; "/t/loopback.sv"]))
   = Raise dpi_error /\
   exit_code
     (result_of_main
        (exec_M (__main__ Demo.world 2 ["esi-cosim-runner.py"; "/t/loopback.sv"])))
   = 1) /\
  exit_code (Ret (Some (-9))) = -9 mod 256 /\
  -9 mod 256 = 247.
Proof.
  split; [|split; [|reflexivity]].
  - apply (proj1 C4_exit_codes Demo.world 2%nat
                 ["esi-cosim-runner.py"; "/t/loopback.sv"]
                 (result_of_main
                    (exec_M (__main__ Demo.world 2
                               ["esi-cosim-runner.py"; "/t/loopback.sv"])))
                 (trace_of
                    (exec_M (__main__ Demo.world 2
                               ["esi-cosim-runner.py"; "/t/loopback.sv"])))).
    vm_compute. reflexivity.
  - apply (proj2 C4_exit_codes world_compile_killed Demo.runner 2%nat
                 (Ret (Some (-9)))
                 (trace_of (exec_M (compile_and_run world_compile_killed
                                                    Demo.runner 2)))).
    + vm_compute. reflexivity.
    + lia.
Defined.

(* ================================================================== *)
(** * The generated script *)

Lemma append_empty_r s : s +++ "" = s.
Proof. induction s as [|c r IH]; simpl; [reflexivity | rewrite IH; reflexivity]. Qed.

Lemma append_assoc_r a b c : (a +++ b) +++ c = a +++ (b +++ c).
Proof. induction a as [|x r IH]; simpl; [reflexivity | rewrite IH; reflexivity]. Qed.

Lemma concat_empty_cons x l : String.concat "" (x :: l) = x +++ String.concat "" l.
Proof. destruct l; simpl; [rewrite append_empty_r|]; reflexivity. Qed.

Lemma concat_empty_app a b :
  String.concat "" (a ++ b) = String.concat "" a +++ String.concat "" b.
Proof.
  induction a as [|x a IH]; [reflexivity|].
  change ((x :: a) ++ b) with (x :: (a ++ b)).
  rewrite !concat_empty_cons, IH, append_assoc_r. reflexivity.
Qed.

Lemma scan_runs_acc lines : forall acc,
  scan_runs lines acc = acc ++ flat_map directive lines.
Proof.
  induction lines as [|line rest IH]; intros acc; simpl.
  - rewrite app_nil_r. reflexivity.
  - unfold directive at 1. destruct (Re.match_PY line) as [g2|].
    + rewrite IH, <- app_assoc. reflexivity.
    + apply IH.
Qed.

(** C10.  The loop of [__init__] collects the directive texts of the
    test file in file order, each the stripped rest of its line after
    PY:.  In inline-script mode, when the script can be written and the
    test can be started, the test phase writes [script.py] as the preamble
    followed by exactly the collected lines, each with a newline, in their
    order, and then runs it with the interpreter; the preamble defines
    srcdir, srcfile, rpcschemapath and simhostport with the discovered
    port.  For the directive lines x = 1 and print(x) the script ends with
    these two lines, and when the interpreter gives the exit code 0 with
    1 on stdout and nothing on stderr, [run] returns 0. *)
Theorem C10_inline_script :
  (forall lines, scan_runs lines [] = flat_map directive lines) /\
  (forall w self port l pp rc,
      exec self = false ->
      server_only self = false ->
      can_open_w w "script.py" = true ->
      env_PYTHONPATH w = Some pp ->
      test_proc w = Some rc ->
      exists cmd closes,
        run_test w self port l
        = Some (Ret tt, mkLocals (simProc l) (Some rc),
                [ EOpenW "script.py";
                  EWrite "script.py"
                    (String.concat "" (script_preamble w self port)
                     +++ String.concat "" (map (fun x => x +++ PyStr.nl) (runs self)));
                  EClose "script.py";
                  EPrint ("[INFO] Test run command: " +++ PyStr.join " " cmd);
                  ERunTest cmd (pp +++ ":" +++ OsPath.dirname (this_file w)) rc ]
                ++ closes) /\
        cmd = filter (fun x => negb (PyStr.is_empty x))
                     [sys_executable w; "-u"; "script.py"]) /\
  (forall w self port,
      In ("srcdir = " +++ PyStr.dquote +++ srcdir self +++ PyStr.dquote +++ PyStr.nl)
         (script_preamble w self port) /\
      In ("srcfile = " +++ PyStr.dquote +++ file self +++ PyStr.dquote +++ PyStr.nl)
         (script_preamble w self port) /\
      In ("rpcschemapath = " +++ PyStr.dquote +++ schema self +++ PyStr.dquote
          +++ PyStr.nl)
         (script_preamble w self port) /\
      In ("simhostport = f'{os.uname()[1]}:" +++ PyStr.str port +++ "'" +++ PyStr.nl)
         (script_preamble w self port)) /\
  (scan_runs ["// PY: x = 1" +++ PyStr.nl; "// PY: print(x)" +++ PyStr.nl] []
   = ["x = 1"; "print(x)"] /\
   runs Demo.runner = ["x = 1"; "print(x)"] /\
   String.concat "" (map (fun x => x +++ PyStr.nl) (runs Demo.runner))
   = "x = 1" +++ PyStr.nl +++ "print(x)" +++ PyStr.nl /\
   test_proc Demo.world = Some 0 /\
   log_file Demo.world "test_stdout.log" = Some ("1" +++ PyStr.nl) /\
   option_map fst (exec_M (run Demo.world Demo.runner 2)) = Some (Ret 0)).
Proof.
  split; [|split; [|split]].
  - intros lines. apply (scan_runs_acc lines []).
  - intros w self port l pp rc Hexec Hso Hopen Henv Htest.
    unfold run_test, writeScript, open_w, close, print, subprocess_run_test,
      script_writes.
    rewrite Hexec, Hso, Hopen, Henv, Htest, concat_empty_app.
    cbv [negb bind emit ret set_testProc app simProc testProc].
    destruct (interactive self); eexists; eexists; split; reflexivity.
  - intros w self port. unfold script_preamble, script_vars. simpl.
    repeat split; auto 20.
  - repeat split; vm_compute; reflexivity.
Qed.

Lemma C10_inline_script_witness :
  exists cmd closes,
    run_test Demo.world Demo.runner 4711 (mkLocals (Some (running 4242)) None)
    = Some (Ret tt, mkLocals (Some (running 4242)) (Some 0),
            [ EOpenW "script.py";
              EWrite "script.py"
                (String.concat "" (script_preamble Demo.world Demo.runner 4711)
                 +++ String.concat ""
                       (map (fun x => x +++ PyStr.nl) (runs Demo.runner)));
              EClose "script.py";
              EPrint ("[INFO] Test run command: " +++ PyStr.join " " cmd);
              ERunTest cmd
                ("/opt/circt/python" +++ ":"
                 +++ OsPath.dirname (this_file Demo.world)) 0 ]
            ++ closes) /\
    cmd = filter (fun x => negb (PyStr.is_empty x))
                 [sys_executable Demo.world; "-u"; "script.py"].
Proof.
  apply (proj1 (proj2 C10_inline_script) Demo.world Demo.runner 4711
               (mkLocals (Some (running 4242)) None) "/opt/circt/python" 0);
    reflexivity.
Defined.

(* ================================================================== *)
(** * Whole runs on the concrete worlds *)

Example run_passes :
  option_map fst (exec_M (run Demo.world Demo.runner 2)) = Some (Ret 0).
Proof. vm_compute. reflexivity. Qed.

(** With one read only the port loop has not seen a port line yet. *)
Example run_out_of_fuel : exec_M (run Demo.world Demo.runner 1) = None.
Proof. vm_compute. reflexivity. Qed.

Example run_no_cfg :
  option_map fst (exec_M (run Demo.world_no_cfg Demo.runner 1))
  = Some (Raise cfg_timeout).
Proof. vm_compute. reflexivity. Qed.

(** The [try] block ends with the [open] of the missing file; what
    leaves [run] is the exception of the [finally] block. *)
Example run_sim_dies :
  option_map fst (exec_M (run_try Demo.world_sim_dies Demo.runner 1))
  = Some (Raise (FileNotFoundError "cosim.cfg")) /\
  option_map fst (exec_M (run Demo.world_sim_dies Demo.runner 1))
  = Some (Raise ProcessLookupError) /\
  ~ In (EKillpg 4242 SIGINT)
       (trace_of (exec_M (run Demo.world_sim_dies Demo.runner 1))).
Proof.
  split; [vm_compute; reflexivity|]. split; [vm_compute; reflexivity|].
  vm_compute. intuition discriminate.
Qed.

Example run_port_closed :
  option_map fst (exec_M (run Demo.world_port_closed Demo.runner 2))
  = Some (Raise (rpc_timeout 4711)).
Proof. vm_compute. reflexivity. Qed.

Example run_stderr :
  option_map fst (exec_M (run Demo.world_stderr Demo.runner 2)) = Some (Ret 1).
Proof. vm_compute. reflexivity. Qed.

(* ================================================================== *)
(** * More on the strings *)

Section StringFacts.
Import PyStr.

Lemma rev_acc_acc s : forall a b, rev_acc (rev_acc s a) b = rev_acc a (s +++ b).
Proof.
  induction s as [|c r IH]; intros a b; simpl; [reflexivity|].
  rewrite IH. reflexivity.
Qed.

Lemma str_rev_involutive s : rev (rev s) = s.
Proof. unfold rev. rewrite rev_acc_acc. simpl. apply append_empty_r. Qed.

Lemma rev_acc_append s : forall a, rev_acc s a = rev s +++ a.
Proof.
  unfold rev. induction s as [|c r IH]; intros a; simpl; [reflexivity|].
  rewrite IH, (IH (String c "")), append_assoc_r. reflexivity.
Qed.

Lemma rev_acc_app s t : forall a, rev_acc (s +++ t) a = rev_acc t (rev_acc s a).
Proof.
  induction s as [|c r IH]; intros a; simpl; [reflexivity | apply IH].
Qed.

Lemma str_rev_append s t : rev (s +++ t) = rev t +++ rev s.
Proof.
  unfold rev at 1. rewrite rev_acc_app, rev_acc_append. reflexivity.
Qed.

Lemma take_drop_while f s : take_while f s +++ drop_while f s = s.
Proof.
  induction s as [|c r IH]; simpl; [reflexivity|].
  destruct (f c); simpl; [rewrite IH|]; reflexivity.
Qed.

Lemma all_chars_append f s t :
  all_chars f (s +++ t) = all_chars f s && all_chars f t.
Proof.
  induction s as [|c r IH]; simpl; [reflexivity|].
  rewrite IH, andb_assoc. reflexivity.
Qed.

Lemma all_chars_rev f s : all_chars f (rev s) = all_chars f s.
Proof.
  induction s as [|c r IH]; [reflexivity|].
  change (String c r) with (String c "" +++ r).
  rewrite str_rev_append, !all_chars_append, IH. apply andb_comm.
Qed.

Lemma all_chars_drop_while f g s :
  all_chars f s = true -> all_chars f (drop_while g s) = true.
Proof.
  induction s as [|c r IH]; simpl; [auto|].
  intros H. apply andb_prop in H. destruct H as [Hc Hr].
  destruct (g c); simpl; [auto | rewrite Hc, Hr; reflexivity].
Qed.

Lemma all_chars_take_while f g s :
  all_chars f s = true -> all_chars f (take_while g s) = true.
Proof.
  induction s as [|c r IH]; simpl; [auto|].
  intros H. apply andb_prop in H. destruct H as [Hc Hr].
  destruct (g c); simpl; [rewrite Hc; auto | reflexivity].
Qed.

Lemma drop_while_head f s : head_fails f (drop_while f s).
Proof.
  induction s as [|c r IH]; simpl; [exact I|].
  destruct (f c) eqn:Hc; [exact IH | exact Hc].
Qed.

Lemma drop_while_fixed f s : head_fails f s -> drop_while f s = s.
Proof. destruct s as [|c r]; simpl; [reflexivity | intros ->; reflexivity]. Qed.

Lemma take_while_append f s t :
  all_chars f s = true -> head_fails f t ->
  take_while f (s +++ t) = s.
Proof.
  induction s as [|c r IH]; simpl; intros Hs Ht.
  - destruct t as [|d t']; simpl in *; [reflexivity | rewrite Ht; reflexivity].
  - apply andb_prop in Hs. destruct Hs as [Hc Hr].
    rewrite Hc, IH; auto.
Qed.

Lemma strip_prefix_append p s : strip_prefix p (p +++ s) = Some s.
Proof.
  induction p as [|c r IH]; simpl; [reflexivity|].
  rewrite Ascii.eqb_refl. exact IH.
Qed.

(** [rstrip] keeps the first character of a string it does not empty. *)
Lemma rstrip_head f s :
  head_fails f s -> head_fails f (rev (drop_while f (rev s))).
Proof.
  intros Hs.
  pose proof (take_drop_while f (rev s)) as Hsplit.
  apply (f_equal rev) in Hsplit.
  rewrite str_rev_append, str_rev_involutive in Hsplit.
  destruct (rev (drop_while f (rev s))) as [|c r]; [exact I|].
  rewrite <- Hsplit in Hs. exact Hs.
Qed.

(** [strip] is idempotent. *)
Lemma strip_strip s : strip (strip s) = strip s.
Proof.
  unfold strip, lstrip, rstrip.
  set (t := drop_while is_space s).
  assert (Ht : head_fails is_space t) by apply drop_while_head.
  rewrite (drop_while_fixed _ _ (rstrip_head _ _ Ht)).
  rewrite str_rev_involutive.
  rewrite (drop_while_fixed is_space (drop_while is_space (rev t)));
    [reflexivity | apply drop_while_head].
Qed.

Lemma strip_all_chars f s : all_chars f s = true -> all_chars f (strip s) = true.
Proof.
  intros H. unfold strip, lstrip, rstrip.
  rewrite all_chars_rev. apply all_chars_drop_while.
  rewrite all_chars_rev. apply all_chars_drop_while. exact H.
Qed.

End StringFacts.

(* ================================================================== *)
(** * The directive lines of the test file *)

Lemma match_PY_no_newline line g :
  Re.match_PY line = Some g ->
  all_chars (fun c => negb (PyStr.is_newline c)) g = true.
Proof.
  unfold Re.match_PY, Re.dot_star_eol.
  destruct (match PyStr.strip_prefix "//" line with
            | Some r => Some r
            | None => PyStr.strip_prefix "#" line
            end) as [r|]; [|discriminate].
  destruct (PyStr.strip_prefix "PY:" (PyStr.drop_while PyStr.is_space r))
    as [rest|]; [|discriminate].
  destruct (_ || _); [|discriminate].
  intros H. inversion H. apply take_while_all.
Qed.

Lemma flat_map_directive_length lines :
  (length (flat_map directive lines) <= length lines)%nat.
Proof.
  induction lines as [|line rest IH]; simpl; [lia|].
  rewrite length_app. unfold directive at 1.
  destruct (Re.match_PY line); simpl; lia.
Qed.

(** X1.  Lines 62-69 of [__init__].  Every collected directive is the
    stripped text after PY: of some line of the file; it neither starts
    nor ends with white space, so that [strip] leaves it as it is and any
    indentation written after PY: is gone, and it holds no newline, so
    that it fills exactly one line of the script.  There are at most as
    many directives as lines. *)
Theorem X_directives_are_stripped_lines :
  forall lines,
    (length (scan_runs lines []) <= length lines)%nat /\
    (forall x,
        In x (scan_runs lines []) ->
        PyStr.strip x = x /\
        all_chars (fun c => negb (PyStr.is_newline c)) x = true /\
        exists line g,
          In line lines /\ Re.match_PY line = Some g /\ x = PyStr.strip g).
Proof.
  intros lines. rewrite (scan_runs_acc lines []). simpl. split.
  - apply flat_map_directive_length.
  - intros x Hin. apply in_flat_map in Hin.
    destruct Hin as [line [Hline Hx]]. unfold directive in Hx.
    destruct (Re.match_PY line) as [g|] eqn:Hm; [|contradiction].
    destruct Hx as [<-|[]].
    split; [apply strip_strip|].
    split; [apply strip_all_chars; exact (match_PY_no_newline _ _ Hm)|].
    exists line, g. auto.
Qed.

(* ================================================================== *)
(** * The command line of the test *)

Section TestCommand.
Import PyStr.

Lemma split_blank_word x : forall cur s,
  all_chars (fun c => negb (is_blank c)) x = true ->
  split_blank cur (x +++ s) = split_blank (rev_acc x cur) s.
Proof.
  induction x as [|c r IH]; intros cur s Hx; simpl; [reflexivity|].
  simpl in Hx. apply andb_prop in Hx. destruct Hx as [Hc Hr].
  unfold is_blank in Hc. apply negb_true_iff in Hc. rewrite Hc.
  apply IH. exact Hr.
Qed.

Lemma rev_rev_acc x cur : rev (rev_acc x cur) = rev cur +++ x.
Proof.
  rewrite rev_acc_append, str_rev_append, str_rev_involutive. reflexivity.
Qed.

Lemma split_blank_join words : forall cur,
  Forall (fun x => all_chars (fun c => negb (is_blank c)) x = true) words ->
  words <> [] ->
  split_blank cur (join " " words) = (rev cur +++ hd "" words) :: tl words.
Proof.
  induction words as [|x rest IH]; intros cur Hall Hne; [contradiction|].
  inversion Hall as [|? ? Hx Hrest]; subst.
  destruct rest as [|y rest'].
  - simpl. rewrite <- (append_empty_r x) at 1.
    rewrite (split_blank_word x cur "" Hx). simpl.
    rewrite rev_rev_acc. reflexivity.
  - change (join " " (x :: y :: rest'))
      with (x +++ String " " (join " " (y :: rest'))).
    rewrite (split_blank_word x cur _ Hx).
    cbn [split_blank]. rewrite Ascii.eqb_refl.
    rewrite rev_rev_acc, (IH "" Hrest ltac:(discriminate)).
    reflexivity.
Qed.

(** Blank-free words joined by single blanks are split back to
    themselves. *)
Lemma split_join words :
  Forall (fun x => all_chars (fun c => negb (is_blank c)) x = true) words ->
  words <> [] ->
  split (join " " words) = words.
Proof.
  intros Hall Hne. unfold split. rewrite (split_blank_join words "" Hall Hne).
  destruct words; [contradiction | reflexivity].
Qed.

Lemma filter_nonempty_words words :
  Forall word_ok words ->
  filter (fun x => negb (is_empty x)) words = words.
Proof.
  induction 1 as [|x rest [Hx _] _ IH]; simpl; [reflexivity|].
  destruct x; [contradiction|]. simpl. rewrite IH. reflexivity.
Qed.

Lemma words_survive words :
  Forall word_ok words ->
  filter (fun x => negb (is_empty x)) (split (join " " words)) = words.
Proof.
  intros Hall. destruct words as [|x rest]; [reflexivity|].
  rewrite split_join.
  - apply filter_nonempty_words. exact Hall.
  - eapply Forall_impl; [|exact Hall]. intros a [_ Ha]. exact Ha.
  - discriminate.
Qed.

Lemma filter_nonempty_no_empty l :
  ~ In "" (filter (fun x => negb (is_empty x)) l).
Proof.
  intros Hin. apply filter_In in Hin. destruct Hin as [_ H]. discriminate H.
Qed.

End TestCommand.

(** X2.  Lines 222-239 of [run], the mode with an external executable.  When
    the test can be started, [run_test] writes no script and runs the
    test file itself, through the interpreter when its name ends in .py,
    with the arguments cosim, localhost and the discovered port, the
    schema, and then the words of the test arguments: when these are
    non-empty words without blanks joined by single blanks, each of them
    reaches the test as an argument of its own, in the same order. *)
Theorem X_exec_mode_command :
  forall w self port l pp rc words,
    exec self = true ->
    server_only self = false ->
    env_PYTHONPATH w = Some pp ->
    test_proc w = Some rc ->
    exec_args self = PyStr.join " " words ->
    Forall word_ok words ->
    exists cmd closes,
      run_test w self port l
      = Some (Ret tt, mkLocals (simProc l) (Some rc),
              [ EPrint ("[INFO] Test run command: " +++ PyStr.join " " cmd);
                ERunTest cmd (pp +++ ":" +++ OsPath.dirname (this_file w)) rc ]
              ++ closes) /\
      cmd = filter (fun x => negb (PyStr.is_empty x))
                   (if PyStr.endswith (file self) ".py"
                    then [sys_executable w; "-u"; file self]
                    else [file self])
            ++ ["cosim"; "localhost:" +++ PyStr.str port]
            ++ filter (fun x => negb (PyStr.is_empty x)) [schema self]
            ++ words.
Proof.
  intros w self port l pp rc words Hexec Hso Henv Htest Hargs Hwords.
  unfold run_test, close, print, subprocess_run_test.
  rewrite Hexec, Hso, Henv, Htest, Hargs. cbv zeta. cbn [negb].
  assert (Hcmd :
    filter (fun x => negb (PyStr.is_empty x))
      (if PyStr.endswith (file self) ".py"
       then [sys_executable w; "-u"; file self]
            ++ ["cosim"; "localhost:" +++ PyStr.str port; schema self]
            ++ PyStr.split (PyStr.join " " words)
       else [file self]
            ++ ["cosim"; "localhost:" +++ PyStr.str port; schema self]
            ++ PyStr.split (PyStr.join " " words))
    = filter (fun x => negb (PyStr.is_empty x))
             (if PyStr.endswith (file self) ".py"
              then [sys_executable w; "-u"; file self]
              else [file self])
      ++ ["cosim"; "localhost:" +++ PyStr.str port]
      ++ filter (fun x => negb (PyStr.is_empty x)) [schema self]
      ++ words).
  { destruct (PyStr.endswith (file self) ".py");
      rewrite !filter_app, words_survive by exact Hwords;
      reflexivity. }
  rewrite Hcmd.
  cbv [bind emit ret set_testProc simProc testProc].
  destruct (interactive self); eexists; eexists; split; reflexivity.
Qed.

Lemma X_exec_mode_command_witness :
  exists cmd closes,
    run_test Demo.world exec_runner 4711 (mkLocals (Some (running 4242)) None)
    = Some (Ret tt, mkLocals (Some (running 4242)) (Some 0),
            [ EPrint ("[INFO] Test run command: " +++ PyStr.join " " cmd);
              ERunTest cmd ("/opt/circt/python" +++ ":"
                            +++ OsPath.dirname (this_file Demo.world)) 0 ]
            ++ closes) /\
    cmd = filter (fun x => negb (PyStr.is_empty x))
                 (if PyStr.endswith (file exec_runner) ".py"
                  then [sys_executable Demo.world; "-u"; file exec_runner]
                  else [file exec_runner])
          ++ ["cosim"; "localhost:" +++ PyStr.str 4711]
          ++ filter (fun x => negb (PyStr.is_empty x)) [schema exec_runner]
          ++ ["--fast"; "3"].
Proof.
  apply (X_exec_mode_command Demo.world exec_runner 4711
           (mkLocals (Some (running 4242)) None) "/opt/circt/python" 0 ["--fast"; "3"]);
    try reflexivity.
  repeat constructor; discriminate.
Defined.

(* ================================================================== *)
(** * The port, written and read *)

Section PortRoundTrip.
Import PyStr.

Lemma int_digits_uint_acc d : forall p,
  int_digits (Zpos p) (NilEmpty.string_of_uint d) = Zpos (Pos.of_uint_acc d p).
Proof.
  induction d; intros p; cbn [NilEmpty.string_of_uint int_digits Pos.of_uint_acc];
    [reflexivity | ..];
    match goal with
    | |- int_digits ?a _ = Zpos (Pos.of_uint_acc _ ?q) =>
        replace a with (Zpos q) by (vm_compute (Z.of_nat _); lia)
    end; apply IHd.
Qed.

Lemma int_digits_uint d :
  int_digits 0 (NilEmpty.string_of_uint d) = Z.of_N (Pos.of_uint d).
Proof.
  induction d; cbn [NilEmpty.string_of_uint int_digits Pos.of_uint];
    [reflexivity | exact IHd | ..];
    match goal with
    | |- int_digits ?a _ = Z.of_N (Npos (Pos.of_uint_acc _ ?q)) =>
        change a with (Zpos q)
    end; rewrite int_digits_uint_acc; reflexivity.
Qed.

Lemma string_of_uint_digits d :
  all_chars is_digit (NilEmpty.string_of_uint d) = true.
Proof. induction d; simpl; auto. Qed.

(** [int(str(n)) == n] for a natural number. *)
Lemma int_str n : 0 <= n -> int (str n) = n.
Proof.
  intros Hn. unfold int, str. destruct n as [|p|p]; [reflexivity | | lia].
  cbn [Z.to_int NilZero.string_of_int].
  assert (Hd : NilZero.string_of_uint (Pos.to_uint p)
               = NilEmpty.string_of_uint (Pos.to_uint p)).
  { pose proof (DecimalPos.Unsigned.of_to p) as H.
    destruct (Pos.to_uint p); [discriminate H | reflexivity ..]. }
  rewrite Hd, int_digits_uint, DecimalPos.Unsigned.of_to. reflexivity.
Qed.

Lemma str_digits n :
  0 <= n -> all_chars is_digit (str n) = true /\ str n <> "".
Proof.
  intros Hn. unfold str. destruct n as [|p|p]; [split; [reflexivity | discriminate] | | lia].
  cbn [Z.to_int NilZero.string_of_int].
  pose proof (DecimalPos.Unsigned.of_to p) as H.
  pose proof (string_of_uint_digits (Pos.to_uint p)) as Hdig.
  destruct (Pos.to_uint p); [discriminate H | ..]; split;
    solve [exact Hdig | discriminate].
Qed.

Lemma readlines_from_line x : forall cur,
  all_chars (fun c => negb (is_newline c)) x = true ->
  readlines_from cur (x +++ nl) = [rev cur +++ x +++ nl].
Proof.
  induction x as [|c r IH]; intros cur Hx.
  - simpl. f_equal. unfold rev. simpl. apply rev_acc_append.
  - simpl in Hx. apply andb_prop in Hx. destruct Hx as [Hc Hr].
    apply negb_true_iff in Hc. simpl. rewrite Hc, (IH _ Hr).
    f_equal. unfold rev. simpl.
    rewrite (rev_acc_append cur), append_assoc_r. reflexivity.
Qed.

Lemma digits_no_newline s :
  all_chars is_digit s = true ->
  all_chars (fun c => negb (is_newline c)) s = true.
Proof.
  induction s as [|c r IH]; simpl; [auto|].
  intros H. apply andb_prop in H. destruct H as [Hc Hr].
  rewrite (IH Hr), andb_true_r.
  unfold is_digit in Hc. unfold is_newline.
  apply andb_prop in Hc. destruct Hc as [Hlo _]. apply Nat.leb_le in Hlo.
  apply negb_true_iff, Nat.eqb_neq. lia.
Qed.

End PortRoundTrip.

(** X3.  Lines 185-192 of [run] against [str].  For every natural number [n]
    the line made of port, colon, blank and the decimal of [n] matches the
    port pattern with the digits of [n] as its group, whatever follows the
    digits as long as it is no digit, and [int] turns the group back into
    [n]; so a config file made of that one line makes port discovery
    return [n] at the first read.  The port is not checked against any
    range. *)
Theorem X_port_line_round_trip :
  forall n,
    0 <= n ->
    (forall rest,
        head_fails PyStr.is_digit rest ->
        Re.match_port ("port: " +++ PyStr.str n +++ rest) = Some (PyStr.str n)) /\
    PyStr.int (PyStr.str n) = n /\
    (forall w fuel l,
        cfg_read w 0 = Some ("port: " +++ PyStr.str n +++ PyStr.nl) ->
        read_port w (S fuel) l
        = Some (Ret n, l, [EReadCfg ("port: " +++ PyStr.str n +++ PyStr.nl)])).
Proof.
  intros n Hn. destruct (str_digits n Hn) as [Hdig Hne].
  assert (Hmatch : forall rest,
             head_fails PyStr.is_digit rest ->
             Re.match_port ("port: " +++ PyStr.str n +++ rest)
             = Some (PyStr.str n)).
  { intros rest Hrest. unfold Re.match_port.
    rewrite (strip_prefix_append "port: " (PyStr.str n +++ rest)).
    rewrite (take_while_append _ _ _ Hdig Hrest).
    destruct (PyStr.str n); [contradiction | reflexivity]. }
  split; [exact Hmatch|]. split; [apply int_str; exact Hn|].
  intros w fuel l Hread.
  unfold read_port. cbn [read_port_loop]. change (-1 <? 0) with true. cbv iota.
  rewrite Hread, bind_emit.
  assert (Hlines : PyStr.readlines ("port: " +++ PyStr.str n +++ PyStr.nl)
                   = ["port: " +++ PyStr.str n +++ PyStr.nl]).
  { unfold PyStr.readlines.
    rewrite <- (append_assoc_r "port: " (PyStr.str n) PyStr.nl).
    rewrite readlines_from_line; [reflexivity|].
    rewrite all_chars_append. rewrite (digits_no_newline _ Hdig). reflexivity. }
  rewrite Hlines. cbn [scan_port].
  rewrite (Hmatch PyStr.nl ltac:(reflexivity)), (int_str n Hn).
  rewrite read_port_loop_done by exact Hn. reflexivity.
Qed.

Lemma X_port_line_round_trip_witness :
  (forall rest,
      head_fails PyStr.is_digit rest ->
      Re.match_port ("port: " +++ PyStr.str 65536 +++ rest)
      = Some (PyStr.str 65536)) /\
  PyStr.int (PyStr.str 65536) = 65536 /\
  (forall w fuel l,
      cfg_read w 0 = Some ("port: " +++ PyStr.str 65536 +++ PyStr.nl) ->
      read_port w (S fuel) l
      = Some (Ret 65536, l, [EReadCfg ("port: " +++ PyStr.str 65536 +++ PyStr.nl)])).
Proof. apply (X_port_line_round_trip 65536). lia. Defined.

(* ================================================================== *)
(** * The test directory *)




(* ================================================================== *)
(** * Where the events of a run come from *)

Lemma emits_try_finally {A B} P (body : M A) (fin : M B) :
  emits_only P body -> emits_only P fin -> emits_only P (try_finally body fin).
Proof.
  intros Hb Hf l r l' t H.
  destruct (try_finally_inv _ _ _ _ _ _ H)
    as [rb [l1 [t1 [rf [t2 [H1 [H2 [-> _]]]]]]]].
  apply Forall_app. split; [exact (Hb _ _ _ _ H1) | exact (Hf _ _ _ _ H2)].
Qed.

Lemma launch_cmd_eq self :
  (if negb (String.eqb (sim self) "")
   then [simRunScript self; "--no-objdir"] ++ ["--sim"; sim self]
   else [simRunScript self; "--no-objdir"])
  ++ sources self ++ args self = launch_cmd self.
Proof. unfold launch_cmd. destruct (String.eqb (sim self) ""); reflexivity. Qed.

Lemma compile_cmd_eq self :
  (if negb (String.eqb (sim self) "")
   then [simRunScript self; "--no-objdir"; "--no-run"] ++ ["--sim"; sim self]
   else [simRunScript self; "--no-objdir"; "--no-run"])
  ++ sources self ++ args self = compile_cmd self.
Proof. unfold compile_cmd. destruct (String.eqb (sim self) ""); reflexivity. Qed.

(** Settle what an emitted event has to satisfy, with the tests made on
    the way to it at hand. *)
Ltac event_ok :=
  apply emits_emit; cbn [run_event_ok compile_event_ok];
  repeat match goal with
         | E : negb _ = true |- _ => apply negb_true_iff in E
         | E : negb _ = false |- _ => apply negb_false_iff in E
         end;
  repeat split; intros;
  first [ exact I | reflexivity | assumption | congruence | discriminate
        | apply launch_cmd_eq | apply compile_cmd_eq
        | apply filter_nonempty_no_empty
        | (left; reflexivity) | (right; reflexivity)
        | (unfold log_names; simpl; tauto) ].

Ltac provenance :=
  repeat first
    [ assumption
    | apply emits_ret | apply emits_raise | apply emits_out_of_fuel
    | apply emits_get | apply emits_set_simProc | apply emits_set_testProc
    | apply emits_bind; [| intros ? ]
    | match goal with
      | |- emits_only _ (emit _) => event_ok
      | |- emits_only _ (if ?b then _ else _) =>
          let E := fresh "E" in destruct b eqn:E
      | |- emits_only _ (match ?x with _ => _ end) =>
          let E := fresh "E" in destruct x eqn:E
      | |- emits_only _ (let '(_, _) := ?x in _) => destruct x
      end ]; auto.

Section Provenance.
Variable w : World.
Variable self : CosimTestRunner.

Lemma wait_for_cfg_loop_ok gas :
  forall c, emits_only (run_event_ok w self) (wait_for_cfg_loop w gas c).
Proof.
  induction gas as [|g IH]; intros c; cbn [wait_for_cfg_loop]; unfold sleep;
    cbv zeta; provenance.
Qed.

Lemma read_port_loop_ok fuel :
  forall reads port,
    emits_only (run_event_ok w self) (read_port_loop w fuel reads port).
Proof.
  induction fuel as [|n IH]; intros reads port; cbn [read_port_loop];
    provenance.
Qed.

Lemma wait_for_rpc_loop_ok gas :
  forall port c,
    emits_only (run_event_ok w self) (wait_for_rpc_loop w gas port c).
Proof.
  induction gas as [|g IH]; intros port c; cbn [wait_for_rpc_loop];
    unfold isPortOpen, sleep; cbv zeta; provenance.
Qed.

Lemma run_setup_ok : emits_only (run_event_ok w self) (run_setup w self).
Proof. unfold run_setup, open_w. cbv zeta. provenance. Qed.

Lemma run_launch_ok : emits_only (run_event_ok w self) (run_launch w self).
Proof.
  unfold run_launch, print, subprocess_Popen, close. cbv zeta. provenance.
Qed.

Lemma run_test_ok port : emits_only (run_event_ok w self) (run_test w self port).
Proof.
  unfold run_test, writeScript, open_w, close, input, print, subprocess_run_test.
  cbv zeta. provenance.
Qed.

Lemma run_finally_ok : emits_only (run_event_ok w self) (run_finally w).
Proof.
  unfold run_finally, teardown, aggregate, readLogs, read_log, print.
  provenance.
Qed.

(** Every event of [run] is as [run_event_ok] says. *)
Lemma run_events_ok fuel : emits_only (run_event_ok w self) (run w self fuel).
Proof.
  unfold run.
  apply emits_bind; [apply emits_set_testProc | intros _].
  apply emits_bind; [apply emits_set_simProc | intros _].
  apply emits_bind; [| intros passed; apply emits_ret].
  apply emits_try_finally; [| apply run_finally_ok].
  unfold run_try, run_after_launch, wait_for_cfg, read_port, wait_for_rpc.
  apply emits_bind; [apply run_setup_ok | intros _].
  apply emits_bind; [apply run_launch_ok | intros _].
  apply emits_bind; [apply wait_for_cfg_loop_ok | intros _].
  apply emits_bind; [apply read_port_loop_ok | intros port].
  apply emits_bind; [apply wait_for_rpc_loop_ok | intros _].
  apply run_test_ok.
Qed.

Lemma compile_events_ok : emits_only (compile_event_ok self) (compile w self).
Proof.
  unfold compile, print, subprocess_run_capture. cbv zeta. provenance.
Qed.

Lemma run_event_in fuel r t e :
  exec_M (run w self fuel) = Some (r, t) -> In e t -> run_event_ok w self e.
Proof.
  intros Hrun Hin. destruct (exec_M_inv _ _ _ Hrun) as [l' H].
  pose proof (run_events_ok fuel _ _ _ _ H) as Hall.
  rewrite Forall_forall in Hall. exact (Hall e Hin).
Qed.

End Provenance.

(** X5.  Lines 204-242 of [run].  The three modes keep apart in every call of
    [run] that ends: with an external executable no script is opened or
    written; in server-only mode no test process is started; outside
    server-only mode the operator is never prompted; and a script that is
    written goes to [script.py]. *)
Theorem X_modes_keep_apart :
  forall w self fuel r t,
    exec_M (run w self fuel) = Some (r, t) ->
    (exec self = true ->
     ~ In (EOpenW "script.py") t /\ forall p text, ~ In (EWrite p text) t) /\
    (server_only self = true -> forall cmd pp rc, ~ In (ERunTest cmd pp rc) t) /\
    (server_only self = false -> forall prompt, ~ In (EInput prompt) t) /\
    (forall p text, In (EWrite p text) t -> p = "script.py").
Proof.
  intros w self fuel r t Hrun.
  split; [|split; [|split]].
  - intros Hexec. split.
    + intros Hin. destruct (run_event_in w self fuel r t _ Hrun Hin) as [H _].
      exact (H Hexec eq_refl).
    + intros p text Hin.
      destruct (run_event_in w self fuel r t _ Hrun Hin) as [_ H]. congruence.
  - intros Hso cmd pp rc Hin.
    destruct (run_event_in w self fuel r t _ Hrun Hin) as [H _]. congruence.
  - intros Hso prompt Hin.
    pose proof (run_event_in w self fuel r t _ Hrun Hin) as H. simpl in H.
    congruence.
  - intros p text Hin.
    destruct (run_event_in w self fuel r t _ Hrun Hin) as [H _]. exact H.
Qed.

Lemma X_modes_keep_apart_witness :
  (exec Demo.server = true ->
   ~ In (EOpenW "script.py") (trace_of (exec_M (run Demo.world Demo.server 2))) /\
   forall p text,
     ~ In (EWrite p text) (trace_of (exec_M (run Demo.world Demo.server 2)))) /\
  (server_only Demo.server = true ->
   forall cmd pp rc,
     ~ In (ERunTest cmd pp rc) (trace_of (exec_M (run Demo.world Demo.server 2)))) /\
  (server_only Demo.server = false ->
   forall prompt,
     ~ In (EInput prompt) (trace_of (exec_M (run Demo.world Demo.server 2)))) /\
  (forall p text,
      In (EWrite p text) (trace_of (exec_M (run Demo.world Demo.server 2))) ->
      p = "script.py").
Proof.
  apply (X_modes_keep_apart Demo.world Demo.server 2 (Ret 1)).
  vm_compute. reflexivity.
Defined.

(** X6.  Lines 147-152 and 240-242 of [run].  In interactive mode a call of
    [run] that ends has neither opened nor closed [test_stdout.log] or
    [test_stderr.log]: the test writes to the terminal, and what
    [readLogs] finds under these names was not written by this run. *)
Theorem X_interactive_leaves_test_logs :
  forall w self fuel r t,
    interactive self = true ->
    exec_M (run w self fuel) = Some (r, t) ->
    forall p,
      In (EOpenW p) t \/ In (EClose p) t ->
      p <> "test_stdout.log" /\ p <> "test_stderr.log".
Proof.
  intros w self fuel r t Hint Hrun p [Hin|Hin];
    destruct (run_event_in w self fuel r t _ Hrun Hin) as [_ H];
    exact (H Hint).
Qed.

(** X7.  Line 233 of [run].  The command line of every test that a call of
    [run] starts holds no empty argument, in either test mode, and the
    exit code recorded for it is the one the test gave. *)
Theorem X_test_command_has_no_empty_argument :
  forall w self fuel r t cmd pp rc,
    exec_M (run w self fuel) = Some (r, t) ->
    In (ERunTest cmd pp rc) t ->
    ~ In "" cmd /\ test_proc w = Some rc.
Proof.
  intros w self fuel r t cmd pp rc Hrun Hin.
  destruct (run_event_in w self fuel r t _ Hrun Hin) as [_ [Hrc Hcmd]].
  split; assumption.
Qed.

Lemma X_interactive_leaves_test_logs_witness :
  In (EOpenW "sim_stdout.log")
     (trace_of (exec_M (run Demo.world interactive_runner 2))) /\
  ("sim_stdout.log" <> "test_stdout.log" /\ "sim_stdout.log" <> "test_stderr.log").
Proof.
  assert (Hin : In (EOpenW "sim_stdout.log")
                   (trace_of (exec_M (run Demo.world interactive_runner 2))))
    by (vm_compute; tauto).
  split; [exact Hin|].
  apply (X_interactive_leaves_test_logs Demo.world interactive_runner 2 (Ret 0)
           (trace_of (exec_M (run Demo.world interactive_runner 2)))).
  - reflexivity.
  - vm_compute. reflexivity.
  - left. exact Hin.
Defined.

Lemma X_test_command_has_no_empty_argument_witness :
  ~ In "" ["/usr/bin/python3"; "-u"; "script.py"] /\
  test_proc Demo.world = Some 0.
Proof.
  apply (X_test_command_has_no_empty_argument Demo.world Demo.runner 2 (Ret 0)
           (trace_of (exec_M (run Demo.world Demo.runner 2)))
           ["/usr/bin/python3"; "-u"; "script.py"] "/opt/circt/python:/opt/circt/bin" 0).
  - vm_compute. reflexivity.
  - vm_compute. tauto.
Defined.

(** X8.  Lines 89-92 and 161-167.  In every call of lines 361-364 of
    [__main__] that ends, the simulation is launched with the command
    line it was compiled with, less the flag that forbids the run: the
    same driver, the same choice of simulator, the same sources and
    passed-through arguments; and the build type being Release, no debug
    file is named in its environment. *)
Theorem X_run_command_is_compile_command :
  forall w self fuel r t,
    exec_M (compile_and_run w self fuel) = Some (r, t) ->
    forall c c' debug_file pid,
      In (ECompile c) t ->
      In (ELaunch c' debug_file pid) t ->
      exists rest,
        c = simRunScript self :: "--no-objdir" :: "--no-run" :: rest /\
        c' = simRunScript self :: "--no-objdir" :: rest /\
        debug_file = None.
Proof.
  intros w self fuel r t Hrun c c' d pid Hc Hl.
  destruct (exec_M_inv _ _ _ Hrun) as [l' H]. unfold compile_and_run in H.
  assert (Hall : Forall (fun e => compile_event_ok self e \/ run_event_ok w self e) t).
  { destruct (bind_inv _ _ _ _ _ _ H)
      as [[e [H1 _]]|[rc [l1 [t1 [t2 [H1 [H2 ->]]]]]]].
    - eapply Forall_impl; [|exact (compile_events_ok w self _ _ _ _ H1)].
      intros a Ha. left. exact Ha.
    - apply Forall_app. split.
      + eapply Forall_impl; [|exact (compile_events_ok w self _ _ _ _ H1)].
        intros a Ha. left. exact Ha.
      + destruct (negb (rc =? 0)).
        * inversion H2; subst. constructor.
        * destruct (bind_inv _ _ _ _ _ _ H2)
            as [[e [H3 _]]|[z [l2 [t3 [t4 [H3 [H4 ->]]]]]]].
          -- eapply Forall_impl; [|exact (run_events_ok w self fuel _ _ _ _ H3)].
             intros a Ha. right. exact Ha.
          -- inversion H4; subst. rewrite app_nil_r.
             eapply Forall_impl; [|exact (run_events_ok w self fuel _ _ _ _ H3)].
             intros a Ha. right. exact Ha. }
  rewrite Forall_forall in Hall.
  destruct (Hall _ Hc) as [Hcc|[]]. destruct (Hall _ Hl) as [[]|[Hlc [Hd _]]].
  simpl in Hcc. subst c c' d.
  exists ((if String.eqb (sim self) "" then [] else ["--sim"; sim self])
          ++ sources self ++ args self).
  unfold compile_cmd, launch_cmd. repeat split; reflexivity.
Qed.

Lemma X_run_command_is_compile_command_witness :
  exists rest,
    compile_cmd Demo.runner
    = simRunScript Demo.runner :: "--no-objdir" :: "--no-run" :: rest /\
    launch_cmd Demo.runner = simRunScript Demo.runner :: "--no-objdir" :: rest /\
    @None string = None.
Proof.
  apply (X_run_command_is_compile_command Demo.world Demo.runner 2 (Ret (Some 0))
           (trace_of (exec_M (compile_and_run Demo.world Demo.runner 2)))
           ltac:(vm_compute; reflexivity) _ _ _ 4242);
    vm_compute; tauto.
Defined.

(* ================================================================== *)
(** * The logs that are not there *)

Section MissingLog.
Variable w : World.

(** [readLogs] raises for the first log that is missing, the logs
    before it being there and being text. *)
Lemma readLogs_missing l pre p post :
  log_names = pre ++ p :: post ->
  (forall q, In q pre -> log_file w q <> None /\ log_decodes w q = true) ->
  log_file w p = None ->
  readLogs w l = Some (Raise (FileNotFoundError p), l, map EReadLog pre).
Proof.
  intros Hnames Hpre Hp. unfold log_names in Hnames.
  assert (Hthere : forall q, In q pre ->
            exists text, log_file w q = Some text /\ log_decodes w q = true).
  { intros q Hq. destruct (Hpre q Hq) as [Hf Hd].
    destruct (log_file w q) as [text|] eqn:E; [eauto|].
    exfalso. exact (Hf eq_refl). }
  unfold readLogs, read_log.
  destruct pre as [|x1 [|x2 [|x3 [|x4 pre']]]]; simpl in Hnames;
    inversion Hnames; subst; clear Hnames.
  - rewrite Hp. reflexivity.
  - destruct (Hthere "sim_stdout.log") as [so [Eso Dso]]; [simpl; tauto|].
    rewrite Eso, Dso, Hp. reflexivity.
  - destruct (Hthere "sim_stdout.log") as [so [Eso Dso]]; [simpl; tauto|].
    destruct (Hthere "sim_stderr.log") as [se [Ese Dse]]; [simpl; tauto|].
    rewrite Eso, Dso, Ese, Dse, Hp. cbv [bind emit ret raise].
    destruct (String.eqb se ""); reflexivity.
  - destruct (Hthere "sim_stdout.log") as [so [Eso Dso]]; [simpl; tauto|].
    destruct (Hthere "sim_stderr.log") as [se [Ese Dse]]; [simpl; tauto|].
    destruct (Hthere "test_stdout.log") as [to [Eto Dto]]; [simpl; tauto|].
    rewrite Eso, Dso, Ese, Dse, Eto, Dto, Hp. cbv [bind emit ret raise].
    destruct (String.eqb se ""); reflexivity.
  - destruct pre'; discriminate.
Qed.

Lemma aggregate_raises l l0 rf l' t e tr :
  (forall l1, readLogs w l1 = Some (Raise e, l1, tr)) ->
  aggregate w l l0 = Some (rf, l', t) ->
  rf = Raise e.
Proof.
  intros Hlogs. unfold aggregate, print. rewrite bind_emit.
  rewrite (bind_raise _ _ _ _ _ _ (Hlogs l0)).
  intros H. inversion H. reflexivity.
Qed.

End MissingLog.

(** X9.  Lines 245-257 and 268-296.  [readLogs] opens the four logs in a
    fixed order and without a guard.  If one of them is missing, those
    before it being there and being text, every call of [run] that ends
    raises: the [FileNotFoundError] of the first missing log when no
    [poll()] reported the exit of the simulation, and otherwise the
    [ProcessLookupError] of the teardown, which is raised before the logs
    are reached.  Whatever happened before, the verdict is lost, and so is
    an exception of the [try] block. *)
Theorem X_missing_log_raises :
  forall w self fuel r t pre p post,
    exec_M (run w self fuel) = Some (r, t) ->
    log_names = pre ++ p :: post ->
    (forall q, In q pre -> log_file w q <> None /\ log_decodes w q = true) ->
    log_file w p = None ->
    r = Raise (if exit_seen t then ProcessLookupError else FileNotFoundError p).
Proof.
  intros w self fuel r t pre p post Hrun Hnames Hpre Hp.
  destruct (exec_M_inv _ _ _ Hrun) as [l' H].
  destruct (run_inv w self fuel _ _ _ _ H)
    as [rb [l1 [t1 [rf [t2 [Hb [Hf [-> Hr]]]]]]]].
  rewrite exit_seen_app,
    (exit_seen_quiet _ (run_finally_no_exit_poll w _ _ _ _ Hf)), orb_false_r,
    <- (run_try_collected w self fuel _ _ _ Hb).
  destruct (run_finally_cases w l1 rf l' t2 Hf)
    as [[Hc [Hrf _]]|[Hc [rest [_ Hagg]]]]; rewrite Hc.
  - subst rf. exact Hr.
  - assert (Hrf : rf = Raise (FileNotFoundError p)).
    { eapply aggregate_raises; [|exact Hagg].
      intros l0. exact (readLogs_missing w l0 pre p post Hnames Hpre Hp). }
    subst rf. exact Hr.
Qed.

Lemma X_missing_log_raises_witness :
  test_proc world_fresh = Some 0 /\
  result_of (exec_M (run world_fresh interactive_runner 2))
  = Raise (FileNotFoundError "test_stdout.log").
Proof.
  split; [reflexivity|].
  apply (X_missing_log_raises world_fresh interactive_runner 2 _
           (trace_of (exec_M (run world_fresh interactive_runner 2)))
           ["sim_stdout.log"; "sim_stderr.log"] "test_stdout.log"
           ["test_stderr.log"]).
  - vm_compute. reflexivity.
  - reflexivity.
  - intros q [<-|[<-|[]]]; split; [discriminate | reflexivity
                                   | discriminate | reflexivity].
  - reflexivity.
Defined.

(* ================================================================== *)
(** * The order of things in a run *)

Section Order.
Variable w : World.
Variable self : CosimTestRunner.

(** A setup that went through ends with the look for a stale config
    file and, when there is one, its removal. *)
Lemma run_setup_ret l l' ts :
  run_setup w self l = Some (Ret tt, l', ts) ->
  l' = l /\
  exists opens,
    ts = opens ++ EExists portFileName (path_exists w portFileName)
               :: (if path_exists w portFileName
                   then [ERemove portFileName] else []).
Proof.
  unfold run_setup, open_w. cbv zeta.
  destruct (can_open_w w "sim_stdout.log"), (can_open_w w "sim_stderr.log"),
    (interactive self), (can_open_w w "test_stdout.log"),
    (can_open_w w "test_stderr.log"), (path_exists w portFileName);
    cbv [bind emit ret raise app]; intros H; inversion H; subst;
    (split; [reflexivity|]);
    first [ exists [EOpenW "sim_stdout.log"; EOpenW "sim_stderr.log"];
            reflexivity
          | exists [EOpenW "sim_stdout.log"; EOpenW "sim_stderr.log";
                    EOpenW "test_stdout.log"; EOpenW "test_stderr.log"];
            reflexivity ].
Qed.

Lemma run_launch_cases l r l' tl :
  run_launch w self l = Some (r, l', tl) ->
  (exists pid, popen_pid w = Some pid /\ r = Ret tt /\
               l' = mkLocals (Some (running pid)) (testProc l) /\
               In (ELaunch (launch_cmd self) None pid) tl) \/
  (exists e, r = Raise e /\ l' = l /\ Forall not_launch tl).
Proof.
  unfold run_launch, print, subprocess_Popen, close. cbv zeta.
  rewrite launch_cmd_eq.
  destruct (popen_pid w) as [pid|];
    cbv [bind emit ret raise set_simProc app]; intros H; inversion H; subst.
  - left. exists pid. repeat split; auto. simpl. tauto.
  - right. eexists. repeat split. repeat constructor.
Qed.

Lemma run_after_launch_inv fuel l r l' t cmd pp rc :
  run_after_launch w self fuel l = Some (r, l', t) ->
  In (ERunTest cmd pp rc) t ->
  exists l1 tw port tr tp tt',
    wait_for_cfg w l = Some (Ret tt, l1, tw) /\
    read_port w fuel l1 = Some (Ret port, l1, tr) /\
    wait_for_rpc w port l1 = Some (Ret tt, l1, tp) /\
    run_test w self port l1 = Some (r, l', tt') /\
    t = tw ++ tr ++ tp ++ tt' /\
    Forall not_test (tw ++ tr ++ tp) /\
    In (ERunTest cmd pp rc) tt'.
Proof.
  intros H Hin. unfold run_after_launch in H.
  assert (Hw : emits_only not_test (wait_for_cfg w))
    by (apply wait_for_cfg_loop_emits; intros; exact I).
  assert (Hr : forall f, emits_only not_test (read_port w f))
    by (intros f; apply read_port_loop_emits; intros; exact I).
  assert (Hp : forall p, emits_only not_test (wait_for_rpc w p))
    by (intros p; apply wait_for_rpc_loop_emits; intros; exact I).
  assert (Hno : forall tr0, Forall not_test tr0 -> ~ In (ERunTest cmd pp rc) tr0).
  { intros tr0 Hall Hi. rewrite Forall_forall in Hall. exact (Hall _ Hi). }
  destruct (bind_inv _ _ _ _ _ _ H)
    as [[e [H1 _]]|[[] [l1 [tw [t2 [H1 [H2 ->]]]]]]].
  { exfalso. exact (Hno _ (Hw _ _ _ _ H1) Hin). }
  destruct (bind_inv _ _ _ _ _ _ H2)
    as [[e [H3 _]]|[port [l2 [tr [t3 [H3 [H4 ->]]]]]]].
  { exfalso. apply in_app_or in Hin. destruct Hin as [Hin|Hin];
      [exact (Hno _ (Hw _ _ _ _ H1) Hin) | exact (Hno _ (Hr _ _ _ _ _ H3) Hin)]. }
  assert (l2 = l1) by exact (read_port_loop_keeps w (fun x => x) _ _ _ _ _ _ _ H3).
  subst l2.
  destruct (bind_inv _ _ _ _ _ _ H4)
    as [[e [H5 _]]|[[] [l3 [tp [tt' [H5 [H6 ->]]]]]]].
  { exfalso. apply in_app_or in Hin. destruct Hin as [Hin|Hin];
      [exact (Hno _ (Hw _ _ _ _ H1) Hin)|].
    apply in_app_or in Hin. destruct Hin as [Hin|Hin];
      [exact (Hno _ (Hr _ _ _ _ _ H3) Hin) | exact (Hno _ (Hp _ _ _ _ _ H5) Hin)]. }
  assert (l3 = l1).
  { pose proof (wait_for_rpc_ret_port_ok w port _ _ _ H5) as Hok.
    destruct (wait_for_rpc_shape w port _ _ _ _ Hok H5) as [n [_ [_ Hcases]]].
    destruct Hcases as [[_ [Hl _]]|[[Hr' _]|[code [Hr' _]]]];
      [exact Hl | discriminate Hr' | discriminate Hr']. }
  subst l3.
  assert (Hpre : Forall not_test (tw ++ tr ++ tp)).
  { apply Forall_app. split; [exact (Hw _ _ _ _ H1)|].
    apply Forall_app. split; [exact (Hr _ _ _ _ _ H3) | exact (Hp _ _ _ _ _ H5)]. }
  exists l1, tw, port, tr, tp, tt'. repeat split; auto.
  rewrite !app_assoc in Hin. apply in_app_or in Hin.
  destruct Hin as [Hin|Hin]; [|exact Hin].
  rewrite <- !app_assoc in Hin. exfalso. exact (Hno _ Hpre Hin).
Qed.

End Order.

Lemma In_not_launch t cmd dbg pid :
  Forall not_launch t -> In (ELaunch cmd dbg pid) t -> False.
Proof. intros Hall Hin. exact (Forall_not_launch_In _ _ _ _ Hall Hin). Qed.

(** X10.  Lines 154-158 of [run].  In every call of [run] that ends and that
    launched the simulation, a config file left in the working directory
    was removed before the launch: the port that is read later was written
    by this simulation. *)
Theorem X_stale_config_removed_before_launch :
  forall w self fuel r t cmd dbg pid,
    exec_M (run w self fuel) = Some (r, t) ->
    path_exists w portFileName = true ->
    In (ELaunch cmd dbg pid) t ->
    exists before after,
      t = before ++ ERemove portFileName :: after /\
      Forall not_launch before /\
      In (ELaunch cmd dbg pid) after.
Proof.
  intros w self fuel r t cmd dbg pid Hrun Hstale Hin.
  destruct (exec_M_inv _ _ _ Hrun) as [l' H].
  destruct (run_inv w self fuel _ _ _ _ H)
    as [rb [l1 [t1 [rf [t2 [Hb [Hf [-> _]]]]]]]].
  destruct (run_finally_inv w l1 rf l' t2 Hf) as [_ [_ [_ [Hnl _]]]].
  apply in_app_or in Hin. destruct Hin as [Hin|Hin];
    [|exfalso; exact (In_not_launch _ _ _ _ Hnl Hin)].
  destruct (run_try_inv w self fuel _ _ _ _ Hb)
    as [[e [Hs _]]|[ls [ts [Hs Hrest]]]].
  { exfalso. exact (In_not_launch _ _ _ _ (run_setup_no_launch w self _ _ _ _ Hs) Hin). }
  pose proof (run_setup_no_launch w self _ _ _ _ Hs) as Hts.
  destruct (run_setup_ret w self _ _ _ Hs) as [_ [opens Hopens]].
  rewrite Hstale in Hopens.
  assert (Hsplit : exists rest, t1 = ts ++ rest /\ In (ELaunch cmd dbg pid) rest).
  { destruct Hrest as [[e [tl [_ [_ ->]]]]|[ll [tl [ta [_ [_ ->]]]]]];
      apply in_app_or in Hin; destruct Hin as [Hin|Hin];
      try (exfalso; exact (In_not_launch _ _ _ _ Hts Hin)); eauto. }
  destruct Hsplit as [rest [-> Hrest']].
  exists (opens ++ [EExists portFileName true]), (rest ++ t2).
  split; [|split].
  - rewrite Hopens, <- !app_assoc. reflexivity.
  - rewrite Hopens in Hts. apply Forall_app in Hts. destruct Hts as [Ho Hr].
    apply Forall_app. split; [exact Ho|]. repeat constructor.
  - apply in_or_app. left. exact Hrest'.
Qed.

Lemma X_stale_config_removed_before_launch_witness :
  exists before after,
    trace_of (exec_M (run world_stale Demo.runner 2))
    = before ++ ERemove portFileName :: after /\
    Forall not_launch before /\
    In (ELaunch [simRunScript Demo.runner; "--no-objdir"; ""] None 4242) after.
Proof.
  apply (X_stale_config_removed_before_launch world_stale Demo.runner 2 (Ret 0)).
  - vm_compute. reflexivity.
  - reflexivity.
  - vm_compute. tauto.
Defined.

(** X11.  Lines 243-252 of [run], the guard of the teardown.  A call of [run]
    that ends without having launched the simulation, because a log could
    not be opened or the launch itself failed, sends no signal, waits for
    nothing and kills nothing. *)
Theorem X_no_teardown_without_launch :
  forall w self fuel r t,
    exec_M (run w self fuel) = Some (r, t) ->
    Forall not_launch t ->
    Forall not_teardown t.
Proof.
  intros w self fuel r t Hrun Hnone.
  destruct (exec_M_inv _ _ _ Hrun) as [l' H].
  destruct (run_inv w self fuel _ _ _ _ H)
    as [rb [l1 [t1 [rf [t2 [Hb [Hf [-> _]]]]]]]].
  apply Forall_app in Hnone. destruct Hnone as [Hn1 _].
  destruct (run_finally_inv w l1 rf l' t2 Hf) as [rest [Ht2 [Hrest _]]].
  assert (Hsim : simProc l1 = None).
  { destruct (run_try_inv w self fuel _ _ _ _ Hb)
      as [[e [Hs _]]|[ls [ts [Hs Hcases]]]].
    - exact (run_setup_keeps w self simProc _ _ _ _ Hs).
    - pose proof (run_setup_keeps w self simProc _ _ _ _ Hs) as Hls.
      destruct Hcases as [[e [tl [Hl [_ ->]]]]|[ll [tl [ta [Hl [_ ->]]]]]].
      + destruct (run_launch_cases w self _ _ _ _ Hl)
          as [[pid [_ [Hr _]]]|[e' [_ [-> _]]]]; [discriminate Hr | exact Hls].
      + exfalso.
        destruct (run_launch_cases w self _ _ _ _ Hl)
          as [[pid [_ [_ [_ Hin]]]]|[e' [Hr _]]]; [|discriminate Hr].
        apply (In_not_launch _ (launch_cmd self) None pid Hn1).
        apply in_or_app. right. apply in_or_app. left. exact Hin. }
  unfold collected, sim_pid in Ht2. rewrite Hsim in Ht2. subst t2.
  apply Forall_app. split; [|exact Hrest].
  exact (run_try_no_teardown w self fuel _ _ _ _ Hb).
Qed.

Lemma X_no_teardown_without_launch_witness :
  result_of (exec_M (run world_no_launch Demo.runner 1))
  = Raise (OSError "subprocess.Popen") /\
  Forall not_teardown (trace_of (exec_M (run world_no_launch Demo.runner 1))).
Proof.
  split; [vm_compute; reflexivity|].
  apply (X_no_teardown_without_launch world_no_launch Demo.runner 1
           (result_of (exec_M (run world_no_launch Demo.runner 1)))).
  - vm_compute. reflexivity.
  - vm_compute. repeat constructor.
Defined.

Lemma run_finally_no_test w : emits_only not_test (run_finally w).
Proof.
  unfold run_finally, teardown, aggregate, readLogs, read_log, print. frame.
Qed.

(** X12.  Lines 178-239 of [run], the order of the phases.  A test process is
    started only after the simulation was launched and a probe connected
    to the port, and that port is the number on the last matching line of
    the read of the config file that first held one.  Nothing between the
    launch and that successful probe starts a test. *)
Theorem X_test_starts_after_ready :
  forall w self fuel r t cmd pp rc,
    exec_M (run w self fuel) = Some (r, t) ->
    In (ERunTest cmd pp rc) t ->
    exists before port after,
      t = before ++ probe port 0 ++ after /\
      Forall not_test before /\
      (exists pid, In (ELaunch (launch_cmd self) None pid) before) /\
      In (ERunTest cmd pp rc) after /\
      exists n text line g,
        cfg_read w n = Some text /\
        last_port_line (PyStr.readlines text) line g /\
        port = PyStr.int g.
Proof.
  intros w self fuel r t cmd pp rc Hrun Hin.
  assert (Hno : forall tr0, Forall not_test tr0 -> ~ In (ERunTest cmd pp rc) tr0).
  { intros tr0 Hall Hi. rewrite Forall_forall in Hall. exact (Hall _ Hi). }
  destruct (exec_M_inv _ _ _ Hrun) as [l' H].
  destruct (run_inv w self fuel _ _ _ _ H)
    as [rb [l1 [t1 [rf [t2 [Hb [Hf [-> _]]]]]]]].
  assert (Hfin : Forall not_test t2)
    by exact (run_finally_no_test w _ _ _ _ Hf).
  apply in_app_or in Hin. destruct Hin as [Hin|Hin]; [|exfalso; exact (Hno _ Hfin Hin)].
  assert (Hsetup : emits_only not_test (run_setup w self))
    by (unfold run_setup, open_w; frame).
  assert (Hlaunch : emits_only not_test (run_launch w self))
    by (unfold run_launch, print, subprocess_Popen, close; frame).
  destruct (run_try_inv w self fuel _ _ _ _ Hb)
    as [[e [Hs _]]|[ls [ts [Hs Hcases]]]].
  { exfalso. exact (Hno _ (Hsetup _ _ _ _ Hs) Hin). }
  destruct Hcases as [[e [tl [Hl [_ ->]]]]|[ll [tl [ta [Hl [Ha ->]]]]]].
  { exfalso. apply in_app_or in Hin. destruct Hin as [Hin|Hin];
      [exact (Hno _ (Hsetup _ _ _ _ Hs) Hin) | exact (Hno _ (Hlaunch _ _ _ _ Hl) Hin)]. }
  assert (Hin' : In (ERunTest cmd pp rc) ta).
  { apply in_app_or in Hin. destruct Hin as [Hin|Hin];
      [exfalso; exact (Hno _ (Hsetup _ _ _ _ Hs) Hin)|].
    apply in_app_or in Hin. destruct Hin as [Hin|Hin];
      [exfalso; exact (Hno _ (Hlaunch _ _ _ _ Hl) Hin) | exact Hin]. }
  destruct (run_after_launch_inv w self fuel _ _ _ _ _ _ _ Ha Hin')
    as [lw [tw [port [tr [tp [tt' [Hw [Hr [Hp [Ht [-> [Hpre Htest]]]]]]]]]]]].
  pose proof (wait_for_rpc_ret_port_ok w port _ _ _ Hp) as Hok.
  destruct (wait_for_rpc_shape w port _ _ _ _ Hok Hp) as [n [_ [_ Hshape]]].
  destruct Hshape as [[_ [_ [_ Htp]]]|[[Hbad _]|[code [Hbad _]]]];
    try discriminate Hbad.
  destruct (read_port_loop_ret w fuel 0%nat (-1) _ _ _ _ ltac:(lia) Hr)
    as [_ [k [text [line [g [_ [Hread [Hlast [Hport _]]]]]]]]].
  destruct (run_launch_cases w self _ _ _ _ Hl)
    as [[pid [_ [_ [_ Hpid]]]]|[e' [Hbad _]]]; [|discriminate Hbad].
  exists (ts ++ tl ++ tw ++ tr ++ rpc_retries w port 0 n), port, (tt' ++ t2).
  split; [|split; [|split; [|split]]].
  - subst tp. rewrite <- !app_assoc. reflexivity.
  - subst tp. apply Forall_app. split; [exact (Hsetup _ _ _ _ Hs)|].
    apply Forall_app. split; [exact (Hlaunch _ _ _ _ Hl)|].
    rewrite !app_assoc in Hpre. apply Forall_app in Hpre.
    destruct Hpre as [Hpre _]. rewrite <- !app_assoc in Hpre. exact Hpre.
  - exists pid. apply in_or_app. right. apply in_or_app. left. exact Hpid.
  - apply in_or_app. left. exact Htest.
  - exists k, text, line, g. auto.
Qed.

Lemma X_test_starts_after_ready_witness :
  exists before port after,
    trace_of (exec_M (run Demo.world Demo.runner 2))
    = before ++ probe port 0 ++ after /\
    Forall not_test before /\
    (exists pid, In (ELaunch (launch_cmd Demo.runner) None pid) before) /\
    In (ERunTest ["/usr/bin/python3"; "-u"; "script.py"]
                 "/opt/circt/python:/opt/circt/bin" 0) after /\
    exists n text line g,
      cfg_read Demo.world n = Some text /\
      last_port_line (PyStr.readlines text) line g /\
      port = PyStr.int g.
Proof.
  apply (X_test_starts_after_ready Demo.world Demo.runner 2 (Ret 0)).
  - vm_compute. reflexivity.
  - vm_compute. tauto.
Defined.

(* ================================================================== *)
(** * The report and the cause of a failure *)

Section Report.
Variable w : World.
Variable self : CosimTestRunner.

(** What [readLogs] returns when the four logs are there. *)
Lemma readLogs_ret_full l err logs l' tr :
  readLogs w l = Some (Ret (err, logs), l', tr) ->
  l' = l /\ tr = map EReadLog log_names /\
  exists rest, logs = "----- Simulation stdout -----" +++ PyStr.nl +++ rest.
Proof.
  unfold readLogs, read_log.
  case_log w "sim_stdout.log" so; case_log w "sim_stderr.log" se;
    case_log w "test_stdout.log" to; case_log w "test_stderr.log" te;
    cbv [bind emit ret raise];
    try destruct (String.eqb se "");
    try destruct (String.eqb te "");
    cbv beta iota; intros H; try discriminate H.
  all: inversion H; subst; split; [reflexivity|]; split; [reflexivity|].
  all: rewrite !append_assoc_r; eexists; reflexivity.
Qed.

(** The verdict and what is printed with it. *)
Lemma aggregate_ret l l0 passed l' t :
  aggregate w l l0 = Some (Ret passed, l', t) ->
  exists err logs,
    readLogs w l0 = Some (Ret (err, logs), l0, map EReadLog log_names) /\
    passed = match testProc l with
             | Some rc => (rc =? 0) && negb err
             | None => false
             end /\
    t = EPrint ("[INFO] Run time: " +++ run_time w)
        :: map EReadLog log_names
        ++ (if passed then []
            else [EPrint match testProc l with
                         | Some rc =>
                             logs +++ "---- Test process exit code: "
                                  +++ PyStr.str rc +++ PyStr.nl
                         | None => logs
                         end]).
Proof.
  unfold aggregate, print. rewrite bind_emit.
  destruct (bind (readLogs w) _ l0) as [[[r1 l1] t1]|] eqn:Hb; [|discriminate].
  intros H. inversion H; subst. clear H.
  destruct (bind_inv _ _ _ _ _ _ Hb)
    as [[e [_ He]]|[[err logs] [l2 [t2 [t3 [Hlogs [Hk ->]]]]]]]; [discriminate He|].
  destruct (readLogs_ret_full _ _ _ _ _ Hlogs) as [-> [-> _]].
  exists err, logs. split; [exact Hlogs|].
  revert Hk.
  destruct (testProc l) as [rc|]; [destruct (rc =? 0)|]; destruct err;
    cbv [bind emit ret andb negb]; intros Hk; inversion Hk; subst;
    split; reflexivity.
Qed.

Lemma run_finally_ret l passed l' t :
  run_finally w l = Some (Ret passed, l', t) ->
  exists td t', t = td ++ t' /\ aggregate w l l = Some (Ret passed, l', t').
Proof.
  intros H.
  destruct (run_finally_cases w _ _ _ _ H)
    as [[_ [Hr _]]|[_ [rest [Ht Hagg]]]]; [discriminate Hr | eauto].
Qed.

(** Outside the server-only mode a test phase that went through has
    recorded the exit code of the test. *)
Lemma run_test_ret port l l' t :
  run_test w self port l = Some (Ret tt, l', t) ->
  server_only self = false ->
  exists rc, test_proc w = Some rc /\ testProc l' = Some rc.
Proof.
  intros H Hso. unfold run_test in H. rewrite Hso in H.
  destruct (bind_inv _ _ _ _ _ _ H)
    as [[e [_ He]]|[[] [l1 [t1 [t2 [_ [H2 _]]]]]]]; [discriminate He|].
  destruct (bind_inv _ _ _ _ _ _ H2)
    as [[e [_ He]]|[pp [l2 [t3 [t4 [_ [H3 _]]]]]]]; [discriminate He|].
  cbv zeta in H3. unfold print in H3. rewrite bind_emit in H3.
  unfold subprocess_run_test, close in H3.
  destruct (test_proc w) as [rc|]; revert H3;
    destruct (interactive self);
    cbv [bind emit ret raise set_testProc negb testProc]; intros H3;
    inversion H3; subst; exists rc; split; reflexivity.
Qed.

Lemma run_try_ret fuel l l' t :
  run_try w self fuel l = Some (Ret tt, l', t) ->
  server_only self = false ->
  exists rc, test_proc w = Some rc /\ testProc l' = Some rc.
Proof.
  intros H Hso.
  destruct (run_try_inv w self fuel _ _ _ _ H)
    as [[e [_ He]]|[ls [ts [_ [[e [tl [_ [He _]]]]|[ll [tl [ta [_ [Ha _]]]]]]]]]];
    try discriminate He.
  unfold run_after_launch in Ha.
  destruct (bind_inv _ _ _ _ _ _ Ha)
    as [[e [_ He]]|[[] [l1 [t1 [t2 [_ [H2 _]]]]]]]; [discriminate He|].
  destruct (bind_inv _ _ _ _ _ _ H2)
    as [[e [_ He]]|[port [l2 [t3 [t4 [_ [H3 _]]]]]]]; [discriminate He|].
  destruct (bind_inv _ _ _ _ _ _ H3)
    as [[e [_ He]]|[[] [l3 [t5 [t6 [_ [H4 _]]]]]]]; [discriminate He|].
  exact (run_test_ret port _ _ _ H4 Hso).
Qed.

End Report.

(** X13.  A failed test run is explained.  When [run], outside the
    server-only mode, returns 1, the test process did run and either it
    returned a non-zero exit code or one of the two stderr logs is not
    empty; and the last thing [run] does is print the report, which opens
    with the simulation's stdout header and closes with the line giving
    the exit code of the test. *)
Theorem X_failed_run_is_explained :
  forall w self fuel t,
    server_only self = false ->
    exec_M (run w self fuel) = Some (Ret 1, t) ->
    exists rc sim_err test_err before body,
      test_proc w = Some rc /\
      log_file w "sim_stderr.log" = Some sim_err /\
      log_file w "test_stderr.log" = Some test_err /\
      (rc <> 0 \/ sim_err <> "" \/ test_err <> "") /\
      t = before ++
          [EPrint ("----- Simulation stdout -----" +++ PyStr.nl +++ body
                   +++ "---- Test process exit code: "
                   +++ PyStr.str rc +++ PyStr.nl)].
Proof.
  intros w self fuel t Hso Hrun.
  destruct (exec_M_inv _ _ _ Hrun) as [l' H].
  destruct (run_inv w self fuel _ _ _ _ H)
    as [rb [l1 [t1 [rf [t2 [Hb [Hf [-> Hr]]]]]]]].
  destruct rf as [passed|e]; [|discriminate Hr].
  destruct rb as [[]|e]; [|discriminate Hr].
  destruct passed; [discriminate Hr|]. clear Hr.
  destruct (run_try_ret w self fuel _ _ _ Hb Hso) as [rc [Hrc Htest]].
  destruct (run_finally_ret w _ _ _ _ Hf) as [td [t' [-> Hagg]]].
  destruct (aggregate_ret w _ _ _ _ _ Hagg) as [err [logs [Hlogs [Hpass ->]]]].
  rewrite Htest in Hpass |- *.
  destruct (readLogs_ret w _ _ _ _ _ Hlogs) as [se [te [Hse [Hte Herr]]]].
  destruct (readLogs_ret_full w _ _ _ _ _ Hlogs) as [_ [_ [body ->]]].
  exists rc, se, te,
    (t1 ++ td ++ EPrint ("[INFO] Run time: " +++ run_time w)
        :: map EReadLog log_names), body.
  split; [exact Hrc|]. split; [exact Hse|]. split; [exact Hte|]. split.
  - symmetry in Hpass. apply andb_false_iff in Hpass.
    destruct Hpass as [Hz|He].
    + left. apply Z.eqb_neq. exact Hz.
    + right. apply negb_false_iff in He. rewrite Herr in He.
      apply orb_true_iff in He. destruct He as [He|He];
        apply negb_true_iff in He; apply String.eqb_neq in He; auto.
  - rewrite !append_assoc_r, <- !app_assoc. reflexivity.
Qed.

Lemma X_failed_run_is_explained_witness :
  exists rc sim_err test_err before body,
    test_proc Demo.world_stderr = Some rc /\
    log_file Demo.world_stderr "sim_stderr.log" = Some sim_err /\
    log_file Demo.world_stderr "test_stderr.log" = Some test_err /\
    (rc <> 0 \/ sim_err <> "" \/ test_err <> "") /\
    trace_of (exec_M (run Demo.world_stderr Demo.runner 2)) =
      before ++
      [EPrint ("----- Simulation stdout -----" +++ PyStr.nl +++ body
               +++ "---- Test process exit code: "
               +++ PyStr.str rc +++ PyStr.nl)].
Proof.
  apply (X_failed_run_is_explained Demo.world_stderr Demo.runner 2).
  - reflexivity.
  - vm_compute. reflexivity.
Defined.

(** X14.  A run that passes prints no log.  When [run] returns 0 the last
    things it does are to print the run time and to read the four logs;
    nothing is printed after the logs were read. *)
Theorem X_passed_run_prints_no_logs :
  forall w self fuel t,
    exec_M (run w self fuel) = Some (Ret 0, t) ->
    exists before,
      t = before ++ EPrint ("[INFO] Run time: " +++ run_time w)
                 :: map EReadLog log_names.
Proof.
  intros w self fuel t Hrun.
  destruct (exec_M_inv _ _ _ Hrun) as [l' H].
  destruct (run_inv w self fuel _ _ _ _ H)
    as [rb [l1 [t1 [rf [t2 [Hb [Hf [-> Hr]]]]]]]].
  destruct rf as [passed|e]; [|discriminate Hr].
  destruct rb as [[]|e]; [|discriminate Hr].
  destruct passed; [|discriminate Hr]. clear Hr.
  destruct (run_finally_ret w _ _ _ _ Hf) as [td [t' [-> Hagg]]].
  destruct (aggregate_ret w _ _ _ _ _ Hagg) as [err [logs [_ [_ ->]]]].
  exists (t1 ++ td). rewrite app_nil_r, <- app_assoc. reflexivity.
Qed.

Lemma X_passed_run_prints_no_logs_witness :
  exists before,
    trace_of (exec_M (run Demo.world Demo.runner 2)) =
      before ++ EPrint ("[INFO] Run time: " +++ run_time Demo.world)
             :: map EReadLog log_names.
Proof.
  apply (X_passed_run_prints_no_logs Demo.world Demo.runner 2).
  vm_compute. reflexivity.
Defined.

(* ================================================================== *)
(** * How long [run] may sleep *)

Lemma sleep_total_app t1 t2 :
  sleep_total (t1 ++ t2) = sleep_total t1 + sleep_total t2.
Proof.
  induction t1 as [|e t1 IH]; [reflexivity|].
  destruct e; cbn [app sleep_total]; rewrite IH; lia.
Qed.

Lemma no_sleep_total t : Forall not_sleep t -> sleep_total t = 0.
Proof.
  induction 1 as [|e t He _ IH]; [reflexivity|].
  destruct e; cbn [sleep_total]; try exact IH. destruct He.
Qed.

Section Sleeping.
Variable w : World.
Variable self : CosimTestRunner.

(** From the look numbered [c] on, the wait for the config file sleeps
    at most once per look that is left of its budget, and once less when
    it ends normally. *)
Lemma wait_for_cfg_loop_sleeps gas :
  forall c l r l' t,
    (c <= 200)%nat ->
    wait_for_cfg_loop w gas c l = Some (r, l', t) ->
    sleep_total t <= 100 * (201 - Z.of_nat c) /\
    (r = Ret tt -> sleep_total t <= 100 * (200 - Z.of_nat c)).
Proof.
  induction gas as [|g IH]; intros c l r l' t Hc H;
    cbn [wait_for_cfg_loop] in H; [discriminate H|].
  cbv zeta in H. unfold sleep in H. rewrite bind_emit in H.
  destruct (cfg_exists w c); cbn [negb] in H.
  { cbv [ret] in H. inversion H; subst. cbn [sleep_total]. lia. }
  rewrite bind_poll in H.
  destruct (poll_disc w c).
  { cbv [ret] in H. inversion H; subst. cbn [sleep_total]. lia. }
  unfold polled in H. rewrite bind_emit in H.
  destruct (200 <? S c)%nat eqn:Hlim.
  { cbv [raise] in H. inversion H; subst. cbn [sleep_total].
    apply Nat.ltb_lt in Hlim. split; [lia | discriminate]. }
  apply Nat.ltb_ge in Hlim.
  destruct (wait_for_cfg_loop w g (S c) l) as [[[r1 l1] t1]|] eqn:Hrec;
    [|discriminate H].
  inversion H; subst. cbn [sleep_total].
  destruct (IH _ _ _ _ _ Hlim Hrec) as [Hall Hret].
  split; [lia | intros Hr; specialize (Hret Hr); lia].
Qed.

(** From the probe numbered [c] on, the wait for the port sleeps at most
    once per retry that is left of its budget. *)
Lemma wait_for_rpc_loop_sleeps gas :
  forall port c l r l' t,
    (c <= 200)%nat ->
    wait_for_rpc_loop w gas port c l = Some (r, l', t) ->
    sleep_total t <= 50 * (200 - Z.of_nat c).
Proof.
  induction gas as [|g IH]; intros port c l r l' t Hc H;
    cbn [wait_for_rpc_loop] in H; [discriminate H|].
  cbv zeta in H. unfold sleep in H.
  destruct (port_ok_dec port) as [Hok|Hbad].
  2:{ rewrite (bind_raise _ _ _ _ _ _ (isPortOpen_overflow w port c l Hbad)) in H.
      inversion H; subst. cbn [sleep_total]. lia. }
  rewrite (bind_ret _ _ _ _ _ _ (isPortOpen_eq w port c l Hok)) in H.
  match type of H with
  | match ?k with _ => _ end = _ =>
      destruct k as [[[r1 l1] t1]|] eqn:Hk; [|discriminate H]
  end.
  inversion H; subst. clear H.
  unfold probe. cbn [app sleep_total].
  destruct (connect_ex w c port =? 0); cbn [negb] in Hk.
  { cbv [ret] in Hk. inversion Hk; subst. cbn [sleep_total]. lia. }
  destruct (200 <? S c)%nat eqn:Hlim.
  { cbv [raise] in Hk. inversion Hk; subst. cbn [sleep_total]. lia. }
  apply Nat.ltb_ge in Hlim.
  rewrite bind_poll in Hk.
  destruct (poll_ready w c).
  { cbv [raise] in Hk. inversion Hk; subst. cbn [sleep_total]. lia. }
  unfold polled in Hk. rewrite bind_emit in Hk.
  destruct (wait_for_rpc_loop w g port (S c) l) as [[[r2 l2] t2]|] eqn:Hrec;
    [|discriminate Hk].
  inversion Hk; subst. cbn [sleep_total].
  pose proof (IH _ _ _ _ _ _ Hlim Hrec). lia.
Qed.

Lemma read_port_loop_no_sleep fuel :
  forall reads port, emits_only not_sleep (read_port_loop w fuel reads port).
Proof.
  induction fuel as [|n IH]; intros reads port; cbn [read_port_loop]; frame.
Qed.

Lemma run_test_no_sleep port : emits_only not_sleep (run_test w self port).
Proof.
  unfold run_test, writeScript, open_w, close, input, print, subprocess_run_test.
  cbv zeta. frame.
Qed.

Lemma run_after_launch_sleeps fuel l r l' t :
  run_after_launch w self fuel l = Some (r, l', t) ->
  sleep_total t <= 30000.
Proof.
  unfold run_after_launch, wait_for_cfg, read_port, wait_for_rpc. intros H.
  destruct (bind_inv _ _ _ _ _ _ H)
    as [[e [Hw _]]|[[] [l1 [t1 [t2 [Hw [H2 ->]]]]]]].
  { destruct (wait_for_cfg_loop_sleeps _ _ _ _ _ _ (Nat.le_0_l 200) Hw) as [Hs _].
    cbn in Hs. lia. }
  destruct (wait_for_cfg_loop_sleeps _ _ _ _ _ _ (Nat.le_0_l 200) Hw) as [_ Hs].
  specialize (Hs eq_refl). cbn in Hs.
  rewrite sleep_total_app.
  destruct (bind_inv _ _ _ _ _ _ H2)
    as [[e [Hr _]]|[port [l2 [t3 [t4 [Hr [H3 ->]]]]]]].
  { rewrite (no_sleep_total _ (read_port_loop_no_sleep _ _ _ _ _ _ _ Hr)). lia. }
  rewrite sleep_total_app,
    (no_sleep_total _ (read_port_loop_no_sleep _ _ _ _ _ _ _ Hr)).
  destruct (bind_inv _ _ _ _ _ _ H3)
    as [[e [Hp _]]|[[] [l3 [t5 [t6 [Hp [H4 ->]]]]]]].
  { pose proof (wait_for_rpc_loop_sleeps _ _ _ _ _ _ _ (Nat.le_0_l 200) Hp) as Hq.
    cbn in Hq. lia. }
  pose proof (wait_for_rpc_loop_sleeps _ _ _ _ _ _ _ (Nat.le_0_l 200) Hp) as Hq.
  cbn in Hq. rewrite sleep_total_app,
    (no_sleep_total _ (run_test_no_sleep _ _ _ _ _ H4)). lia.
Qed.

Lemma run_sleeps fuel l r l' t :
  run w self fuel l = Some (r, l', t) -> sleep_total t <= 30000.
Proof.
  intros H.
  destruct (run_inv w self fuel _ _ _ _ H)
    as [rb [l1 [t1 [rf [t2 [Hb [Hf [-> _]]]]]]]].
  assert (Hfin : emits_only not_sleep (run_finally w))
    by (unfold run_finally, teardown, aggregate, readLogs, read_log, print; frame).
  assert (Hsetup : emits_only not_sleep (run_setup w self))
    by (unfold run_setup, open_w; frame).
  assert (Hlaunch : emits_only not_sleep (run_launch w self))
    by (unfold run_launch, print, subprocess_Popen, close; frame).
  rewrite sleep_total_app, (no_sleep_total _ (Hfin _ _ _ _ Hf)).
  destruct (run_try_inv w self fuel _ _ _ _ Hb)
    as [[e [Hs ->]]|[ls [ts [Hs Hcases]]]].
  { rewrite (no_sleep_total _ (Hsetup _ _ _ _ Hs)). lia. }
  pose proof (no_sleep_total _ (Hsetup _ _ _ _ Hs)) as H0.
  destruct Hcases as [[e [tl [Hl [_ ->]]]]|[ll [tl [ta [Hl [Ha ->]]]]]];
    pose proof (no_sleep_total _ (Hlaunch _ _ _ _ Hl)) as H1;
    rewrite ?sleep_total_app, H0, H1; [lia|].
  pose proof (run_after_launch_sleeps _ _ _ _ _ Ha). lia.
Qed.

End Sleeping.

(** X15.  The sleep budget.  The wait for the config file sleeps at most
    20.1 s in all, 20 s when it ends normally; the wait for the port
    sleeps at most 10 s; and since nothing else in [run] sleeps, a call
    of [run] that ends has slept at most 30 s, however it ends. *)
Theorem X_sleep_budget :
  forall w : World,
    (forall l r l' t,
        wait_for_cfg w l = Some (r, l', t) ->
        sleep_total t <= 20100 /\ (r = Ret tt -> sleep_total t <= 20000)) /\
    (forall port l r l' t,
        wait_for_rpc w port l = Some (r, l', t) -> sleep_total t <= 10000) /\
    (forall self fuel r t,
        exec_M (run w self fuel) = Some (r, t) -> sleep_total t <= 30000).
Proof.
  intros w. split; [|split].
  - intros l r l' t H.
    exact (wait_for_cfg_loop_sleeps w _ _ _ _ _ _ (Nat.le_0_l 200) H).
  - intros port l r l' t H.
    exact (wait_for_rpc_loop_sleeps w _ _ _ _ _ _ _ (Nat.le_0_l 200) H).
  - intros self fuel r t Hrun.
    destruct (exec_M_inv _ _ _ Hrun) as [l' H].
    exact (run_sleeps w self fuel _ _ _ _ H).
Qed.

Lemma X_sleep_budget_witness :
  sleep_total (trace_of (exec_M (run world_slowest Demo.runner 2))) <= 30000.
Proof.
  apply (proj2 (proj2 (X_sleep_budget world_slowest)) Demo.runner 2%nat (Ret 0)).
  vm_compute. reflexivity.
Defined.

(** The budget is used up by the slowest start that still succeeds. *)
Example run_slowest :
  option_map fst (exec_M (run world_slowest Demo.runner 2)) = Some (Ret 0) /\
  sleep_total (trace_of (exec_M (run world_slowest Demo.runner 2))) = 30000.
Proof. split; vm_compute; reflexivity. Qed.

(* ================================================================== *)
(** * The loop that reads the port has no bound *)

Section NoPort.
Variable w : World.
Hypothesis Hnever :
  forall n, exists text,
    cfg_read w n = Some text /\ no_port_line (PyStr.readlines text).

Lemma read_port_loop_spins fuel :
  forall reads port l,
    port < 0 -> read_port_loop w fuel reads port l = None.
Proof.
  induction fuel as [|f IH]; intros reads port l Hneg; cbn [read_port_loop];
    apply Z.ltb_lt in Hneg; rewrite Hneg; [reflexivity|].
  destruct (Hnever reads) as [text [Hread Hno]].
  rewrite Hread, bind_emit, (scan_port_none _ port Hno).
  rewrite IH; [reflexivity | apply Z.ltb_lt; exact Hneg].
Qed.

End NoPort.

(** X16.  The loop that reads the port has no bound and no pause.  While
    every read of [cosim.cfg] gives a text without a port line, the loop
    goes on, for every number of reads it is allowed: no counter and no
    look at the simulation ends it.  Then the phases after the launch do
    not end once the wait for the file has ended normally, and a call of
    [run] can end only by an exception raised before the loop. *)
Theorem X_port_loop_has_no_timeout :
  forall w : World,
    (forall n, exists text,
        cfg_read w n = Some text /\ no_port_line (PyStr.readlines text)) ->
    (forall fuel l, read_port w fuel l = None) /\
    (forall self fuel l l1 t1,
        wait_for_cfg w l = Some (Ret tt, l1, t1) ->
        run_after_launch w self fuel l = None) /\
    (forall self fuel r t,
        exec_M (run w self fuel) = Some (r, t) -> exists e, r = Raise e).
Proof.
  intros w Hnever.
  assert (Hspin : forall fuel l, read_port w fuel l = None).
  { intros fuel l. unfold read_port.
    apply (read_port_loop_spins w Hnever). lia. }
  assert (Hafter : forall self fuel l l1 t1,
             wait_for_cfg w l = Some (Ret tt, l1, t1) ->
             run_after_launch w self fuel l = None).
  { intros self fuel l l1 t1 Hw. unfold run_after_launch.
    rewrite (bind_ret _ _ _ _ _ _ Hw). unfold bind at 1.
    rewrite Hspin. reflexivity. }
  split; [exact Hspin|]. split; [exact Hafter|].
  intros self fuel r t Hrun.
  destruct (exec_M_inv _ _ _ Hrun) as [l' H].
  destruct (run_inv w self fuel _ _ _ _ H)
    as [rb [l1 [t1 [rf [t2 [Hb [Hf [_ Hr]]]]]]]].
  assert (Hbody : exists e, rb = Raise e).
  { destruct (run_try_inv w self fuel _ _ _ _ Hb)
      as [[e [_ He]]|[ls [ts [_ [[e [tl [_ [He _]]]]|[ll [tl [ta [_ [Ha _]]]]]]]]]];
      eauto.
    unfold run_after_launch in Ha.
    destruct (bind_inv _ _ _ _ _ _ Ha)
      as [[e [_ He]]|[[] [l2 [t3 [t4 [Hw [H2 _]]]]]]]; [eauto|].
    unfold bind in H2 at 1. rewrite Hspin in H2. discriminate H2. }
  destruct Hbody as [e ->].
  destruct rf as [passed|e']; eauto.
Qed.

Lemma X_port_loop_has_no_timeout_witness :
  read_port world_empty_cfg 1000 (mkLocals (Some (running 4242)) None) = None /\
  run_after_launch world_empty_cfg Demo.runner 1000 (mkLocals (Some (running 4242)) None)
  = None.
Proof.
  assert (Hnever : forall n, exists text,
             cfg_read world_empty_cfg n = Some text /\
             no_port_line (PyStr.readlines text)).
  { intros n. exists "". split; [reflexivity | intros x []]. }
  split.
  - apply (proj1 (X_port_loop_has_no_timeout world_empty_cfg Hnever)).
  - apply (proj1 (proj2 (X_port_loop_has_no_timeout world_empty_cfg Hnever))
             Demo.runner 1000%nat _ (mkLocals (Some (running 4242)) None)
             [EExists portFileName true]).
    reflexivity.
Defined.
